(** * PCB defect-detection pipeline: dataset tooling and status rule

    A shallow embedding of the dataset scripts
    ([scripts/convert_voc_to_yolo_with_splits.py], [scripts/split_dataset.py],
    [scripts/check_dataset.py], [scripts/fix_invalid_bbox.py],
    [scripts/fix_voc_labels.py]) and of the PCB status rule of
    [src/infer.py], followed by the properties established about them.

    Conventions of the embedding:
    - Python [float] is IEEE-754 binary64, modelled by [spec_float] with
      precision 53 and maximal exponent 1024;
    - Python [int] is [Z];
    - an exception is a value of [exn]; code that may raise lives in
      [result], loops stop at the first exception as the interpreter does;
    - a directory is a finite map from the names of its entries to their
      contents; names are flat (no path separator);
    - [print] is recorded as an [event] appended to a log. *)

From Stdlib Require Import ZArith List String Ascii Bool Lia Permutation.
From Stdlib Require Import Floats.SpecFloat.
From Stdlib Require Import DecimalString.
From stdpp Require Import base gmap sets list strings sorting.

Open Scope string_scope.
Open Scope list_scope.
Open Scope Z_scope.

(** ** Exceptions and the result monad *)

Inductive exn : Type :=
| AttributeError
| TypeError
| ValueError
| ZeroDivisionError
| OverflowError
| IndexError
| ParseError.

Definition result (A : Type) : Type := (exn + A)%type.

Definition ret {A : Type} (a : A) : result A := inr a.
Definition raise {A : Type} (e : exn) : result A := inl e.

Definition bind {A B : Type} (c : result A) (k : A -> result B) : result B :=
  match c with
  | inl e => inl e
  | inr a => k a
  end.

Notation "x <-- c ;; k" := (bind c (fun x => k))
  (at level 100, c at next level, right associativity).

(** [o.attr] where [o] may be [None]: attribute access on [None] raises. *)
Definition deref {A : Type} (o : option A) : result A :=
  match o with
  | Some a => ret a
  | None => raise AttributeError
  end.

(** ** Python floats *)

Module PyFloat.

Definition prec : Z := 53.
Definition emax : Z := 1024.

Definition of_Z (z : Z) : spec_float := binary_normalize prec emax z 0 false.

Definition zero : spec_float := S754_zero false.
Definition one : spec_float := Eval vm_compute in of_Z 1.
Definition two : spec_float := Eval vm_compute in of_Z 2.

Definition add : spec_float -> spec_float -> spec_float := SFadd prec emax.
Definition sub : spec_float -> spec_float -> spec_float := SFsub prec emax.
Definition mul : spec_float -> spec_float -> spec_float := SFmul prec emax.
Definition div : spec_float -> spec_float -> spec_float := SFdiv prec emax.

Definition is_zero (x : spec_float) : bool :=
  match x with
  | S754_zero _ => true
  | _ => false
  end.

(** Implicit conversion of an [int] operand: it overflows when the
    integer rounds beyond the largest finite float. *)
Definition of_int (z : Z) : result spec_float :=
  match of_Z z with
  | S754_infinity _ => raise OverflowError
  | f => ret f
  end.

(** [x / y] on floats. *)
Definition truediv (x y : spec_float) : result spec_float :=
  if is_zero y then raise ZeroDivisionError else ret (div x y).

(** [x / n] with [n] an [int]. *)
Definition truediv_int (x : spec_float) (n : Z) : result spec_float :=
  y <-- of_int n ;; truediv x y.

(** [min(a, b)] and [max(a, b)]: the first argument is kept unless the
    second one is strictly smaller (resp. larger). *)
Definition min2 (a b : spec_float) : spec_float := if SFltb b a then b else a.
Definition max2 (a b : spec_float) : spec_float := if SFltb a b then b else a.

(** Comparison of a float with an [int]; Python compares the exact values. *)
Definition compare_int (x : spec_float) (z : Z) : option comparison :=
  match x with
  | S754_nan => None
  | S754_infinity s => Some (if s then Lt else Gt)
  | S754_zero _ => Some (0 ?= z)
  | S754_finite s m e =>
      let v := if s then Zneg m else Zpos m in
      Some (if 0 <=? e then (v * 2 ^ e ?= z) else (v ?= z * 2 ^ (- e)))
  end.

(** [x < z], [x > z], [x <= z] and [x >= z] (also written [z <= x]) for an
    [int] [z]. *)
Definition lt_int (x : spec_float) (z : Z) : bool :=
  match compare_int x z with Some Lt => true | _ => false end.
Definition gt_int (x : spec_float) (z : Z) : bool :=
  match compare_int x z with Some Gt => true | _ => false end.
Definition le_int (x : spec_float) (z : Z) : bool :=
  match compare_int x z with Some (Lt | Eq) => true | _ => false end.
Definition ge_int (x : spec_float) (z : Z) : bool :=
  match compare_int x z with Some (Gt | Eq) => true | _ => false end.

(** [x >= y] on floats. *)
Definition geb (x y : spec_float) : bool := SFleb y x.

(** *** Fixed-point formatting, [format(x, '.6f')] *)

Definition digit_char (d : Z) : ascii :=
  ascii_of_nat (48 + Z.to_nat (d mod 10)).

(** The six digits of [n mod 10^6], most significant first. *)
Definition six_digits (n : Z) : string :=
  String (digit_char (n / 100000))
 (String (digit_char (n / 10000))
 (String (digit_char (n / 1000))
 (String (digit_char (n / 100))
 (String (digit_char (n / 10))
 (String (digit_char n) EmptyString))))).

Definition str_int (z : Z) : string := NilZero.string_of_int (Z.to_int z).

(** [round_half_even n d] is the integer nearest to [n / d] ([d > 0]),
    ties going to the even one. *)
Definition round_half_even (n d : Z) : Z :=
  let q := n / d in
  let r := n mod d in
  match 2 * r ?= d with
  | Lt => q
  | Gt => q + 1
  | Eq => if Z.even q then q else q + 1
  end.

(** The magnitude of a finite float, scaled by [10^6] and rounded. *)
Definition scaled_micro (m : positive) (e : Z) : Z :=
  if 0 <=? e then Zpos m * 2 ^ e * 1000000
  else round_half_even (Zpos m * 1000000) (2 ^ (- e)).

Definition fixed6 (neg : bool) (micro : Z) : string :=
  (if neg then "-" else "") +:+ str_int (micro / 1000000) +:+ "." +:+ six_digits micro.

Definition format_6f (x : spec_float) : string :=
  match x with
  | S754_nan => "nan"
  | S754_infinity s => if s then "-inf" else "inf"
  | S754_zero s => fixed6 s 0
  | S754_finite s m e => fixed6 s (scaled_micro m e)
  end.

End PyFloat.

(** ** Builtins and library calls taken as given

    The text-to-number conversions, tokenisation and path helpers of the
    Python runtime are parameters of the development: every property below
    holds whatever they compute. *)

Class PyRuntime : Type := {
  (** [int(s)]; [None] stands for [ValueError]. *)
  py_int : string -> option Z;
  (** [float(s)]; [None] stands for [ValueError]. *)
  py_float : string -> option spec_float;
  (** [s.strip().split()] *)
  str_split : string -> list string;
  (** [s.lower()] *)
  str_lower : string -> string;
  (** [os.path.splitext(name)[0]] *)
  splitext_root : string -> string;
  (** [os.path.basename(name)] *)
  basename : string -> string
}.

(** [int(t)] and [float(t)] applied to the [.text] of an element: [None]
    is rejected with [TypeError], unparsable text with [ValueError]. *)
Definition int_of_text `{PyRuntime} (t : option string) : result Z :=
  match t with
  | None => raise TypeError
  | Some s => match py_int s with Some z => ret z | None => raise ValueError end
  end.

Definition float_of_text `{PyRuntime} (t : option string) : result spec_float :=
  match t with
  | None => raise TypeError
  | Some s => match py_float s with Some x => ret x | None => raise ValueError end
  end.

(** [s.endswith(suffix)] *)
Definition endswith (s suffix : string) : bool :=
  let n := String.length s in
  let k := String.length suffix in
  (k <=? n)%nat && String.eqb (String.substring (n - k) k s) suffix.

(** ** XML element trees ([xml.etree.ElementTree]) *)

Module Xml.

#[warnings="-register-all"]
Inductive Element : Type :=
| Elem (tag : string) (text : option string) (children : list Element).

Definition tag (e : Element) : string :=
  match e with Elem t _ _ => t end.
Definition text (e : Element) : option string :=
  match e with Elem _ x _ => x end.
Definition children (e : Element) : list Element :=
  match e with Elem _ _ cs => cs end.

(** [e.find(name)]: the first direct child with that tag. *)
Definition find (name : string) (e : Element) : option Element :=
  List.find (fun c => String.eqb (tag c) name) (children e).

(** [e.iter(name)]: [e] itself and all its descendants with that tag,
    in document order. *)
Fixpoint iter (name : string) (e : Element) : list Element :=
  match e with
  | Elem t _ cs =>
      (if String.eqb t name then [e] else []) ++ flat_map (iter name) cs
  end.

End Xml.

(** ** [scripts/convert_voc_to_yolo_with_splits.py] *)

Module Convert.
Import Xml.

Definition CLASS_MAPPING : list (Z * string) :=
  [ (0, "控制适应标识"); (1, "无螺丝"); (2, "有螺丝"); (3, "电路板") ].

(** The search loop for the class id: the first entry of the table whose
    name equals the [.text] of the [name] element (which may be [None]). *)
Fixpoint lookup_class (mapping : list (Z * string)) (cls_name : option string)
  : option Z :=
  match mapping with
  | [] => None
  | (id_val, name_val) :: rest =>
      match cls_name with
      | Some s => if String.eqb name_val s then Some id_val
                  else lookup_class rest cls_name
      | None => lookup_class rest cls_name
      end
  end.

Inductive event : Type :=
| WarnXmlMissing (file_base : string)
| WarnNoSize (file_base : string)
| WarnNoFilename (file_base : string)
| WarnUnknownClass (cls_name : option string)
| WarnNoBndbox (file_base : string)
| WarnImageMissing (image_name : string)
| ErrorProcessing (file_base : string) (e : exn).

Definition newline : string := String (ascii_of_nat 10) EmptyString.

(** [max(0.0, min(1.0, v))] *)
Definition clamp01 (v : spec_float) : spec_float :=
  PyFloat.max2 PyFloat.zero (PyFloat.min2 PyFloat.one v).

(** The text of one label line. *)
Definition label_line (cls_id : Z) (x_center y_center width height : spec_float)
  : string :=
  PyFloat.str_int cls_id +:+ " " +:+ PyFloat.format_6f x_center +:+ " " +:+
  PyFloat.format_6f y_center +:+ " " +:+ PyFloat.format_6f width +:+ " " +:+
  PyFloat.format_6f height +:+ newline.

(** Conversion to the normalised form, clamping and formatting of one
    box; the divisions by the image size may raise. *)
Definition yolo_line (cls_id : Z) (xmin ymin xmax ymax : spec_float)
    (img_width img_height : Z) : result string :=
  xs <-- PyFloat.truediv (PyFloat.add xmin xmax) PyFloat.two ;;
  x_center <-- PyFloat.truediv_int xs img_width ;;
  ys <-- PyFloat.truediv (PyFloat.add ymin ymax) PyFloat.two ;;
  y_center <-- PyFloat.truediv_int ys img_height ;;
  width <-- PyFloat.truediv_int (PyFloat.sub xmax xmin) img_width ;;
  height <-- PyFloat.truediv_int (PyFloat.sub ymax ymin) img_height ;;
  ret (label_line cls_id (clamp01 x_center) (clamp01 y_center)
                  (clamp01 width) (clamp01 height)).

Inductive outcome : Type :=
| Written (line : string)
| Skipped (ev : event).

Section WithRuntime.
Context `{PyRuntime}.

(** [float(bbox.find(field).text)] *)
Definition coordinate (bbox : Element) (field : string) : result spec_float :=
  e <-- deref (find field bbox) ;; float_of_text (text e).

(** The body of the loop over the [object] elements of one file. *)
Definition convert_object (file_base : string) (img_width img_height : Z)
    (obj : Element) : result outcome :=
  name <-- deref (find "name" obj) ;;
  let cls_name := text name in
  match lookup_class CLASS_MAPPING cls_name with
  | None => ret (Skipped (WarnUnknownClass cls_name))
  | Some cls_id =>
      match find "bndbox" obj with
      | None => ret (Skipped (WarnNoBndbox file_base))
      | Some bbox =>
          xmin <-- coordinate bbox "xmin" ;;
          ymin <-- coordinate bbox "ymin" ;;
          xmax <-- coordinate bbox "xmax" ;;
          ymax <-- coordinate bbox "ymax" ;;
          line <-- yolo_line cls_id xmin ymin xmax ymax img_width img_height ;;
          ret (Written line)
      end
  end.

(** The loop itself: the lines written and the warnings printed until
    the loop ends or an exception escapes it. *)
Fixpoint write_objects (file_base : string) (img_width img_height : Z)
    (objs : list Element) : list string * list event * option exn :=
  match objs with
  | [] => ([], [], None)
  | obj :: rest =>
      match convert_object file_base img_width img_height obj with
      | inl e => ([], [], Some e)
      | inr (Written line) =>
          let '(lines, evs, r) := write_objects file_base img_width img_height rest in
          (line :: lines, evs, r)
      | inr (Skipped ev) =>
          let '(lines, evs, r) := write_objects file_base img_width img_height rest in
          (lines, ev :: evs, r)
      end
  end.

Inductive header : Type :=
| Header (img_width img_height : Z) (image_name : string)
| NoSize
| NoFilename.

(** Everything read before the label file is opened. *)
Definition read_header (root : Element) : result header :=
  match find "size" root with
  | None => ret NoSize
  | Some size =>
      we <-- deref (find "width" size) ;;
      img_width <-- int_of_text (text we) ;;
      he <-- deref (find "height" size) ;;
      img_height <-- int_of_text (text he) ;;
      fe <-- deref (find "filename" root) ;;
      match text fe with
      | None => ret NoFilename
      | Some image_name => ret (Header img_width img_height image_name)
      end
  end.

(** [ET.parse(xml_path)]: an annotation file either parses to a tree or
    makes the parser raise. *)
Definition et_parse (content : option Element) : result Element :=
  match content with
  | Some root => ret root
  | None => raise ParseError
  end.

(** The destination of the run: the label store, the image store, the
    console, and the counter of processed files. *)
Record state : Type := {
  labels : gmap string (list string);
  images : gmap string string;
  log : list event;
  processed_count : Z
}.

Definition say (ev : event) (st : state) : state :=
  {| labels := labels st; images := images st;
     log := log st ++ [ev]; processed_count := processed_count st |}.

Definition say_all (evs : list event) (st : state) : state :=
  {| labels := labels st; images := images st;
     log := log st ++ evs; processed_count := processed_count st |}.

(** [with open(txt_path, 'w') as f], followed by the writes: the file
    holds exactly what was written when it is closed. *)
Definition write_label (txt_filename : string) (lines : list string)
    (st : state) : state :=
  {| labels := <[txt_filename := lines]> (labels st); images := images st;
     log := log st; processed_count := processed_count st |}.

(** [shutil.copy2(image_path, output_images_dir)] and the increment. *)
Definition copy_image (image_name content : string) (st : state) : state :=
  {| labels := labels st;
     images := <[basename image_name := content]> (images st);
     log := log st; processed_count := processed_count st + 1 |}.

(** One iteration of the loop over [file_list]. *)
Definition process_file (voc_annotations : gmap string (option Element))
    (voc_images : gmap string string) (st : state) (file_base : string)
  : state :=
  match voc_annotations !! (file_base +:+ ".xml") with
  | None => say (WarnXmlMissing file_base) st
  | Some content =>
      match (root <-- et_parse content ;;
             hd <-- read_header root ;; ret (root, hd)) with
      | inl e => say (ErrorProcessing file_base e) st
      | inr (_, NoSize) => say (WarnNoSize file_base) st
      | inr (_, NoFilename) => say (WarnNoFilename file_base) st
      | inr (root, Header img_width img_height image_name) =>
          let '(lines, evs, r) :=
            write_objects file_base img_width img_height (iter "object" root) in
          let st1 := say_all evs (write_label (file_base +:+ ".txt") lines st) in
          match r with
          | Some e => say (ErrorProcessing file_base e) st1
          | None =>
              match voc_images !! image_name with
              | Some content => copy_image image_name content st1
              | None => say (WarnImageMissing image_name) st1
              end
          end
      end
  end.

Definition process_split (voc_annotations : gmap string (option Element))
    (voc_images : gmap string string) (st : state) (file_list : list string)
  : state :=
  fold_left (process_file voc_annotations voc_images) file_list st.

End WithRuntime.

End Convert.

(** ** [src/infer.py]: the PCB status rule *)

Module Infer.

(** One detection: [int(box.cls[0])], [float(box.conf[0])], [box.xyxy[0]]. *)
Record Box : Type := {
  cls : Z;
  conf : spec_float;
  xyxy : spec_float * spec_float * spec_float * spec_float
}.

(** A prediction result; [boxes] is [None] when the attribute is absent
    or set to [None]. *)
Record Result : Type := { boxes : option (list Box) }.

Inductive status : Type := normal | abnormal | unknown.

(** The loop over the boxes, threading the two flags. *)
Fixpoint scan_boxes (bs : list Box) (has_no_screw has_circuit_board : bool)
  : bool * bool :=
  match bs with
  | [] => (has_no_screw, has_circuit_board)
  | box :: rest =>
      let cls_id := cls box in
      if cls_id =? 1 then scan_boxes rest true has_circuit_board
      else if cls_id =? 3 then scan_boxes rest has_no_screw true
      else scan_boxes rest has_no_screw has_circuit_board
  end.

Definition _analyze_pcb_status (result : Result) : status :=
  match boxes result with
  | None => unknown
  | Some bs =>
      let '(has_no_screw, has_circuit_board) := scan_boxes bs false false in
      if has_circuit_board && has_no_screw then abnormal else normal
  end.

End Infer.

(** ** [scripts/split_dataset.py] *)

(** [numpy.random.RandomState(42).permutation(n)]: the shuffled indices
    drawn by [train_test_split(..., random_state=42)].  The generator is
    re-seeded at every call, so the indices depend on [n] alone. *)
Class SkRuntime : Type := {
  permutation42 : nat -> list nat;
  permutation42_spec : forall n : nat, Permutation (permutation42 n) (seq 0 n)
}.

Module Split.

(** *** [random.shuffle] on the process-wide generator

    The generator is never seeded by the script; its state is the
    sequence of raw values it is going to produce. *)
Definition rng : Type := list nat.

(** [randbelow(n)] *)
Definition randbelow (n : nat) (g : rng) : nat * rng :=
  match g with
  | [] => (0%nat, [])
  | r :: g' => ((r mod n)%nat, g')
  end.

(** [x[i], x[j] = x[j], x[i]] *)
Definition swap {A : Type} (x : list A) (i j : nat) : list A :=
  match x !! i, x !! j with
  | Some a, Some b => <[j := a]> (<[i := b]> x)
  | _, _ => x
  end.

(** [for i in reversed(range(1, len(x))): j = randbelow(i + 1); swap] *)
Fixpoint shuffle_from {A : Type} (i : nat) (x : list A) (g : rng) : list A * rng :=
  match i with
  | O => (x, g)
  | S i' =>
      let '(j, g') := randbelow (i + 1) g in
      shuffle_from i' (swap x i j) g'
  end.

Definition shuffle {A : Type} (x : list A) (g : rng) : list A * rng :=
  shuffle_from (length x - 1) x g.

(** *** [sklearn.model_selection.train_test_split] *)

(** [math.ceil] *)
Definition ceil (x : spec_float) : result Z :=
  match x with
  | S754_nan => raise ValueError
  | S754_infinity _ => raise OverflowError
  | S754_zero _ => ret 0
  | S754_finite s m e =>
      let v := if s then Zneg m else Zpos m in
      ret (if 0 <=? e then v * 2 ^ e else - ((- v) / 2 ^ (- e)))
  end.

(** Sizes of the two sides for a fractional [test_size] and no
    [train_size]: a fraction outside (0, 1) and an empty train side are
    rejected. *)
Definition validate_shuffle_split (n_samples : nat) (test_size : spec_float)
  : result (nat * nat) :=
  if PyFloat.le_int test_size 0 || PyFloat.ge_int test_size 1 then raise ValueError
  else
    n <-- PyFloat.of_int (Z.of_nat n_samples) ;;
    n_test <-- ceil (PyFloat.mul test_size n) ;;
    let n_train := Z.of_nat n_samples - n_test in
    if Z.of_nat n_samples <? n_train + n_test then raise ValueError
    else if n_train =? 0 then raise ValueError
    else ret (Z.to_nat n_train, Z.to_nat n_test).

(** [[a[i] for i in indices]] *)
Fixpoint safe_indexing {A : Type} (a : list A) (indices : list nat)
  : result (list A) :=
  match indices with
  | [] => ret []
  | i :: rest =>
      match a !! i with
      | None => raise IndexError
      | Some v => vs <-- safe_indexing a rest ;; ret (v :: vs)
      end
  end.

(** [train_test_split(arrays, test_size=test_size, random_state=42)] *)
Definition train_test_split `{SkRuntime} {A : Type} (arrays : list A)
    (test_size : spec_float) : result (list A * list A) :=
  let n_samples := length arrays in
  sizes <-- validate_shuffle_split n_samples test_size ;;
  let '(n_train, n_test) := sizes in
  let permutation := permutation42 n_samples in
  let ind_test := take n_test permutation in
  let ind_train := take n_train (drop n_test permutation) in
  train <-- safe_indexing arrays ind_train ;;
  test <-- safe_indexing arrays ind_test ;;
  ret (train, test).

(** *** The script *)

Inductive event : Type :=
| PrintTotal (n : nat)
| PrintRatios (train_percent val_percent test_percent : spec_float)
| PrintSizes (n_train n_val n_test : nat)
| WarnLabelMissing (src_label : string)
| PrintDone.

(** The [images] and [labels] sub-directories of one split. *)
Record split_dir : Type := {
  images : gmap string string;
  labels : gmap string string
}.

Definition image_suffixes : list string := [".jpg"; ".jpeg"; ".png"].
Definition candidate_exts : list string :=
  [".jpg"; ".jpeg"; ".png"; ".JPG"; ".JPEG"; ".PNG"].

(** [1e-5] *)
Definition tolerance : spec_float :=
  Eval vm_compute in PyFloat.div (PyFloat.of_Z 1) (PyFloat.of_Z 100000).

(** The inner loop over the candidate extensions: the content of the
    first existing source image. *)
Fixpoint find_source (input_images : gmap string string) (file_base : string)
    (exts : list string) : option string :=
  match exts with
  | [] => None
  | ext :: rest =>
      match input_images !! (file_base +:+ ext) with
      | Some content => Some content
      | None => find_source input_images file_base rest
      end
  end.

(** The body of the loop over the files of one split. *)
Definition copy_files (input_images input_labels : gmap string string)
    (acc : split_dir * list event) (file_base : string) : split_dir * list event :=
  let '(d, log) := acc in
  let imgs :=
    match find_source input_images file_base candidate_exts with
    | Some content => <[file_base +:+ ".jpg" := content]> (images d)
    | None => images d
    end in
  match input_labels !! (file_base +:+ ".txt") with
  | Some content =>
      ({| images := imgs; labels := <[file_base +:+ ".txt" := content]> (labels d) |},
       log)
  | None =>
      ({| images := imgs; labels := labels d |},
       log ++ [WarnLabelMissing (file_base +:+ ".txt")])
  end.

Definition copy_split (input_images input_labels : gmap string string)
    (d : split_dir) (log : list event) (files : list string)
  : split_dir * list event :=
  fold_left (copy_files input_images input_labels) files (d, log).

(** What a run leaves behind: the three file lists, the three output
    splits, the console and the state of the generator. *)
Record outcome : Type := {
  train_files : list string;
  val_files : list string;
  test_files : list string;
  train : split_dir;
  val : split_dir;
  test : split_dir;
  log : list event;
  generator : rng
}.

Section WithRuntime.
Context `{PyRuntime} `{SkRuntime}.

(** The sample keys of the directory listing. *)
Definition is_image (f : string) : bool :=
  existsb (endswith (str_lower f)) image_suffixes.

Definition image_keys (listing : list string) : list string :=
  map splitext_root (List.filter is_image listing).

(** [listing] is [os.listdir] of the input [images] directory, whose
    files are [input_images]; [out_train], [out_val], [out_test] are
    the output splits as found when the script starts. *)
Definition split_yolo_dataset (listing : list string)
    (input_images input_labels : gmap string string)
    (out_train out_val out_test : split_dir) (g : rng)
    (train_ratio val_ratio test_ratio : spec_float) : result outcome :=
  let total_ratio := PyFloat.add (PyFloat.add train_ratio val_ratio) test_ratio in
  if SFltb tolerance (SFabs (PyFloat.sub total_ratio PyFloat.one))
  then raise ValueError
  else
    let image_files := image_keys listing in
    let hundred := PyFloat.of_Z 100 in
    let log0 :=
      [ PrintTotal (length image_files);
        PrintRatios (PyFloat.mul train_ratio hundred) (PyFloat.mul val_ratio hundred)
                    (PyFloat.mul test_ratio hundred) ] in
    let '(image_files, g') := shuffle image_files g in
    split1 <-- train_test_split image_files (PyFloat.add val_ratio test_ratio) ;;
    let '(train_files, temp_files) := split1 in
    let val_test_ratio := PyFloat.add val_ratio test_ratio in
    val_ratio_adjusted <-- PyFloat.truediv val_ratio val_test_ratio ;;
    test_ratio_adjusted <-- PyFloat.truediv test_ratio val_test_ratio ;;
    split2 <-- train_test_split temp_files test_ratio_adjusted ;;
    let '(val_files, test_files) := split2 in
    let log1 := log0 ++ [PrintSizes (length train_files) (length val_files)
                              (length test_files)] in
    let '(d_train, log2) :=
      copy_split input_images input_labels out_train log1 train_files in
    let '(d_val, log3) :=
      copy_split input_images input_labels out_val log2 val_files in
    let '(d_test, log4) :=
      copy_split input_images input_labels out_test log3 test_files in
    ret {| train_files := train_files; val_files := val_files;
           test_files := test_files;
           train := d_train; val := d_val; test := d_test;
           log := log4 ++ [PrintDone]; generator := g' |}.

End WithRuntime.

End Split.

(** ** [scripts/check_dataset.py] *)

Module CheckDataset.

Definition CLASS_MAPPING : list (Z * string) :=
  [ (0, "控制适应标识"); (1, "无螺丝"); (2, "有螺丝"); (3, "电路板") ].

(** [cls_id in CLASS_MAPPING] *)
Definition known_class (cls_id : Z) : bool :=
  existsb (fun entry => fst entry =? cls_id) CLASS_MAPPING.

(** What the audit of one line ends with. *)
Inductive line_result : Type :=
| Counted (cls_id : Z) (width height : spec_float)
| BadFormat
| BadClass (cls_id : Z)
| OutOfRange
| BadNumber.

(** [0 <= v <= 1] *)
Definition in_unit (v : spec_float) : bool :=
  PyFloat.ge_int v 0 && PyFloat.le_int v 1.

(** What the checker prints.  A warning about dangling keys carries
    their number and the keys shown (the script shows five at most and
    only counts the others); the closing message of a failed check
    carries the sizes of the three sets, of which the script prints the
    ones that are not zero. *)
Inductive event : Type :=
| PrintHeader
| ErrorNoImagesDir
| ErrorNoLabelsDir
| PrintCounts (n_images n_labels : nat)
| WarnMissingImages (count : nat) (shown : list string)
| WarnMissingLabels (count : nat) (shown : list string)
| PrintValidPairs (n : nat)
| PrintAuditHeader
| ErrorLine (label_file : string) (line_num : nat) (r : line_result)
| ErrorReading (label_file : string)
| PrintClassHeader
| PrintClass (cls_id : Z) (count total : nat)
| PrintBoxesHeader
| PrintBoxes (cls_id : Z) (sizes : list (spec_float * spec_float))
| PrintSummaryHeader
| PrintPassed
| PrintFailed (n_missing_images n_missing_labels n_error_files : nat).

(** The tallies of the content audit. *)
Record tally : Type := {
  class_distribution : gmap Z nat;
  bbox_stats : gmap Z (list (spec_float * spec_float));
  error_files : list string;
  log : list event
}.

Definition count_of (cd : gmap Z nat) (cls_id : Z) : nat := default 0%nat (cd !! cls_id).
Definition boxes_of (bs : gmap Z (list (spec_float * spec_float))) (cls_id : Z)
  : list (spec_float * spec_float) := default [] (bs !! cls_id).

(** [error_files.append(label_file)] after the message is printed. *)
Definition flag (label_file : string) (ev : event) (t : tally) : tally :=
  {| class_distribution := class_distribution t; bbox_stats := bbox_stats t;
     error_files := error_files t ++ [label_file]; log := log t ++ [ev] |}.

(** [class_distribution[cls_id] += 1; bbox_stats[cls_id].append(...)] *)
Definition count (cls_id : Z) (width height : spec_float) (t : tally) : tally :=
  {| class_distribution :=
       <[cls_id := S (count_of (class_distribution t) cls_id)]> (class_distribution t);
     bbox_stats :=
       <[cls_id := boxes_of (bbox_stats t) cls_id ++ [(width, height)]]> (bbox_stats t);
     error_files := error_files t; log := log t |}.

Section WithRuntime.
Context `{PyRuntime}.

(** The audit of one line. *)
Definition check_line (line : string) : line_result :=
  match str_split line with
  | [p0; p1; p2; p3; p4] =>
      match py_int p0, py_float p1, py_float p2, py_float p3, py_float p4 with
      | Some cls_id, Some x_center, Some y_center, Some width, Some height =>
          if negb (known_class cls_id) then BadClass cls_id
          else if negb (in_unit x_center && in_unit y_center &&
                        in_unit width && in_unit height) then OutOfRange
          else Counted cls_id width height
      | _, _, _, _, _ => BadNumber
      end
  | _ => BadFormat
  end.

(** The loop over the lines of one file, [line_num] counting from 1. *)
Fixpoint check_lines (label_file : string) (line_num : nat) (lines : list string)
    (t : tally) : tally :=
  match lines with
  | [] => t
  | line :: rest =>
      let t' :=
        match check_line line with
        | Counted cls_id width height => count cls_id width height t
        | r => flag label_file (ErrorLine label_file line_num r) t
        end in
      check_lines label_file (S line_num) rest t'
  end.

(** A label file is either readable as a list of lines or makes
    [open]/[readlines] raise; a name absent from the directory raises
    as well. *)
Definition check_file (labels_dir : gmap string (option (list string)))
    (t : tally) (label_file : string) : tally :=
  match labels_dir !! (label_file +:+ ".txt") with
  | Some (Some lines) => check_lines label_file 1 lines t
  | _ => flag label_file (ErrorReading label_file) t
  end.

Definition is_image (f : string) : bool :=
  existsb (endswith (str_lower f)) [".jpg"; ".jpeg"; ".png"].

(** The sample keys of the two directories. *)
Definition image_keys (images_dir : gset string) : gset string :=
  set_map splitext_root (filter (fun f => is_image f = true) images_dir).

Definition label_keys (labels_dir : gmap string (option (list string)))
  : gset string :=
  set_map splitext_root (filter (fun f => endswith f ".txt" = true) (dom labels_dir)).

Definition empty_tally : tally :=
  {| class_distribution := ∅; bbox_stats := ∅; error_files := []; log := [] |}.

(** The content audit: the loop over the common keys. *)
Definition audit (labels_dir : gmap string (option (list string)))
    (common_files : gset string) : tally :=
  fold_left (check_file labels_dir) (elements common_files) empty_tally.

(** Keys of the table of a counter, in increasing order. *)
Definition sorted_keys {V : Type} (m : gmap Z V) : list Z :=
  merge_sort Z.le (elements (dom m)).

Definition warn_missing (mk : nat -> list string -> event) (missing : gset string)
  : list event :=
  if bool_decide (missing = ∅) then []
  else [mk (size missing) (take 5 (elements missing))].

(** The statistics printed after the audit: the two headings are
    printed whether or not there is a line to print below them. *)
Definition print_statistics (t : tally) : list event :=
  let total_objects :=
    foldr plus 0%nat (snd <$> map_to_list (class_distribution t)) in
  [PrintClassHeader] ++
  map (fun cls_id =>
         PrintClass cls_id (count_of (class_distribution t) cls_id) total_objects)
      (sorted_keys (class_distribution t)) ++
  [PrintBoxesHeader] ++
  map (fun cls_id => PrintBoxes cls_id (boxes_of (bbox_stats t) cls_id))
      (sorted_keys (bbox_stats t)).

(** [images_dir] and [labels_dir] are [None] when the directory does
    not exist; the function then returns [False] as soon as it has
    printed its heading and the error.  The result is the returned flag
    and what was printed. *)
Definition check_yolo_dataset (images_dir : option (gset string))
    (labels_dir : option (gmap string (option (list string))))
  : bool * list event :=
  match images_dir with
  | None => (false, [PrintHeader; ErrorNoImagesDir])
  | Some images =>
      match labels_dir with
      | None => (false, [PrintHeader; ErrorNoLabelsDir])
      | Some labels =>
          let image_files := image_keys images in
          let label_files := label_keys labels in
          let missing_images := label_files ∖ image_files in
          let missing_labels := image_files ∖ label_files in
          let common_files := image_files ∩ label_files in
          let head :=
            [PrintHeader; PrintCounts (size image_files) (size label_files)] ++
            warn_missing WarnMissingImages missing_images ++
            warn_missing WarnMissingLabels missing_labels ++
            [PrintValidPairs (size common_files); PrintAuditHeader] in
          let t := audit labels common_files in
          let ok :=
            bool_decide (missing_images = ∅) && bool_decide (missing_labels = ∅) &&
            bool_decide (error_files t = []) in
          let tail :=
            PrintSummaryHeader ::
            (if ok then [PrintPassed]
             else [PrintFailed (size missing_images) (size missing_labels)
                               (size (list_to_set (error_files t) : gset string))]) in
          (ok, head ++ log t ++ print_statistics t ++ tail)
      end
  end.

(** [main]: the exit code of the script, 0 on success and 1 on failure. *)
Definition main (images_dir : option (gset string))
    (labels_dir : option (gmap string (option (list string))))
  : Z * list event :=
  let '(success, console) := check_yolo_dataset images_dir labels_dir in
  (if success then 0 else 1, console).

End WithRuntime.

End CheckDataset.

(** ** [scripts/fix_invalid_bbox.py] *)

Module FixBBox.
Import Xml.

(** The chain of tests on one box: inverted on x, inverted on y, outside
    the image, smaller than four square pixels. *)
Definition bbox_is_invalid (img_width img_height : Z)
    (xmin_val ymin_val xmax_val ymax_val : spec_float) : bool :=
  if PyFloat.geb xmin_val xmax_val then true
  else if PyFloat.geb ymin_val ymax_val then true
  else if PyFloat.lt_int xmin_val 0 || PyFloat.lt_int ymin_val 0 ||
          PyFloat.gt_int xmax_val img_width || PyFloat.gt_int ymax_val img_height
  then true
  else if PyFloat.lt_int (PyFloat.mul (PyFloat.sub xmax_val xmin_val)
                                      (PyFloat.sub ymax_val ymin_val)) 4
  then true
  else false.

(** [root.iter(name)] with the position of every element found: the
    indices of the children followed from the root. *)
Fixpoint iter_at (name : string) (path : list nat) (e : Element)
  : list (list nat * Element) :=
  match e with
  | Elem t _ cs =>
      (if String.eqb t name then [(path, e)] else []) ++
      (fix go (i : nat) (l : list Element) : list (list nat * Element) :=
         match l with
         | [] => []
         | c :: l' => iter_at name (path ++ [i]) c ++ go (S i) l'
         end) 0%nat cs
  end.

(** Children of the root that are not at one of the given positions. *)
Fixpoint drop_at (marked : list nat) (i : nat) (cs : list Element) : list Element :=
  match cs with
  | [] => []
  | c :: rest =>
      if bool_decide (i ∈ marked) then drop_at marked (S i) rest
      else c :: drop_at marked (S i) rest
  end.

(** [for obj in objects_to_remove: root.remove(obj)]: [remove] looks for
    the very element among the children of the root and raises when it
    is not one of them. *)
Definition remove_all (marked : list (list nat)) (root : Element) : result Element :=
  if forallb (fun p => (length p =? 1)%nat) marked
  then ret (Elem (tag root) (text root) (drop_at (concat marked) 0 (children root)))
  else raise ValueError.

Section WithRuntime.
Context `{PyRuntime}.

(** The body of the loop over the objects: [true] when the object is
    put on [objects_to_remove].  A [ValueError] of the conversions is
    handled there; any other exception leaves the loop. *)
Definition inspect_object (img_width img_height : Z) (obj : Element) : result bool :=
  match find "bndbox" obj with
  | None => ret false
  | Some bbox =>
      match find "xmin" bbox, find "ymin" bbox, find "xmax" bbox, find "ymax" bbox with
      | Some xmin, Some ymin, Some xmax, Some ymax =>
          match (xmin_val <-- float_of_text (text xmin) ;;
                 ymin_val <-- float_of_text (text ymin) ;;
                 xmax_val <-- float_of_text (text xmax) ;;
                 ymax_val <-- float_of_text (text ymax) ;;
                 ret (bbox_is_invalid img_width img_height
                                      xmin_val ymin_val xmax_val ymax_val)) with
          | inl ValueError => ret true
          | r => r
          end
      | _, _, _, _ => ret false
      end
  end.

Fixpoint objects_to_remove (img_width img_height : Z)
    (objs : list (list nat * Element)) : result (list (list nat)) :=
  match objs with
  | [] => ret []
  | (path, obj) :: rest =>
      marked <-- inspect_object img_width img_height obj ;;
      others <-- objects_to_remove img_width img_height rest ;;
      ret (if marked then path :: others else others)
  end.

(** The returned flag and the tree written back to the file, if any. *)
Definition fix_invalid_bbox_advanced (content : option Element)
  : bool * option Element :=
  match (root <-- Convert.et_parse content ;;
         match find "size" root with
         | None => ret (false, None)
         | Some size =>
             we <-- deref (find "width" size) ;;
             img_width <-- int_of_text (text we) ;;
             he <-- deref (find "height" size) ;;
             img_height <-- int_of_text (text he) ;;
             marked <-- objects_to_remove img_width img_height
                                          (iter_at "object" [] root) ;;
             root' <-- remove_all marked root ;;
             ret (true, if (0 <? length marked)%nat then Some root' else None)
         end) with
  | inl _ => (false, None)
  | inr r => r
  end.

End WithRuntime.

End FixBBox.

(** ** [scripts/fix_voc_labels.py] *)

Module FixLabels.
Import Xml.

Definition set_text (x : option string) (e : Element) : Element :=
  Elem (tag e) x (children e).

(** Replace the first child carrying a tag, the one [find] returns. *)
Fixpoint update_first (name : string) (f : Element -> Element) (cs : list Element)
  : list Element :=
  match cs with
  | [] => []
  | c :: rest =>
      if String.eqb (tag c) name then f c :: rest
      else c :: update_first name f rest
  end.

(** [for obj in root.iter('object'): body(obj)] where the body updates
    [obj] in place.  Both loops of this script only rewrite the text of
    elements found through [find] from [obj] (its [name], the [xmin]
    and [xmax] of its [bndbox]); no other object reaches them, so the
    tree left by the loop does not depend on the order of the visit and
    is computed here from the leaves up. *)
Fixpoint for_each_object (body : Element -> result Element) (e : Element)
  : result Element :=
  match e with
  | Elem t x cs =>
      cs' <-- (fix go (l : list Element) : result (list Element) :=
                 match l with
                 | [] => ret []
                 | c :: l' =>
                     c' <-- for_each_object body c ;;
                     r <-- go l' ;;
                     ret (c' :: r)
                 end) cs ;;
      if String.eqb t "object" then body (Elem t x cs') else ret (Elem t x cs')
  end.

(** The exchange of the two class names. *)
Definition swap_label (obj : Element) : result Element :=
  match find "name" obj with
  | None => ret obj
  | Some cls_name =>
      let renamed (new : string) :=
        Elem (tag obj) (text obj)
             (update_first "name" (set_text (Some new)) (children obj)) in
      match text cls_name with
      | Some s =>
          if String.eqb s "无螺丝" then ret (renamed "电路板")
          else if String.eqb s "电路板" then ret (renamed "无螺丝")
          else ret obj
      | None => ret obj
      end
  end.

Section WithRuntime.
Context `{PyRuntime}.

(** The body of the loop of [fix_invalid_bbox]: the texts of [xmin]
    and [xmax] are exchanged when [xmin >= xmax]; the message printed
    afterwards reads [ymin.text] and [ymax.text]. *)
Definition swap_x (obj : Element) : result Element :=
  match find "bndbox" obj with
  | None => ret obj
  | Some bbox =>
      match find "xmin" bbox, find "xmax" bbox with
      | Some xmin, Some xmax =>
          a <-- float_of_text (text xmin) ;;
          b <-- float_of_text (text xmax) ;;
          if PyFloat.geb a b then
            _ <-- deref (find "ymin" bbox) ;;
            _ <-- deref (find "ymax" bbox) ;;
            let bbox' :=
              Elem (tag bbox) (text bbox)
                   (update_first "xmax" (set_text (text xmin))
                      (update_first "xmin" (set_text (text xmax)) (children bbox))) in
            ret (Elem (tag obj) (text obj)
                      (update_first "bndbox" (fun _ => bbox') (children obj)))
          else ret obj
      | _, _ => ret obj
      end
  end.

(** The tree written back by [fix_invalid_bbox]; [None] when an
    exception prevented the write. *)
Definition fix_invalid_bbox (content : option Element) : option Element :=
  match (root <-- Convert.et_parse content ;; for_each_object swap_x root) with
  | inl _ => None
  | inr root' => Some root'
  end.

(** What [fix_voc_labels] leaves in the output directory for one
    annotation file: nothing when the file does not parse, else the
    relabelled tree, passed through [fix_invalid_bbox] for the single
    file the script names. *)
Definition fix_voc_file (xml_file : string) (content : option Element)
  : option Element :=
  match (root <-- Convert.et_parse content ;; for_each_object swap_label root) with
  | inl _ => None
  | inr relabelled =>
      if String.eqb xml_file "cc_36e62fdb-frame_01494.xml" then
        match fix_invalid_bbox (Some relabelled) with
        | Some repaired => Some repaired
        | None => Some relabelled
        end
      else Some relabelled
  end.

End WithRuntime.

End FixLabels.

(** ** A runtime for plain ASCII input

    One instance of [PyRuntime], used to run the model on concrete data:
    decimal literals without exponent, blank-separated tokens, ASCII case
    folding, names without directory part. *)

Module AsciiRuntime.

Definition digit_of (c : ascii) : option Z :=
  let n := nat_of_ascii c in
  if ((48 <=? n) && (n <=? 57))%nat then Some (Z.of_nat (n - 48)) else None.

Fixpoint digits_value (cs : list ascii) (acc : Z) : option Z :=
  match cs with
  | [] => Some acc
  | c :: rest =>
      match digit_of c with
      | Some d => digits_value rest (10 * acc + d)
      | None => None
      end
  end.

(** Sign and remaining characters of a literal. *)
Definition split_sign (cs : list ascii) : bool * list ascii :=
  match cs with
  | c :: rest =>
      if Ascii.eqb c "-" then (true, rest)
      else if Ascii.eqb c "+" then (false, rest)
      else (false, cs)
  | [] => (false, [])
  end.

Definition parse_int (s : string) : option Z :=
  let '(neg, ds) := split_sign (list_ascii_of_string s) in
  match ds with
  | [] => None
  | _ => option_map (fun v => if neg then - v else v) (digits_value ds 0)
  end.

(** Characters before and after the first dot. *)
Fixpoint split_dot (cs : list ascii) : list ascii * option (list ascii) :=
  match cs with
  | [] => ([], None)
  | c :: rest =>
      if Ascii.eqb c "." then ([], Some rest)
      else let '(a, b) := split_dot rest in (c :: a, b)
  end.

Definition parse_float (s : string) : option spec_float :=
  let '(neg, body) := split_sign (list_ascii_of_string s) in
  let '(ip, fp) := split_dot body in
  let fp := match fp with Some f => f | None => [] end in
  match ip ++ fp with
  | [] => None
  | ds =>
      match digits_value ds 0 with
      | None => None
      | Some v =>
          let x := PyFloat.div (PyFloat.of_Z v)
                     (PyFloat.of_Z (10 ^ Z.of_nat (length fp))) in
          Some (if neg then SFopp x else x)
      end
  end.

Definition is_blank (c : ascii) : bool :=
  let n := nat_of_ascii c in
  ((n =? 32) || ((9 <=? n) && (n <=? 13)))%nat.

(** Tokens of a line, with the token being read in [cur] (reversed). *)
Fixpoint tokens (cs cur : list ascii) : list string :=
  match cs with
  | [] => match cur with [] => [] | _ => [string_of_list_ascii (rev cur)] end
  | c :: rest =>
      if is_blank c then
        match cur with
        | [] => tokens rest []
        | _ => string_of_list_ascii (rev cur) :: tokens rest []
        end
      else tokens rest (c :: cur)
  end.

Definition split (s : string) : list string :=
  tokens (list_ascii_of_string s) [].

Definition lower_char (c : ascii) : ascii :=
  let n := nat_of_ascii c in
  if ((65 <=? n) && (n <=? 90))%nat then ascii_of_nat (n + 32) else c.

Definition lower (s : string) : string :=
  string_of_list_ascii (map lower_char (list_ascii_of_string s)).

(** Position of the last dot that follows a character other than a dot. *)
Fixpoint ext_start (cs : list ascii) (pos : nat) (seen : bool) (best : option nat)
  : option nat :=
  match cs with
  | [] => best
  | c :: rest =>
      if Ascii.eqb c "." then
        ext_start rest (S pos) seen (if seen then Some pos else best)
      else ext_start rest (S pos) true best
  end.

Definition root_name (s : string) : string :=
  match ext_start (list_ascii_of_string s) 0 false None with
  | Some i => String.substring 0 i s
  | None => s
  end.

#[export] Instance runtime : PyRuntime := {|
  py_int := parse_int;
  py_float := parse_float;
  str_split := split;
  str_lower := lower;
  splitext_root := root_name;
  basename := fun name => name
|}.

End AsciiRuntime.

(** The stand-in for the indices drawn by the seeded generator when the
    model is run on concrete data: the indices in decreasing order.  The
    statements below are proved for every family of permutations. *)
Module ReversedIndices.

#[export] Instance runtime : SkRuntime := {|
  permutation42 := fun n => rev (seq 0 n);
  permutation42_spec := fun n => Permutation_sym (Permutation_rev (seq 0 n))
|}.

End ReversedIndices.

(** ** Vocabulary of the statements *)

Module Spec.
Import Xml.

Definition is_digit (c : ascii) : bool :=
  let n := nat_of_ascii c in ((48 <=? n) && (n <=? 57))%nat.

Definition all_digits (s : string) : bool :=
  forallb is_digit (list_ascii_of_string s).


(** Membership of a list of keys, as a test. *)
Definition has_key (k : string) (l : list string) : bool := existsb (String.eqb k) l.


(** The value of the float lies between 0 and 1: it is a zero, or the
    positive number [m * 2^e] with [m * 2^e <= 1]. *)
Definition value_in_unit (v : spec_float) : Prop :=
  match v with
  | S754_zero _ => True
  | S754_finite false m e => Zpos m * 2 ^ Z.max e 0 <= 2 ^ Z.max (- e) 0
  | _ => False
  end.

(** The repair of an inverted box as the specification describes it:
    the two coordinates of an inverted axis are exchanged... *)
Definition swap_inverted (xmin ymin xmax ymax : spec_float)
  : spec_float * spec_float * spec_float * spec_float :=
  let '(x1, x2) := if PyFloat.geb xmin xmax then (xmax, xmin) else (xmin, xmax) in
  let '(y1, y2) := if PyFloat.geb ymin ymax then (ymax, ymin) else (ymin, ymax) in
  (x1, y1, x2, y2).

(** ... and the box is validated again under the out-of-frame rule and
    the minimum-area rule. *)
Definition fails_revalidation (img_width img_height : Z)
    (xmin ymin xmax ymax : spec_float) : bool :=
  PyFloat.lt_int xmin 0 || PyFloat.lt_int ymin 0 ||
  PyFloat.gt_int xmax img_width || PyFloat.gt_int ymax img_height ||
  PyFloat.lt_int (PyFloat.mul (PyFloat.sub xmax xmin) (PyFloat.sub ymax ymin)) 4.

(** The box is dropped only if it still fails after the exchange. *)
Definition dropped_after_repair (img_width img_height : Z)
    (xmin ymin xmax ymax : spec_float) : bool :=
  let '(x1, y1, x2, y2) := swap_inverted xmin ymin xmax ymax in
  fails_revalidation img_width img_height x1 y1 x2 y2.

Section WithRuntime.
Context `{PyRuntime}.

(** A line of a label file as the format wants it: exactly five
    tokens, the first one a class id of the table (0 to 3), the other
    four floats between 0 and 1. *)
Definition well_formed_line (line : string) (cls_id : Z)
    (width height : spec_float) : Prop :=
  exists (t0 t1 t2 t3 t4 : string) (x_center y_center : spec_float),
    str_split line = [t0; t1; t2; t3; t4] /\
    py_int t0 = Some cls_id /\ 0 <= cls_id <= 3 /\
    py_float t1 = Some x_center /\ py_float t2 = Some y_center /\
    py_float t3 = Some width /\ py_float t4 = Some height /\
    value_in_unit x_center /\ value_in_unit y_center /\
    value_in_unit width /\ value_in_unit height.

Definition malformed_line (line : string) : Prop :=
  forall (cls_id : Z) (width height : spec_float),
    ~ well_formed_line line cls_id width height.

(** The well-formed lines of class [cls_id] among [lines]. *)
Definition lines_of_class (cls_id : Z) (lines : list string) : list string :=
  List.filter
    (fun line => match CheckDataset.check_line line with
                 | CheckDataset.Counted c _ _ => c =? cls_id
                 | _ => false
                 end) lines.



(** The lines of the label file of a key, when it can be read. *)
Definition readable (labels_dir : gmap string (option (list string)))
    (label_file : string) : option (list string) :=
  match labels_dir !! (label_file +:+ ".txt") with
  | Some (Some lines) => Some lines
  | _ => None
  end.

(** The file of a key is an error file: it cannot be read or one of
    its lines is malformed. *)
Definition faulty (labels_dir : gmap string (option (list string)))
    (label_file : string) : Prop :=
  match readable labels_dir label_file with
  | Some lines => exists line, In line lines /\ malformed_line line
  | None => True
  end.

(** Well-formed lines of class [cls_id] in the files of [keys]. *)
Definition objects_of_class (labels_dir : gmap string (option (list string)))
    (cls_id : Z) (keys : list string) : nat :=
  foldr plus 0%nat
    (map (fun k => match readable labels_dir k with
                   | Some lines => length (lines_of_class cls_id lines)
                   | None => 0%nat
                   end) keys).

(** The number held by a field of a [bndbox] element. *)
Definition field_value (bbox : Element) (field : string) : option spec_float :=
  match find field bbox with
  | Some e => match text e with Some t => py_float t | None => None end
  | None => None
  end.

(** The object element carries an absolute box whose four fields are
    numbers. *)
Definition box_of (obj : Element) (xmin ymin xmax ymax : spec_float) : Prop :=
  exists bbox, find "bndbox" obj = Some bbox /\
    field_value bbox "xmin" = Some xmin /\ field_value bbox "ymin" = Some ymin /\
    field_value bbox "xmax" = Some xmax /\ field_value bbox "ymax" = Some ymax.

(** The object element carries the record: a class name and a box. *)
Definition source_record (obj : Element) (cls_name : string)
    (xmin ymin xmax ymax : spec_float) : Prop :=
  (exists n, find "name" obj = Some n /\ text n = Some cls_name) /\
  box_of obj xmin ymin xmax ymax.

(** The annotation of a sample key parses: the file exists, is
    well-formed XML, gives the image size and file name, and all its
    objects are read without an exception, producing [lines] and the
    warnings [evs]. *)
Definition annotation_parses (voc_annotations : gmap string (option Element))
    (file_base image_name : string) (lines : list string)
    (evs : list Convert.event) : Prop :=
  exists (root : Element) (img_width img_height : Z),
    voc_annotations !! (file_base +:+ ".xml") = Some (Some root) /\
    Convert.read_header root = inr (Convert.Header img_width img_height image_name) /\
    Convert.write_objects file_base img_width img_height (iter "object" root)
      = (lines, evs, None).

End WithRuntime.

End Spec.

(** ** Concrete data on which the model is run *)

Module Examples.
Import Xml.

Definition leaf (tag text : string) : Element := Elem tag (Some text) [].

Definition object_of (cls_name xmin ymin xmax ymax : string) : Element :=
  Elem "object" None
    [ leaf "name" cls_name;
      Elem "bndbox" None
        [ leaf "xmin" xmin; leaf "ymin" ymin; leaf "xmax" xmax; leaf "ymax" ymax ] ].

Definition annotation_of (filename width height : string) (objs : list Element)
  : Element :=
  Elem "annotation" None
    (leaf "filename" filename ::
     Elem "size" None [ leaf "width" width; leaf "height" height ] :: objs).

(** A missing fastener with box (10, 10, 50, 50). *)
Definition missing_fastener : Element := object_of "无螺丝" "10" "10" "50" "50".

(** The same box with its two abscissas exchanged, and with its two
    ordinates exchanged. *)
Definition inverted_x : Element := object_of "无螺丝" "50" "10" "10" "50".
Definition inverted_y : Element := object_of "无螺丝" "10" "50" "50" "10".

(** The ratios 0.7 and 0.15 of the command line. *)
Definition ratio_070 : spec_float :=
  Eval vm_compute in PyFloat.div (PyFloat.of_Z 7) (PyFloat.of_Z 10).
Definition ratio_015 : spec_float :=
  Eval vm_compute in PyFloat.div (PyFloat.of_Z 15) (PyFloat.of_Z 100).

Definition empty_split : Split.split_dir :=
  {| Split.images := ∅; Split.labels := ∅ |}.

(** A directory of four images, one of them a PNG file, with the label
    files of three of them. *)
Definition four_images : list string := ["a.jpg"; "b.png"; "c.jpg"; "d.jpg"].
Definition four_image_files : gmap string string :=
  list_to_map [("a.jpg", "JPEG a"); ("b.png", "PNG b"); ("c.jpg", "JPEG c");
               ("d.jpg", "JPEG d")].
Definition three_label_files : gmap string string :=
  list_to_map [("a.txt", "1 0.3 0.3 0.4 0.4"); ("b.txt", "0 0.5 0.5 0.1 0.1");
               ("d.txt", "3 0.5 0.5 1.0 1.0")].

(** Two states of the generator: the first one makes [random.shuffle]
    leave a list of four in place, the second one makes it rotate the
    list by one position. *)
Definition generator_1 : Split.rng := [3; 2; 1]%nat.
Definition generator_2 : Split.rng := [0; 0; 0]%nat.

(** A converted dataset: three images; the label of [a] has a line of
    four tokens after a well-formed one, the label of [b] names class 7,
    [c] has no label, and the label [z] has no image. *)
Definition audited_images : gset string := list_to_set ["a.jpg"; "b.png"; "c.jpg"].
Definition audited_labels : gmap string (option (list string)) :=
  list_to_map
    [ ("a.txt", Some ["1 0.3 0.3 0.4 0.4"; "0 0.5 0.5 0.1"]);
      ("b.txt", Some ["7 0.5 0.5 0.1 0.1"; "3 0.5 0.5 1.0 1.0"]);
      ("z.txt", Some ["1 0.3 0.3 0.4"]) ].

(** A dataset with nothing to report. *)
Definition clean_images : gset string := list_to_set ["a.jpg"; "b.png"].
Definition clean_labels : gmap string (option (list string)) :=
  list_to_map
    [ ("a.txt", Some ["1 0.3 0.3 0.4 0.4"]); ("b.txt", Some ["3 0.5 0.5 1.0 1.0"]) ].


Definition one_annotation : gmap string (option Element) :=
  list_to_map
    [ ("s1.xml", Some (annotation_of "s1.jpg" "100" "100" [missing_fastener])) ].

Definition fresh_output : Convert.state :=
  {| Convert.labels := ∅; Convert.images := ∅; Convert.log := [];
     Convert.processed_count := 0 |}.

(** The split of the four images with the ratios of the command line. *)
Definition split_four `{SkRuntime} (g : Split.rng) : result Split.outcome :=
  @Split.split_yolo_dataset AsciiRuntime.runtime _ four_images
    four_image_files three_label_files empty_split empty_split empty_split g
    ratio_070 ratio_015 ratio_015.

End Examples.

(** ** [scripts/convert_voc_to_yolo_with_splits.py]: the entry point

    [convert_voc_to_yolo_final] reads the two lists of sample keys of
    [ImageSets/Main] and runs [process_split] once for each of them, the
    training list first, each run with its own output directories and a
    counter of its own. *)

Module ConvertAll.
Import Convert.

Inductive event : Type :=
| PrintBanner
| PrintSamples (n_train n_val : nat)
| PrintTraining
| PrintValidating
| FromSplit (ev : Convert.event)
| PrintTotals (processed_train processed_val total : Z).

(** The one exception the function raises itself. *)
Inductive missing : Type :=
| FileNotFoundError (split_file : string).

(** The [labels] and [images] directories of one output split. *)
Record split_output : Type := {
  labels_dir : gmap string (list string);
  images_dir : gmap string string
}.

Record outcome : Type := {
  train : split_output;
  val : split_output;
  processed_train : Z;
  processed_val : Z;
  total : Z;
  console : list event
}.

(** The state [process_split] starts from: the directories as found, a
    counter at zero. *)
Definition start (d : split_output) : state :=
  {| labels := labels_dir d; images := images_dir d; log := []; processed_count := 0 |}.

Definition finish (st : state) : split_output :=
  {| labels_dir := labels st; images_dir := images st |}.

Section WithRuntime.
Context `{PyRuntime}.

(** [line.strip()] *)
Variable str_strip : string -> string.

(** [imagesets] is the directory [ImageSets/Main]: the lines of each of
    its files, as [readlines] returns them. *)
Definition convert_voc_to_yolo_final (voc_annotations : gmap string (option Xml.Element))
    (voc_images : gmap string string) (imagesets : gmap string (list string))
    (train_dir val_dir : split_output) : missing + outcome :=
  match imagesets !! "train.txt" with
  | None => inl (FileNotFoundError "train.txt")
  | Some train_lines =>
      match imagesets !! "val.txt" with
      | None => inl (FileNotFoundError "val.txt")
      | Some val_lines =>
          let train_files := map str_strip train_lines in
          let val_files := map str_strip val_lines in
          let st_train :=
            process_split voc_annotations voc_images (start train_dir) train_files in
          let st_val :=
            process_split voc_annotations voc_images (start val_dir) val_files in
          inr {| train := finish st_train; val := finish st_val;
                 processed_train := processed_count st_train;
                 processed_val := processed_count st_val;
                 total := processed_count st_train + processed_count st_val;
                 console :=
                   [PrintBanner; PrintSamples (length train_files) (length val_files);
                    PrintTraining] ++ map FromSplit (log st_train) ++
                   [PrintValidating] ++ map FromSplit (log st_val) ++
                   [PrintTotals (processed_count st_train) (processed_count st_val)
                                (processed_count st_train + processed_count st_val)] |}
      end
  end.

End WithRuntime.

End ConvertAll.

(** ** [scripts/fix_invalid_bbox.py]: the loop over a directory *)

Module FixBBoxAll.
Import Xml.

Section WithRuntime.
Context `{PyRuntime}.

(** One iteration of the loop over [os.listdir(voc_annotations_dir)]:
    the counter [total_fixed] and the directory.  A name the directory
    does not hold cannot be opened, as a file that does not parse. *)
Definition fix_file (acc : nat * gmap string (option Element)) (xml_file : string)
  : nat * gmap string (option Element) :=
  let '(total_fixed, dir) := acc in
  if endswith xml_file ".xml" then
    let '(ok, written) :=
      FixBBox.fix_invalid_bbox_advanced (default None (dir !! xml_file)) in
    (if ok then S total_fixed else total_fixed,
     match written with
     | Some root' => <[xml_file := Some root']> dir
     | None => dir
     end)
  else acc.

(** The number printed at the end and the directory left behind. *)
Definition check_and_fix_all_voc_files (listing : list string)
    (voc_annotations : gmap string (option Element))
  : nat * gmap string (option Element) :=
  fold_left fix_file listing (0%nat, voc_annotations).

End WithRuntime.

End FixBBoxAll.

(** ** [scripts/fix_voc_labels.py]: the loop over a directory *)

Module FixLabelsAll.
Import Xml.

(** The three counters printed at the end. *)
Record summary : Type := {
  processed_count : nat;
  fixed_count : nat;
  error_count : nat
}.

(** The test of the loop body on one object: its [name] element holds
    one of the two class names that are exchanged. *)
Definition relabelled (obj : Element) : bool :=
  match find "name" obj with
  | Some cls_name =>
      match text cls_name with
      | Some s => String.eqb s "无螺丝" || String.eqb s "电路板"
      | None => false
      end
  | None => false
  end.

Section WithRuntime.
Context `{PyRuntime}.

(** One iteration of the loop over [os.listdir(voc_annotations_dir)].
    [output_dir] is [None] when the script works in place: the files
    are then read from, and written to, the same directory.  A file
    that does not parse is counted as an error and nothing is written
    for it.  A directory is held as the documents of its files: the
    element tree [ET.parse] reads from each of them, [None] for a file
    that does not parse.  What [tree.write] puts into a file is held as
    the document written, which is what [ET.parse] reads from that file
    afterwards; the bytes of a file (declaration, comments, layout),
    which [tree.write] does not keep, are not part of the model. *)
Definition fix_file (voc_annotations : gmap string (option Element)) (in_place : bool)
    (acc : summary * gmap string (option Element)) (xml_file : string)
  : summary * gmap string (option Element) :=
  let '(s, output) := acc in
  if endswith xml_file ".xml" then
    let source := if in_place then output else voc_annotations in
    match default None (source !! xml_file) with
    | None =>
        ({| processed_count := processed_count s; fixed_count := fixed_count s;
            error_count := S (error_count s) |}, output)
    | Some root =>
        ({| processed_count := S (processed_count s);
            fixed_count :=
              fixed_count s + length (List.filter relabelled (iter "object" root));
            error_count := error_count s |},
         <[xml_file := FixLabels.fix_voc_file xml_file (Some root)]> output)
    end
  else acc.

Definition no_summary : summary :=
  {| processed_count := 0; fixed_count := 0; error_count := 0 |}.

(** The counters and the output directory at the end of the run. *)
Definition fix_voc_labels (listing : list string)
    (voc_annotations : gmap string (option Element))
    (output_dir : option (gmap string (option Element)))
  : summary * gmap string (option Element) :=
  match output_dir with
  | None => fold_left (fix_file voc_annotations true) listing (no_summary, voc_annotations)
  | Some output => fold_left (fix_file voc_annotations false) listing (no_summary, output)
  end.

End WithRuntime.

End FixLabelsAll.

(** ** [src/infer.py]: prediction on one image and on a directory

    The detector, the drawing of the boxes and the file system are not
    part of the development: they are parameters, and each of them may
    raise. *)

Module InferBatch.
Import Infer.

(** What [predict_single] raises or lets through, and the failure of
    [status_count[pcb_status] += 1] on a status the table does not hold. *)
Inductive failure : Type :=
| FileNotFoundError (path : string)
| PredictionError
| VisualizationError
| KeyError (key : status).

Inductive event : Type :=
| PrintSaved (output_dir file_name : string)
| PrintNoImages
| PrintProcessed (img_file : string) (pcb_status : status)
| PrintFailure (img_file : string) (e : failure)
| PrintBatchDone (normal_count abnormal_count : nat).

(** [glob.glob(os.path.join(image_dir, "*" + suffix))] on a directory
    whose entries are [listing]: the names that end with the suffix,
    compared as written (as on a POSIX system), hidden files left out. *)
Definition glob_suffix (listing : list string) (suffix : string) : list string :=
  List.filter (fun f => endswith f suffix && negb (String.prefix "." f)) listing.

Definition glob_images (listing : list string) : list string :=
  glob_suffix listing ".jpg" ++ glob_suffix listing ".png" ++ glob_suffix listing ".jpeg".

(** [save_result and output_dir] *)
Definition saves (save_result : bool) (output_dir : option string) : bool :=
  save_result &&
  match output_dir with
  | Some d => negb (String.eqb d "")
  | None => false
  end.

(** What [predict_batch] returns ([None] when it returns early) and
    what it prints. *)
Record batch : Type := {
  status_count : option (nat * nat);
  console : list event
}.

Section WithModel.
Context `{PyRuntime}.

(** The visualised image. *)
Variable Image : Type.
(** [os.path.exists] *)
Variable file_exists : string -> bool.
(** [self.model.predict(image_path, ...)[0]]; [None] when it raises. *)
Variable predict : string -> option Result.
(** [self._visualize_detections]; [None] when it raises. *)
Variable visualize : string -> Result -> status -> option Image.

Definition predict_single (image_path : string) (output_dir : option string)
    (save_result : bool) : (failure + Result * Image * status) * list event :=
  if negb (file_exists image_path) then (inl (FileNotFoundError image_path), [])
  else
    match predict image_path with
    | None => (inl PredictionError, [])
    | Some result =>
        let pcb_status := _analyze_pcb_status result in
        match visualize image_path result pcb_status with
        | None => (inl VisualizationError, [])
        | Some visualized_img =>
            (inr (result, visualized_img, pcb_status),
             match output_dir with
             | Some d =>
                 if saves save_result output_dir
                 then [PrintSaved d ("pred_" +:+ basename image_path)]
                 else []
             | None => []
             end)
        end
    end.

(** One iteration of the loop of [predict_batch]: the two counters of
    [status_count] and the console. *)
Definition predict_one (output_dir : string) (acc : nat * nat * list event)
    (img_file : string) : nat * nat * list event :=
  let '(normal_count, abnormal_count, log) := acc in
  match predict_single img_file (Some output_dir) true with
  | (inl e, evs) => (normal_count, abnormal_count, log ++ evs ++ [PrintFailure img_file e])
  | (inr (_, _, pcb_status), evs) =>
      match pcb_status with
      | normal =>
          (S normal_count, abnormal_count,
           log ++ evs ++ [PrintProcessed img_file normal])
      | abnormal =>
          (normal_count, S abnormal_count,
           log ++ evs ++ [PrintProcessed img_file abnormal])
      | unknown =>
          (normal_count, abnormal_count,
           log ++ evs ++ [PrintFailure img_file (KeyError unknown)])
      end
  end.

(** [listing] is the content of [image_dir].  [os.makedirs] rejects an
    empty [output_dir]. *)
Definition predict_batch (listing : list string) (output_dir : string)
  : failure + batch :=
  let image_files := glob_images listing in
  match image_files with
  | [] => inr {| status_count := None; console := [PrintNoImages] |}
  | _ =>
      if String.eqb output_dir "" then inl (FileNotFoundError output_dir)
      else
        let '(normal_count, abnormal_count, log) :=
          fold_left (predict_one output_dir) image_files (0%nat, 0%nat, []) in
        inr {| status_count := Some (normal_count, abnormal_count);
               console := log ++ [PrintBatchDone normal_count abnormal_count] |}
  end.

End WithModel.

End InferBatch.

(** ** Vocabulary of the further statements *)

Module Terms.
Import Xml.

(** The messages that end the treatment of one sample key without a
    copied image: the others only report a skipped object. *)
Definition terminal (ev : Convert.event) : bool :=
  match ev with
  | Convert.WarnXmlMissing _ | Convert.WarnNoSize _ | Convert.WarnNoFilename _
  | Convert.WarnImageMissing _ | Convert.ErrorProcessing _ _ => true
  | Convert.WarnUnknownClass _ | Convert.WarnNoBndbox _ => false
  end.

(** The object has a [name] element whose text is not a class of the
    table. *)
Definition unknown_class (obj : Element) : bool :=
  match find "name" obj with
  | Some n =>
      match Convert.lookup_class Convert.CLASS_MAPPING (text n) with
      | None => true
      | Some _ => false
      end
  | None => false
  end.

(** The warnings of the copy loop for a list of keys: one for each key
    that has no label file, in the order of the list. *)
Definition missing_label_warnings (input_labels : gmap string string)
    (files : list string) : list Split.event :=
  map (fun k => Split.WarnLabelMissing (k +:+ ".txt"))
      (List.filter (fun k => bool_decide (input_labels !! (k +:+ ".txt") = None)) files).

(** The two tables of the content audit agree: every class counted is a
    class of the table and was counted at least once, and the sizes kept
    for a class are as many as the lines counted for it. *)
Definition tables_agree (t : CheckDataset.tally) : Prop :=
  (forall c v, CheckDataset.class_distribution t !! c = Some v ->
               (1 <= v)%nat /\ 0 <= c <= 3) /\
  (forall c, length (CheckDataset.boxes_of (CheckDataset.bbox_stats t) c)
             = CheckDataset.count_of (CheckDataset.class_distribution t) c) /\
  (forall c, CheckDataset.bbox_stats t !! c = None <->
             CheckDataset.class_distribution t !! c = None).

(** A message of the content audit itself. *)
Definition audit_message (ev : CheckDataset.event) : bool :=
  match ev with
  | CheckDataset.ErrorLine _ _ _ | CheckDataset.ErrorReading _ => true
  | _ => false
  end.

(** The elements found by [iter_at] below the children [l] of an
    element at [path], the first of them being the child number [i]. *)
Fixpoint iter_children (name : string) (path : list nat) (i : nat) (l : list Element)
  : list (list nat * Element) :=
  match l with
  | [] => []
  | c :: l' => FixBBox.iter_at name (path ++ [i]) c ++ iter_children name path (S i) l'
  end.


(** The exchange of the two class names, on a name ... *)
Definition swap_name (s : string) : string :=
  if String.eqb s "无螺丝" then "电路板"
  else if String.eqb s "电路板" then "无螺丝"
  else s.

(** ... on the class ids the converter gives them ... *)
Definition swap_id (c : Z) : Z :=
  if c =? 1 then 3 else if c =? 3 then 1 else c.

(** ... on the [name] element of one object ... *)
Definition rename (obj : Element) : Element :=
  match find "name" obj with
  | Some cls_name =>
      match text cls_name with
      | Some s =>
          if String.eqb s "无螺丝" || String.eqb s "电路板"
          then Elem (tag obj) (text obj)
                    (FixLabels.update_first "name"
                       (FixLabels.set_text (Some (swap_name s))) (children obj))
          else obj
      | None => obj
      end
  | None => obj
  end.



(** A number between 0 and 1 written with six decimals: [1.000000], or
    [0.] followed by six digits. *)
Definition unit_decimal (s : string) : Prop :=
  s = "1.000000" \/
  exists fp : string,
    s = "0." +:+ fp /\ Spec.all_digits fp = true /\ String.length fp = 6%nat.

(** The file [f] of a directory of annotations is there and parses. *)
Definition parses (voc_annotations : gmap string (option Element)) (f : string) : bool :=
  match default None (voc_annotations !! f) with
  | Some _ => true
  | None => false
  end.

(** The objects of the file [f] that are named by one of the two
    exchanged classes; none when the file does not parse. *)
Definition swaps (voc_annotations : gmap string (option Element)) (f : string) : nat :=
  match default None (voc_annotations !! f) with
  | Some root => length (List.filter FixLabelsAll.relabelled (iter "object" root))
  | None => 0%nat
  end.

Section WithRuntime.
Context `{PyRuntime}.

(** The width and the height an annotation declares, when it has a
    [size] element holding two integers. *)
Definition declared_size (root : Element) : option (Z * Z) :=
  match find "size" root with
  | None => None
  | Some size =>
      match (we <-- deref (find "width" size) ;;
             img_width <-- int_of_text (text we) ;;
             he <-- deref (find "height" size) ;;
             img_height <-- int_of_text (text he) ;;
             ret (img_width, img_height)) with
      | inr wh => Some wh
      | inl _ => None
      end
  end.

(** An [object] element that the box validator judges invalid. *)
Definition removable (img_width img_height : Z) (c : Element) : bool :=
  String.eqb (tag c) "object" &&
  match FixBBox.inspect_object img_width img_height c with
  | inr true => true
  | _ => false
  end.

(** The status [predict_single] returns for an image in a batch, when
    it returns. *)
Definition status_of {Image : Type} (file_exists : string -> bool)
    (predict : string -> option Infer.Result)
    (visualize : string -> Infer.Result -> Infer.status -> option Image)
    (output_dir img_file : string) : option Infer.status :=
  match fst (InferBatch.predict_single Image file_exists predict visualize
               img_file (Some output_dir) true) with
  | inr (_, _, pcb_status) => Some pcb_status
  | inl _ => None
  end.

(** The image is one for which [predict_single] returns the status
    [wanted]. *)
Definition has_status {Image : Type} (file_exists : string -> bool)
    (predict : string -> option Infer.Result)
    (visualize : string -> Infer.Result -> Infer.status -> option Image)
    (output_dir : string) (wanted : Infer.status) (img_file : string) : bool :=
  match status_of file_exists predict visualize output_dir img_file, wanted with
  | Some Infer.normal, Infer.normal => true
  | Some Infer.abnormal, Infer.abnormal => true
  | Some Infer.unknown, Infer.unknown => true
  | _, _ => false
  end.

End WithRuntime.

(** A message of [predict_batch] about an image that was not counted. *)
Definition batch_failure (ev : InferBatch.event) : bool :=
  match ev with
  | InferBatch.PrintFailure _ _ => true
  | _ => false
  end.

End Terms.

(** ** Further concrete data *)

Module Samples.
Import Xml Examples.

Definition box (xmin ymin xmax ymax : string) : Element :=
  Elem "bndbox" None
    [ leaf "xmin" xmin; leaf "ymin" ymin; leaf "xmax" xmax; leaf "ymax" ymax ].

(** An object without a [name] element, a fastener in place, and an
    object whose [xmin] element is empty. *)
Definition nameless : Element := Elem "object" None [ box "10" "10" "50" "50" ].
Definition fastener : Element := object_of "有螺丝" "20" "20" "60" "60".
Definition no_xmin : Element :=
  Elem "object" None
    [ leaf "name" "有螺丝";
      Elem "bndbox" None
        [ Elem "xmin" None []; leaf "ymin" "20"; leaf "xmax" "60"; leaf "ymax" "60" ] ].

(** An annotation whose second object has no name; its image is there. *)
Definition broken_annotation : Element :=
  annotation_of "s2.jpg" "100" "100" [ missing_fastener; nameless; fastener ].
Definition broken_source : gmap string (option Element) :=
  list_to_map [ ("s2.xml", Some broken_annotation) ].
Definition s2_image : gmap string string := list_to_map [ ("s2.jpg", "JPEG s2") ].


(** A directory of four images, one of them with an extension in mixed
    case. *)
Definition mixed_images : list string := [ "a.jpg"; "b.png"; "c.jpg"; "x.Jpg" ].
Definition mixed_image_files : gmap string string :=
  list_to_map [ ("a.jpg", "JPEG a"); ("b.png", "PNG b"); ("c.jpg", "JPEG c");
                ("x.Jpg", "JPEG x") ].

Definition split_mixed `{SkRuntime} (g : Split.rng) : result Split.outcome :=
  @Split.split_yolo_dataset AsciiRuntime.runtime _ mixed_images
    mixed_image_files three_label_files empty_split empty_split empty_split g
    ratio_070 ratio_015 ratio_015.

(** The ratios 0.8 and 0.2. *)
Definition ratio_080 : spec_float :=
  Eval vm_compute in PyFloat.div (PyFloat.of_Z 8) (PyFloat.of_Z 10).
Definition ratio_020 : spec_float :=
  Eval vm_compute in PyFloat.div (PyFloat.of_Z 2) (PyFloat.of_Z 10).

(** Two directories without a sample. *)
Definition notes : gset string := list_to_set [ "readme.md"; "classes.names" ].
Definition no_labels : gmap string (option (list string)) :=
  list_to_map [ ("classes.names", Some [ "fastener" ]) ].

(** An annotation with an inverted box between two valid ones, and one
    whose inverted box lies inside another element. *)
Definition one_invalid : Element :=
  annotation_of "a.jpg" "100" "100" [ missing_fastener; inverted_x; fastener ].
Definition repaired : Element :=
  annotation_of "a.jpg" "100" "100" [ missing_fastener; fastener ].
Definition nested_invalid : Element :=
  annotation_of "a.jpg" "100" "100" [ Elem "group" None [ inverted_x ]; fastener ].
Definition empty_coordinate : Element :=
  annotation_of "a.jpg" "100" "100" [ no_xmin; inverted_x ].

(** A directory of annotations: a valid file, a file to repair and a
    file that is not an annotation. *)
Definition annotations : list string := [ "good.xml"; "bad.xml"; "notes.txt" ].
Definition annotation_files : gmap string (option Element) :=
  list_to_map [ ("good.xml", Some repaired); ("bad.xml", Some one_invalid);
                ("notes.txt", None) ].

(** A directory of images for a batch, and a detector that finds a
    board with a missing fastener on the first one, returns a result
    without boxes for the second one and fails on every other image. *)
Definition batch_listing : list string := [ "a.jpg"; "b.png"; "c.jpeg"; "D.JPG" ].
Definition detection (cls : Z) : Infer.Box :=
  {| Infer.cls := cls; Infer.conf := PyFloat.one;
     Infer.xyxy := (PyFloat.zero, PyFloat.zero, PyFloat.one, PyFloat.one) |}.
Definition detector (image_path : string) : option Infer.Result :=
  if String.eqb image_path "a.jpg"
  then Some {| Infer.boxes := Some [ detection 3; detection 1 ] |}
  else if String.eqb image_path "b.png" then Some {| Infer.boxes := None |}
  else None.

End Samples.

(** ** More sample data *)

Module Twins.
Import Examples.

(** A directory in which one key has two image files. *)
Definition twin_images : list string := [ "a.jpg"; "a.png"; "b.jpg"; "c.jpg" ].
Definition twin_image_files : gmap string string :=
  list_to_map [ ("a.jpg", "JPEG a"); ("a.png", "PNG a"); ("b.jpg", "JPEG b");
                ("c.jpg", "JPEG c") ].

Definition split_twins `{SkRuntime} (g : Split.rng) : result Split.outcome :=
  @Split.split_yolo_dataset AsciiRuntime.runtime _ twin_images
    twin_image_files three_label_files empty_split empty_split empty_split g
    ratio_070 ratio_015 ratio_015.

End Twins.

(** ** Reading a label back

    The converter prints a class id and four numbers with single blanks
    between them; the checker reads the line with [split], [int] and
    [float]. *)

Module ReadBack.

(** A line as the converter prints it: a class id of the table, four
    numbers between 0 and 1 with six decimals, and the end of line. *)
Definition label_fields (line : string) : Prop :=
  exists (c : Z) (f1 f2 f3 f4 : string),
    0 <= c <= 3 /\
    Terms.unit_decimal f1 /\ Terms.unit_decimal f2 /\
    Terms.unit_decimal f3 /\ Terms.unit_decimal f4 /\
    line = PyFloat.str_int c +:+ " " +:+ f1 +:+ " " +:+ f2 +:+ " " +:+
           f3 +:+ " " +:+ f4 +:+ Convert.newline.

(** Every label file of the directory holds such lines only. *)
Definition well_written (labels : gmap string (list string)) : Prop :=
  forall (path : string) (lines : list string),
    labels !! path = Some lines -> Forall label_fields lines.

Section WithRuntime.
Context `{PyRuntime}.

(** What the checker relies on when it reads such a line: [split]
    separates the five fields, [int] reads the class id and [float]
    reads a decimal between 0 and 1 as a number between 0 and 1. *)
Definition split_reads_fields : Prop :=
  forall (c : Z) (f1 f2 f3 f4 : string),
    0 <= c <= 3 ->
    Terms.unit_decimal f1 -> Terms.unit_decimal f2 ->
    Terms.unit_decimal f3 -> Terms.unit_decimal f4 ->
    str_split (PyFloat.str_int c +:+ " " +:+ f1 +:+ " " +:+ f2 +:+ " " +:+
               f3 +:+ " " +:+ f4 +:+ Convert.newline)
      = [ PyFloat.str_int c; f1; f2; f3; f4 ].

Definition int_reads_class_ids : Prop :=
  forall c : Z, 0 <= c <= 3 -> py_int (PyFloat.str_int c) = Some c.

Definition float_reads_unit_decimals : Prop :=
  forall s : string,
    Terms.unit_decimal s ->
    exists x : spec_float, py_float s = Some x /\ CheckDataset.in_unit x = true.

Definition reads_back : Prop :=
  split_reads_fields /\ int_reads_class_ids /\ float_reads_unit_decimals.

(** The checker counts the line: it reports no error for it. *)
Definition counted (line : string) : Prop :=
  exists (c : Z) (width height : spec_float),
    CheckDataset.check_line line = CheckDataset.Counted c width height.

End WithRuntime.

(** A field of a line for the sample runtime: a text that is not empty
    and holds no blank. *)
Definition field (s : string) : Prop :=
  s <> "" /\
  forallb (fun c => negb (AsciiRuntime.is_blank c)) (list_ascii_of_string s) = true.

(** The label directory as the checker finds it: every file can be
    read. *)
Definition as_read (labels : gmap string (list string))
  : gmap string (option (list string)) := Some <$> labels.

End ReadBack.

(** * Properties *)

(** ** Floating-point facts *)

Section FloatFacts.

Lemma digits2_pos_lower (p : positive) :
  2 ^ (Zpos (digits2_pos p) - 1) <= Zpos p.
Proof.
  induction p as [p IH | p IH |]; cbn [digits2_pos].
  - rewrite Pos2Z.inj_succ.
    replace (Z.succ (Zpos (digits2_pos p)) - 1) with (Z.succ (Zpos (digits2_pos p) - 1)) by lia.
    rewrite Z.pow_succ_r by lia. lia.
  - rewrite Pos2Z.inj_succ.
    replace (Z.succ (Zpos (digits2_pos p)) - 1) with (Z.succ (Zpos (digits2_pos p) - 1)) by lia.
    rewrite Z.pow_succ_r by lia. lia.
  - reflexivity.
Qed.

Lemma shr_1_m (mrs : shr_record) :
  0 <= shr_m mrs -> shr_m (shr_1 mrs) = shr_m mrs / 2.
Proof.
  destruct mrs as [m r s]. cbn [shr_m shr_1]. intros Hm.
  destruct m as [| [p | p |] |]; cbn [shr_m]; [reflexivity | | | reflexivity | lia].
  - apply Z.div_unique with (r := 1); lia.
  - apply Z.div_unique with (r := 0); lia.
Qed.

Lemma iter_shr_1_m (p : positive) :
  forall mrs, 0 <= shr_m mrs ->
    shr_m (SpecFloat.iter_pos shr_1 p mrs) = shr_m mrs / 2 ^ Zpos p.
Proof.
  assert (Hstep : forall mrs, 0 <= shr_m mrs -> 0 <= shr_m (shr_1 mrs)).
  { intros mrs Hm. rewrite shr_1_m by assumption. apply Z.div_pos; lia. }
  induction p as [p IH | p IH |]; intros mrs Hm; cbn [SpecFloat.iter_pos].
  - assert (Hpow : 2 ^ Zpos p~1 = 2 * 2 ^ Zpos p * 2 ^ Zpos p).
    { rewrite <- Z.mul_assoc, <- Z.pow_add_r, <- Z.pow_succ_r by lia. f_equal. lia. }
    rewrite !IH, shr_1_m; auto.
    + rewrite !Z.div_div by lia. rewrite Hpow. f_equal. lia.
    + rewrite IH by auto. apply Z.div_pos; [auto | lia].
  - assert (Hpow : 2 ^ Zpos p~0 = 2 ^ Zpos p * 2 ^ Zpos p).
    { rewrite <- Z.pow_add_r by lia. f_equal. lia. }
    rewrite !IH; auto.
    + rewrite Z.div_div by lia. rewrite Hpow. reflexivity.
    + rewrite IH by auto. apply Z.div_pos; [auto | lia].
  - rewrite shr_1_m by assumption. reflexivity.
Qed.

Lemma shr_record_of_loc_m (m : Z) (l : location) : shr_m (shr_record_of_loc m l) = m.
Proof. destruct l as [| []]; reflexivity. Qed.


Lemma round_nearest_even_ge (m : Z) (l : location) : m <= round_nearest_even m l.
Proof. destruct l as [| []]; cbn; try lia. destruct (Z.even m); lia. Qed.




Lemma iter_xO_mul (k p : positive) : Zpos (Pos.iter xO p k) = Zpos p * 2 ^ Zpos k.
Proof.
  revert p. induction k as [| k IH] using Pos.peano_ind; intros p.
  - cbn [Pos.iter]. lia.
  - rewrite Pos.iter_succ, Pos2Z.inj_xO, IH, Pos2Z.inj_succ, Z.pow_succ_r by lia. lia.
Qed.

Lemma round_nearest_even_le (m : Z) (l : location) : round_nearest_even m l <= m + 1.
Proof. destruct l as [| []]; cbn; try lia. destruct (Z.even m); lia. Qed.

(** Shifting keeps the magnitude [m * 2^e] below [2^K] and the exponent
    below [K - 53]. *)
Lemma shr_fexp_bounded (K m e : Z) (l : location) :
  0 < m < 2 ^ (K - e) -> emin PyFloat.prec PyFloat.emax <= e ->
  let r := shr_fexp PyFloat.prec PyFloat.emax m e l in
  (0 < shr_m (fst r) < 2 ^ (K - snd r)) /\ (e <= snd r <= Z.max e (K - 53)).
Proof.
  intros Hm He. unfold shr_fexp, shr.
  destruct m as [| p |]; try lia. cbn [Zdigits2].
  pose proof (digits2_pos_lower p) as Hd.
  set (d := Zpos (digits2_pos p)) in *.
  assert (HK : d + e <= K).
  { assert (Hlt : 2 ^ (d - 1) < 2 ^ (K - e)) by lia.
    apply Z.pow_lt_mono_r_iff in Hlt; try lia.
    destruct (Z.le_gt_cases 0 (K - e)) as [|Hneg]; [assumption |].
    rewrite (Z.pow_neg_r 2 (K - e)) in Hm by lia. lia. }
  destruct (fexp PyFloat.prec PyFloat.emax (d + e) - e) as [| n | n] eqn:Hn;
    cbn [fst snd]; rewrite ?shr_record_of_loc_m; try (split; lia).
  rewrite iter_shr_1_m by (rewrite shr_record_of_loc_m; lia).
  rewrite shr_record_of_loc_m.
  unfold fexp, emin, PyFloat.prec, PyFloat.emax in *.
  assert (Hle : Zpos n = d - 53) by lia.
  split; [| lia]. split.
  - apply Z.div_str_pos. split; [apply Z.pow_pos_nonneg; lia |].
    etransitivity; [| exact Hd]. apply Z.pow_le_mono_r; lia.
  - apply Z.div_lt_upper_bound; [apply Z.pow_pos_nonneg; lia |].
    rewrite <- Z.pow_add_r by lia.
    replace (Zpos n + (K - (e + Zpos n))) with (K - e) by lia. lia.
Qed.

Lemma of_Z_finite (z : Z) :
  0 < z < 2 ^ 1023 -> exists m e, PyFloat.of_Z z = S754_finite false m e.
Proof.
  intros Hz. destruct z as [| p |]; try lia.
  unfold PyFloat.of_Z, binary_normalize, binary_round.
  destruct (shl_align p 0 _) as [mz ez] eqn:Hs.
  assert (Hmz : (0 < Zpos mz < 2 ^ (1023 - ez)) /\ (emin PyFloat.prec PyFloat.emax <= ez <= 0)).
  { unfold shl_align in Hs.
    destruct (_ - 0) as [| k | k] eqn:Hd in Hs; inversion Hs; subst;
      unfold fexp, emin, PyFloat.prec, PyFloat.emax in *;
      rewrite ?Z.sub_0_r; try lia.
    rewrite iter_xO_mul. split; [| lia]. split; [lia |].
    replace (1023 - (Z.max (Zpos (digits2_pos p) + 0 - 53) (3 - 1024 - 53)))
      with (1023 + Zpos k) by lia.
    rewrite Z.pow_add_r by lia. apply Z.mul_lt_mono_pos_r; [| lia].
    apply Z.pow_pos_nonneg; lia. }
  destruct Hmz as [Hmz [Hez1 Hez2]].
  unfold binary_round_aux.
  pose proof (shr_fexp_bounded 1023 (Zpos mz) ez loc_Exact Hmz Hez1) as H1.
  destruct (shr_fexp PyFloat.prec PyFloat.emax (Zpos mz) ez loc_Exact) as [mrs' e'].
  cbn [fst snd] in H1. destruct H1 as [Hm1 He1].
  pose proof (round_nearest_even_ge (shr_m mrs') (loc_of_shr_record mrs')) as Hr1.
  pose proof (round_nearest_even_le (shr_m mrs') (loc_of_shr_record mrs')) as Hr2.
  set (m2 := round_nearest_even (shr_m mrs') (loc_of_shr_record mrs')) in *.
  assert (Hm2 : 0 < m2 < 2 ^ (1024 - e')).
  { split; [lia |].
    replace (1024 - e') with (Z.succ (1023 - e')) by lia.
    assert (0 <= 1023 - e') by lia.
    rewrite Z.pow_succ_r by assumption.
    assert (0 < 2 ^ (1023 - e')) by (apply Z.pow_pos_nonneg; lia). lia. }
  pose proof (shr_fexp_bounded 1024 m2 e' loc_Exact Hm2 ltac:(lia)) as H2.
  destruct (shr_fexp PyFloat.prec PyFloat.emax m2 e' loc_Exact) as [mrs'' e''].
  cbn [fst snd] in H2. destruct H2 as [Hm3 He3].
  destruct (shr_m mrs'') as [| m |]; try lia.
  assert (Hfit : (e'' <=? PyFloat.emax - PyFloat.prec) = true).
  { apply Z.leb_le. unfold PyFloat.emax, PyFloat.prec. lia. }
  rewrite Hfit. eauto.
Qed.

Lemma of_int_total (z : Z) :
  1 <= z < 2 ^ 1023 ->
  exists x, PyFloat.of_int z = inr x /\ PyFloat.is_zero x = false.
Proof.
  intros Hz. destruct (of_Z_finite z ltac:(lia)) as (m & e & Hx).
  exists (S754_finite false m e). unfold PyFloat.of_int. rewrite Hx. auto.
Qed.

End FloatFacts.

(** ** Formatting *)

Section Formatting.
Import Spec.

Lemma all_digits_cons (c : ascii) (s : string) :
  all_digits (String c s) = is_digit c && all_digits s.
Proof. reflexivity. Qed.

Lemma digit_char_is_digit (d : Z) : is_digit (PyFloat.digit_char d) = true.
Proof.
  unfold PyFloat.digit_char.
  pose proof (Z.mod_pos_bound d 10 ltac:(lia)) as Hb.
  assert (Hcases : d mod 10 = 0 \/ d mod 10 = 1 \/ d mod 10 = 2 \/ d mod 10 = 3 \/
                   d mod 10 = 4 \/ d mod 10 = 5 \/ d mod 10 = 6 \/ d mod 10 = 7 \/
                   d mod 10 = 8 \/ d mod 10 = 9) by lia.
  repeat (destruct Hcases as [-> | Hcases]; [reflexivity |]).
  rewrite Hcases. reflexivity.
Qed.

Lemma six_digits_spec (n : Z) :
  all_digits (PyFloat.six_digits n) = true /\
  String.length (PyFloat.six_digits n) = 6%nat.
Proof.
  unfold PyFloat.six_digits. split; [| reflexivity].
  rewrite !all_digits_cons, !digit_char_is_digit. reflexivity.
Qed.



Lemma round_half_even_nonneg (n d : Z) : 0 <= n -> 0 < d -> 0 <= PyFloat.round_half_even n d.
Proof.
  intros Hn Hd. unfold PyFloat.round_half_even.
  assert (0 <= n / d) by (apply Z.div_pos; lia).
  destruct (2 * (n mod d) ?= d); [destruct (Z.even (n / d)) | |]; lia.
Qed.

Lemma scaled_micro_nonneg (m : positive) (e : Z) : 0 <= PyFloat.scaled_micro m e.
Proof.
  unfold PyFloat.scaled_micro. destruct (0 <=? e) eqn:He.
  - apply Z.leb_le in He. assert (0 <= 2 ^ e) by (apply Z.pow_nonneg; lia). nia.
  - apply Z.leb_gt in He. apply round_half_even_nonneg; [lia |].
    apply Z.pow_pos_nonneg; lia.
Qed.


End Formatting.

(** ** The normalisation of one box *)

Section Clamp.
Import Spec Convert.

Lemma clamp01_cases (v : spec_float) :
  clamp01 v = PyFloat.zero \/ clamp01 v = PyFloat.one \/
  (clamp01 v = v /\ SFltb PyFloat.zero v = true /\ SFltb v PyFloat.one = true).
Proof.
  unfold clamp01, PyFloat.max2, PyFloat.min2.
  destruct (SFltb v PyFloat.one) eqn:H1.
  - destruct (SFltb PyFloat.zero v) eqn:H0; auto.
  - right. left. reflexivity.
Qed.




Lemma truediv_int_defined (x : spec_float) (n : Z) :
  1 <= n < 2 ^ 1023 ->
  PyFloat.truediv_int x n = inr (PyFloat.div x (PyFloat.of_Z n)).
Proof.
  intros Hn. unfold PyFloat.truediv_int, PyFloat.truediv.
  destruct (of_int_total n Hn) as (y & Hy & Hnz).
  assert (Hof : y = PyFloat.of_Z n).
  { unfold PyFloat.of_int in Hy. destruct (PyFloat.of_Z n); inversion Hy; reflexivity. }
  rewrite Hy. cbn [bind]. rewrite Hnz. now subst.
Qed.

Lemma yolo_line_defined (cls_id : Z) (xmin ymin xmax ymax : spec_float) (w h : Z) :
  1 <= w < 2 ^ 1023 -> 1 <= h < 2 ^ 1023 ->
  yolo_line cls_id xmin ymin xmax ymax w h =
    inr (label_line cls_id
           (clamp01 (PyFloat.div (PyFloat.div (PyFloat.add xmin xmax) PyFloat.two)
                                 (PyFloat.of_Z w)))
           (clamp01 (PyFloat.div (PyFloat.div (PyFloat.add ymin ymax) PyFloat.two)
                                 (PyFloat.of_Z h)))
           (clamp01 (PyFloat.div (PyFloat.sub xmax xmin) (PyFloat.of_Z w)))
           (clamp01 (PyFloat.div (PyFloat.sub ymax ymin) (PyFloat.of_Z h)))).
Proof.
  intros Hw Hh. unfold yolo_line.
  unfold PyFloat.truediv at 1 2. cbn [PyFloat.is_zero PyFloat.two bind ret].
  rewrite !truediv_int_defined by assumption. reflexivity.
Qed.

End Clamp.

Section Conversion.
Context `{PyRuntime}.
Import Xml Spec Convert.

Lemma coordinate_of_field (bbox : Element) (field : string) (v : spec_float) :
  field_value bbox field = Some v -> coordinate bbox field = inr v.
Proof.
  unfold field_value, coordinate, float_of_text, deref.
  destruct (find field bbox) as [e |]; [| discriminate]. cbn [bind ret].
  destruct (text e) as [t |]; [| discriminate].
  intros ->. reflexivity.
Qed.

Lemma convert_object_record (file_base : string) (obj : Element) (cls_name : string)
    (c : Z) (xmin ymin xmax ymax : spec_float) (w h : Z) :
  source_record obj cls_name xmin ymin xmax ymax ->
  lookup_class CLASS_MAPPING (Some cls_name) = Some c ->
  convert_object file_base w h obj =
    (line <-- yolo_line c xmin ymin xmax ymax w h ;; ret (Written line)).
Proof.
  intros [(n & Hn & Ht) (bbox & Hb & Hx1 & Hy1 & Hx2 & Hy2)] Hc.
  unfold convert_object. rewrite Hn. cbn [deref bind ret]. rewrite Ht, Hc, Hb.
  rewrite (coordinate_of_field _ _ _ Hx1), (coordinate_of_field _ _ _ Hy1),
          (coordinate_of_field _ _ _ Hx2), (coordinate_of_field _ _ _ Hy2).
  reflexivity.
Qed.

End Conversion.

(** ** Names of files *)

Section Names.

Lemma append_length (a b : string) :
  String.length (a +:+ b) = (String.length a + String.length b)%nat.
Proof. induction a as [| c a IH]; simpl; [reflexivity | now f_equal]. Qed.

(** Two keys with the same extension name the same file only when they
    are the same key. *)
Lemma append_cancel_r (a b ext : string) : a +:+ ext = b +:+ ext -> a = b.
Proof.
  revert b. induction a as [| c a IH]; intros [| d b] Heq.
  - reflexivity.
  - apply (f_equal String.length) in Heq.
    rewrite !append_length in Heq. simpl in Heq. lia.
  - apply (f_equal String.length) in Heq.
    rewrite !append_length in Heq. simpl in Heq. lia.
  - simpl in Heq. injection Heq as -> Heq. f_equal. now apply IH.
Qed.

End Names.

(** ** The annotation writer *)

Section Writer.
Context `{PyRuntime}.
Import Xml Spec Convert.

Variable voc_annotations : gmap string (option Element).
Variable voc_images : gmap string string.

(** A file only ever touches its own label. *)
Lemma process_file_other_label (st : state) (file_base path : string) :
  path <> file_base +:+ ".txt" ->
  labels (process_file voc_annotations voc_images st file_base) !! path = labels st !! path.
Proof.
  intros Hne. unfold process_file.
  destruct (voc_annotations !! (file_base +:+ ".xml")) as [content |]; [| reflexivity].
  destruct (root <-- et_parse content ;; hd <-- read_header root ;; ret (root, hd))
    as [e | [root [w h image_name | |]]]; try reflexivity.
  destruct (write_objects file_base w h (iter "object" root)) as [[lines evs] r].
  assert (Hw : labels (say_all evs (write_label (file_base +:+ ".txt") lines st)) !! path
               = labels st !! path).
  { cbn [labels say_all write_label]. now rewrite lookup_insert_ne. }
  destruct r as [e |]; [exact Hw |].
  destruct (voc_images !! image_name); exact Hw.
Qed.

Lemma process_file_parsed (st : state) (file_base image_name : string)
    (lines : list string) (evs : list event) :
  annotation_parses voc_annotations file_base image_name lines evs ->
  process_file voc_annotations voc_images st file_base =
    let st1 := say_all evs (write_label (file_base +:+ ".txt") lines st) in
    match voc_images !! image_name with
    | Some content => copy_image image_name content st1
    | None => say (WarnImageMissing image_name) st1
    end.
Proof.
  intros (root & w & h & Hfile & Hhd & Hobjs). unfold process_file.
  rewrite Hfile. cbn [et_parse bind ret]. rewrite Hhd. cbn [bind ret].
  rewrite Hobjs. reflexivity.
Qed.

Lemma process_file_keeps_label (st : state) (k file_base image_name : string)
    (lines : list string) (evs : list event) :
  annotation_parses voc_annotations file_base image_name lines evs ->
  labels st !! (file_base +:+ ".txt") = Some lines ->
  labels (process_file voc_annotations voc_images st k) !! (file_base +:+ ".txt")
    = Some lines.
Proof.
  intros Hp Hl. destruct (String.eqb_spec k file_base) as [-> | Hne].
  - rewrite (process_file_parsed st file_base image_name lines evs Hp). cbn zeta.
    destruct (voc_images !! image_name); cbn [labels say say_all write_label copy_image];
      apply lookup_insert_eq.
  - rewrite process_file_other_label; [assumption |].
    intros Heq. apply append_cancel_r in Heq. congruence.
Qed.

Lemma process_split_keeps_label (rest : list string) :
  forall (st : state) (file_base image_name : string) (lines : list string)
         (evs : list event),
    annotation_parses voc_annotations file_base image_name lines evs ->
    labels st !! (file_base +:+ ".txt") = Some lines ->
    labels (process_split voc_annotations voc_images st rest) !! (file_base +:+ ".txt")
      = Some lines.
Proof.
  induction rest as [| k rest IH]; intros st file_base image_name lines evs Hp Hl.
  - exact Hl.
  - cbn [process_split fold_left]. eapply IH; [exact Hp |].
    eapply process_file_keeps_label; eassumption.
Qed.

(** C8. When the annotation of a sample key parses but its image is not
    in the source image directory, the label file is written with the
    converted lines, nothing is copied and the counter of processed
    files is not incremented, a warning naming the image is printed, and
    the run goes on with the remaining keys; at the end of the run the
    label file is still there. *)
Theorem C8_missing_image_keeps_label_and_continues (st : state)
    (file_base image_name : string) (lines : list string) (evs : list event) :
  annotation_parses voc_annotations file_base image_name lines evs ->
  voc_images !! image_name = None ->
  let st' := process_file voc_annotations voc_images st file_base in
  labels st' !! (file_base +:+ ".txt") = Some lines /\
  images st' = images st /\
  processed_count st' = processed_count st /\
  log st' = log st ++ evs ++ [WarnImageMissing image_name] /\
  (forall rest : list string,
      process_split voc_annotations voc_images st (file_base :: rest) =
        process_split voc_annotations voc_images st' rest) /\
  (forall rest : list string,
      labels (process_split voc_annotations voc_images st (file_base :: rest))
        !! (file_base +:+ ".txt") = Some lines).
Proof.
  intros Hp Himg st'.
  assert (Hst : st' = say (WarnImageMissing image_name)
                        (say_all evs (write_label (file_base +:+ ".txt") lines st))).
  { unfold st'. rewrite (process_file_parsed st file_base image_name lines evs Hp).
    cbn zeta. now rewrite Himg. }
  assert (Hl : labels st' !! (file_base +:+ ".txt") = Some lines).
  { rewrite Hst. cbn [labels say say_all write_label]. apply lookup_insert_eq. }
  split; [exact Hl |]. rewrite Hst.
  split; [reflexivity |]. split; [reflexivity |].
  split; [cbn [log say say_all write_label]; now rewrite <- app_assoc |].
  rewrite <- Hst. split.
  - intros rest. reflexivity.
  - intros rest. cbn [process_split fold_left].
    eapply process_split_keeps_label; eassumption.
Qed.

End Writer.

Section WriterRun.

Lemma C8_missing_image_keeps_label_and_continues_witness :
  Convert.labels
    (@Convert.process_file AsciiRuntime.runtime Examples.one_annotation ∅
       Examples.fresh_output "s1") !! "s1.txt"
    = Some ["1 0.300000 0.300000 0.400000 0.400000" +:+ Convert.newline].
Proof.
  refine (proj1 (@C8_missing_image_keeps_label_and_continues AsciiRuntime.runtime
                   Examples.one_annotation ∅ Examples.fresh_output "s1" "s1.jpg"
                   ["1 0.300000 0.300000 0.400000 0.400000" +:+ Convert.newline] [] _ _)).
  - exists (Examples.annotation_of "s1.jpg" "100" "100" [Examples.missing_fastener]),
           100, 100.
    repeat split; vm_compute; reflexivity.
  - reflexivity.
Defined.

End WriterRun.

Section ConverterLine.
Context `{PyRuntime}.
Import Xml Spec Convert.



(** The lines of a list of objects whose first part converts without
    an exception. *)
Lemma write_objects_app (file_base : string) (w h : Z) (pre : list Element) :
  forall (post : list Element) (lines : list string) (evs : list event),
    write_objects file_base w h pre = (lines, evs, None) ->
    write_objects file_base w h (pre ++ post) =
      let '(lines', evs', r) := write_objects file_base w h post in
      (lines ++ lines', evs ++ evs', r).
Proof.
  induction pre as [| obj rest IH]; intros post lines evs Hpre.
  - cbn [write_objects] in Hpre. injection Hpre as <- <-.
    cbn [app]. now destruct (write_objects file_base w h post) as [[? ?] ?].
  - cbn [app write_objects] in *.
    destruct (convert_object file_base w h obj) as [e | [line | ev]];
      [discriminate | |];
      destruct (write_objects file_base w h rest) as [[lines0 evs0] r0] eqn:Hrest;
      injection Hpre as <- <- ->;
      rewrite (IH post lines0 evs0 eq_refl);
      now destruct (write_objects file_base w h post) as [[? ?] ?].
Qed.





Variable voc_annotations : gmap string (option Element).
Variable voc_images : gmap string string.



End ConverterLine.

Section ConverterClaim.
Import Xml Spec Convert.




End ConverterClaim.

(** ** The PCB status rule *)

Section PcbStatus.
Import Infer.

Lemma scan_boxes_flags (bs : list Box) (a b : bool) :
  scan_boxes bs a b =
    (a || existsb (fun x => cls x =? 1) bs, b || existsb (fun x => cls x =? 3) bs).
Proof.
  revert a b. induction bs as [| box rest IH]; intros a b; cbn [scan_boxes existsb].
  - now rewrite !orb_false_r.
  - destruct (cls box =? 1) eqn:H1.
    + apply Z.eqb_eq in H1. rewrite IH, H1. cbn. now rewrite orb_true_r.
    + destruct (cls box =? 3) eqn:H3; rewrite IH; cbn; now rewrite ?orb_true_r.
Qed.

Lemma has_class_iff (bs : list Box) (k : Z) :
  existsb (fun x => cls x =? k) bs = true <-> exists b, In b bs /\ cls b = k.
Proof.
  rewrite existsb_exists. split; intros (b & Hin & Hb); exists b; split; auto.
  - now apply Z.eqb_eq.
  - now apply Z.eqb_eq.
Qed.

(** C2. A result carrying a (possibly empty) list of detections is marked
    abnormal exactly when a detection of class 1 (missing fastener) and a
    detection of class 3 (board body) are both in the list; it is marked
    normal in every other case, in particular when the list is empty. *)
Theorem C2_abnormal_iff_missing_fastener_and_board (result : Result) (bs : list Box) :
  boxes result = Some bs ->
  (_analyze_pcb_status result = abnormal <->
     (exists b1, In b1 bs /\ cls b1 = 1) /\ (exists b3, In b3 bs /\ cls b3 = 3)) /\
  (_analyze_pcb_status result <> abnormal -> _analyze_pcb_status result = normal) /\
  (bs = [] -> _analyze_pcb_status result = normal).
Proof.
  intros Hbs. unfold _analyze_pcb_status. rewrite Hbs, scan_boxes_flags.
  cbn [orb]. rewrite <- !has_class_iff.
  destruct (existsb (fun x => cls x =? 1) bs) eqn:E1,
           (existsb (fun x => cls x =? 3) bs) eqn:E3; cbn;
    repeat split; try tauto; try congruence; try (intros [? ?]; congruence).
  all: intros ->; cbn in *; congruence.
Qed.

Lemma C2_abnormal_iff_missing_fastener_and_board_witness :
  let board := {| cls := 3; conf := PyFloat.one;
                  xyxy := (PyFloat.zero, PyFloat.zero, PyFloat.one, PyFloat.one) |} in
  let gap := {| cls := 1; conf := PyFloat.one;
                xyxy := (PyFloat.zero, PyFloat.zero, PyFloat.one, PyFloat.one) |} in
  _analyze_pcb_status {| boxes := Some [board; gap] |} = abnormal.
Proof.
  intros board gap.
  apply (proj1 (C2_abnormal_iff_missing_fastener_and_board
                  {| boxes := Some [board; gap] |} [board; gap] eq_refl)).
  split; [exists gap | exists board]; cbn; auto.
Defined.

(** The guard in front of the rule: without a list of boxes the status is
    neither of the two. *)
Lemma analyze_without_boxes : _analyze_pcb_status {| boxes := None |} = unknown.
Proof. reflexivity. Qed.

End PcbStatus.

(** ** The ratio-based split *)

Section Shuffle.
Import Split.
Context {A : Type}.

Lemma swap_Permutation (x : list A) (i j : nat) : swap x i j ≡ₚ x.
Proof.
  unfold swap. destruct (x !! i) as [a |] eqn:Hi; [| reflexivity].
  destruct (x !! j) as [b |] eqn:Hj; [| reflexivity].
  now apply Permutation_insert_swap.
Qed.

Lemma shuffle_from_Permutation (i : nat) :
  forall (x : list A) (g : rng), fst (shuffle_from i x g) ≡ₚ x.
Proof.
  induction i as [| i IH]; intros x g; cbn [shuffle_from]; [reflexivity |].
  destruct (randbelow (S i + 1) g) as [j g'].
  rewrite IH. apply swap_Permutation.
Qed.

Lemma shuffle_Permutation (x : list A) (g : rng) : fst (shuffle x g) ≡ₚ x.
Proof. apply shuffle_from_Permutation. Qed.

End Shuffle.

Section TrainTestSplit.
Import Split.
Context `{SkRuntime} {A : Type}.

Lemma safe_indexing_omap (a : list A) (indices : list nat) (r : list A) :
  safe_indexing a indices = inr r -> r = omap (fun i => a !! i) indices.
Proof.
  revert r. induction indices as [| i rest IH]; intros r; cbn [safe_indexing].
  - now intros [= <-].
  - destruct (a !! i) as [v |] eqn:Hi; [| discriminate].
    destruct (safe_indexing a rest) as [e | vs]; cbn [bind ret]; [discriminate |].
    intros [= <-]. cbn. rewrite Hi. now rewrite <- (IH vs eq_refl).
Qed.

Lemma safe_indexing_defined (a : list A) (indices : list nat) :
  Forall (fun i => (i < length a)%nat) indices ->
  exists r, safe_indexing a indices = inr r.
Proof.
  induction 1 as [| i rest Hi _ [vs IH]]; cbn [safe_indexing]; [eauto |].
  destruct (lookup_lt_is_Some_2 a i Hi) as [v ->].
  rewrite IH. cbn [bind ret]. eauto.
Qed.

Lemma omap_fmap_S (f : nat -> option A) (l : list nat) :
  omap f (S <$> l) = omap (fun i => f (S i)) l.
Proof.
  induction l as [| i l IH]; [reflexivity |].
  cbn. rewrite <- IH. reflexivity.
Qed.

Lemma omap_lookup_seq (a : list A) : omap (fun i => a !! i) (seq 0 (length a)) = a.
Proof.
  induction a as [| c a IH]; [reflexivity |].
  cbn [length seq]. rewrite <- fmap_S_seq.
  change (omap (fun i => (c :: a) !! i) (0%nat :: (S <$> seq 0 (length a))))
    with (c :: omap (fun i => (c :: a) !! i) (S <$> seq 0 (length a))).
  rewrite omap_fmap_S. f_equal. exact IH.
Qed.

Lemma validate_sizes (n : nat) (test_size : spec_float) (n_train n_test : nat) :
  validate_shuffle_split n test_size = inr (n_train, n_test) ->
  PyFloat.is_zero test_size = false /\
  exists k : Z, n_train = Z.to_nat (Z.of_nat n - k) /\ n_test = Z.to_nat k.
Proof.
  unfold validate_shuffle_split.
  destruct (PyFloat.le_int test_size 0 || PyFloat.ge_int test_size 1) eqn:Hr;
    [discriminate |].
  apply orb_false_elim in Hr as [Hle _].
  destruct (PyFloat.of_int (Z.of_nat n)) as [e | nf]; cbn [bind]; [discriminate |].
  destruct (ceil (PyFloat.mul test_size nf)) as [e | k]; cbn [bind]; [discriminate |].
  destruct (Z.of_nat n <? _); [discriminate |].
  destruct (_ =? 0); [discriminate |].
  intros [= <- <-]. split; [| eauto].
  destruct test_size; try reflexivity. discriminate Hle.
Qed.

Lemma indices_in_range (n : nat) :
  Forall (fun i => (i < n)%nat) (permutation42 n).
Proof.
  apply List.Forall_forall. intros i Hi.
  apply (Permutation_in _ (permutation42_spec n)) in Hi.
  apply in_seq in Hi. lia.
Qed.

Lemma Forall_take_drop (P : nat -> Prop) (l : list nat) (n m : nat) :
  Forall P l -> Forall P (take n (drop m l)).
Proof. intros Hl. now apply Forall_take, Forall_drop. Qed.

(** The call returns whenever the sizes are accepted. *)
Lemma train_test_split_defined (arrays : list A) (test_size : spec_float)
    (sizes : nat * nat) :
  validate_shuffle_split (length arrays) test_size = inr sizes ->
  exists train test, train_test_split arrays test_size = inr (train, test).
Proof.
  intros Hv. unfold train_test_split. rewrite Hv. cbn [bind].
  destruct sizes as [n_train n_test].
  pose proof (indices_in_range (length arrays)) as Hr.
  destruct (safe_indexing_defined arrays
              (take n_train (drop n_test (permutation42 (length arrays)))))
    as [train ->]; [now apply Forall_take_drop |].
  destruct (safe_indexing_defined arrays (take n_test (permutation42 (length arrays))))
    as [test ->]; [now apply Forall_take |].
  cbn [bind ret]. eauto.
Qed.

(** The two sides of a split are a rearrangement of the input. *)
Lemma train_test_split_Permutation (arrays : list A) (test_size : spec_float)
    (train test : list A) :
  train_test_split arrays test_size = inr (train, test) ->
  train ++ test ≡ₚ arrays.
Proof.
  unfold train_test_split.
  destruct (validate_shuffle_split (length arrays) test_size) as [e | [n_train n_test]]
    eqn:Hv; cbn [bind]; [discriminate |].
  apply validate_sizes in Hv as (_ & k & -> & ->).
  set (p := permutation42 (length arrays)).
  destruct (safe_indexing arrays (take _ (drop _ p))) as [e | tr] eqn:Htr;
    cbn [bind]; [discriminate |].
  destruct (safe_indexing arrays (take _ p)) as [e | te] eqn:Hte;
    cbn [bind ret]; [discriminate |].
  intros [= <- <-].
  apply safe_indexing_omap in Htr, Hte. subst tr te.
  assert (Hlen : length p = length arrays).
  { unfold p. rewrite (Permutation_length (permutation42_spec _)). apply length_seq. }
  rewrite (take_ge (drop (Z.to_nat k) p)) by (rewrite length_drop; lia).
  rewrite <- omap_app.
  transitivity (omap (fun i => arrays !! i) p).
  - apply omap_Permutation. rewrite Permutation_app_comm. now rewrite take_drop.
  - etransitivity; [apply omap_Permutation, permutation42_spec |].
    now rewrite omap_lookup_seq.
Qed.

End TrainTestSplit.

Section CopyLoop.
Import Split.

Variable input_images input_labels : gmap string string.

Lemma find_source_found (file_base : string) (exts : list string) (content : string) :
  find_source input_images file_base exts = Some content ->
  exists ext, In ext exts /\ input_images !! (file_base +:+ ext) = Some content.
Proof.
  induction exts as [| ext rest IH]; cbn [find_source]; [discriminate |].
  destruct (input_images !! (file_base +:+ ext)) as [c |] eqn:He.
  - intros [= <-]. exists ext. split; [now left | assumption].
  - intros Hf. destruct (IH Hf) as (ext' & Hin & Hc). exists ext'. split; [now right | assumption].
Qed.

Lemma find_source_exists (file_base : string) (exts : list string) :
  (exists ext, In ext exts /\ is_Some (input_images !! (file_base +:+ ext))) ->
  is_Some (find_source input_images file_base exts).
Proof.
  induction exts as [| ext rest IH]; intros (ext' & Hin & Hs); [destruct Hin |].
  cbn [find_source]. destruct (input_images !! (file_base +:+ ext)) as [c |] eqn:He;
    [eauto |].
  destruct Hin as [<- | Hin]; [rewrite He in Hs; destruct Hs; discriminate |].
  apply IH. eauto.
Qed.

(** One step of the loop rewrites the image and the label of its own key
    and of no other. *)
Lemma copy_files_image (acc : split_dir * list event) (k' k : string) :
  images (fst (copy_files input_images input_labels acc k')) !! (k +:+ ".jpg") =
    if String.eqb k' k then
      match find_source input_images k candidate_exts with
      | Some content => Some content
      | None => images (fst acc) !! (k +:+ ".jpg")
      end
    else images (fst acc) !! (k +:+ ".jpg").
Proof.
  destruct acc as [d log]. unfold copy_files. cbn [fst].
  assert (Himg : forall m : gmap string string,
             match input_labels !! (k' +:+ ".txt") with
             | Some content =>
                 ({| images := m; labels := <[k' +:+ ".txt" := content]> (labels d) |}, log)
             | None =>
                 ({| images := m; labels := labels d |},
                  log ++ [WarnLabelMissing (k' +:+ ".txt")])
             end.1.(images) = m)
    by (intros m; destruct (input_labels !! (k' +:+ ".txt")); reflexivity).
  rewrite Himg. destruct (String.eqb_spec k' k) as [-> | Hne].
  - destruct (find_source input_images k candidate_exts); [apply lookup_insert_eq | reflexivity].
  - destruct (find_source input_images k' candidate_exts); [| reflexivity].
    apply lookup_insert_ne. intros Heq. apply append_cancel_r in Heq. contradiction.
Qed.

Lemma copy_files_label (acc : split_dir * list event) (k' k : string) :
  labels (fst (copy_files input_images input_labels acc k')) !! (k +:+ ".txt") =
    if String.eqb k' k then
      match input_labels !! (k +:+ ".txt") with
      | Some content => Some content
      | None => labels (fst acc) !! (k +:+ ".txt")
      end
    else labels (fst acc) !! (k +:+ ".txt").
Proof.
  destruct acc as [d log]. unfold copy_files. cbn [fst].
  destruct (String.eqb_spec k' k) as [-> | Hne].
  - destruct (input_labels !! (k +:+ ".txt")); cbn [fst labels];
      [apply lookup_insert_eq | reflexivity].
  - destruct (input_labels !! (k' +:+ ".txt")); cbn [fst labels]; [| reflexivity].
    apply lookup_insert_ne. intros Heq. apply append_cancel_r in Heq. contradiction.
Qed.

Lemma copy_split_image (files : list string) (k content : string) :
  find_source input_images k candidate_exts = Some content ->
  forall (d : split_dir) (log : list event),
    In k files \/ images d !! (k +:+ ".jpg") = Some content ->
    images (fst (copy_split input_images input_labels d log files)) !! (k +:+ ".jpg")
      = Some content.
Proof.
  intros Hsrc. unfold copy_split.
  induction files as [| k' rest IH]; intros d log Hk; cbn [fold_left].
  - destruct Hk as [[] | Hk]. exact Hk.
  - destruct (copy_files input_images input_labels (d, log) k') as [d' log'] eqn:Hstep.
    apply IH. pose proof (copy_files_image (d, log) k' k) as Himg.
    rewrite Hstep, Hsrc in Himg. cbn [fst] in Himg.
    destruct (String.eqb_spec k' k) as [-> | Hne].
    + now right.
    + destruct Hk as [[Heq | Hin] | Hold]; [contradiction | now left |].
      right. now rewrite Himg.
Qed.

(** The loop writes images under names made of a key of the split and
    [.jpg], and under no other name. *)
Lemma copy_split_other_image (files : list string) (name : string) :
  (forall k', In k' files -> name <> k' +:+ ".jpg") ->
  forall (d : split_dir) (log : list event),
    images (fst (copy_split input_images input_labels d log files)) !! name
      = images d !! name.
Proof.
  unfold copy_split.
  induction files as [| k' rest IH]; intros Hname d log; cbn [fold_left]; [reflexivity |].
  destruct (copy_files input_images input_labels (d, log) k') as [d' log'] eqn:Hstep.
  rewrite IH by (intros k'' Hin; apply Hname; now right).
  assert (Hd' : images d' =
                match find_source input_images k' candidate_exts with
                | Some content => <[k' +:+ ".jpg" := content]> (images d)
                | None => images d
                end).
  { unfold copy_files in Hstep.
    destruct (input_labels !! (k' +:+ ".txt")); injection Hstep as <- _; reflexivity. }
  rewrite Hd'. destruct (find_source input_images k' candidate_exts); [| reflexivity].
  apply lookup_insert_ne. intros Heq. apply (Hname k'); [now left | now symmetry].
Qed.

Lemma copy_split_label (files : list string) (k content : string) :
  input_labels !! (k +:+ ".txt") = Some content ->
  forall (d : split_dir) (log : list event),
    In k files \/ labels d !! (k +:+ ".txt") = Some content ->
    labels (fst (copy_split input_images input_labels d log files)) !! (k +:+ ".txt")
      = Some content.
Proof.
  intros Hsrc. unfold copy_split.
  induction files as [| k' rest IH]; intros d log Hk; cbn [fold_left].
  - destruct Hk as [[] | Hk]. exact Hk.
  - destruct (copy_files input_images input_labels (d, log) k') as [d' log'] eqn:Hstep.
    apply IH. pose proof (copy_files_label (d, log) k' k) as Hlbl.
    rewrite Hstep, Hsrc in Hlbl. cbn [fst] in Hlbl.
    destruct (String.eqb_spec k' k) as [-> | Hne].
    + now right.
    + destruct Hk as [[Heq | Hin] | Hold]; [contradiction | now left |].
      right. now rewrite Hlbl.
Qed.

End CopyLoop.

Section SplitAssigner.
Context `{PyRuntime} `{SkRuntime}.
Import Split.

Variable listing : list string.
Variable input_images input_labels : gmap string string.
Variable out_train out_val out_test : split_dir.
Variable g : rng.
Variable train_ratio val_ratio test_ratio : spec_float.


(** What a run that returns has gone through. *)
Lemma split_yolo_dataset_inv (out : outcome) :
  split_yolo_dataset listing input_images input_labels out_train out_val out_test g
                     train_ratio val_ratio test_ratio = inr out ->
  exists (temp_files : list string) (log1 log2 log3 : list event),
    train_test_split (fst (shuffle (image_keys listing) g))
                     (PyFloat.add val_ratio test_ratio)
      = inr (train_files out, temp_files) /\
    train_test_split temp_files
                     (PyFloat.div test_ratio (PyFloat.add val_ratio test_ratio))
      = inr (val_files out, test_files out) /\
    train out = fst (copy_split input_images input_labels out_train log1 (train_files out)) /\
    val out = fst (copy_split input_images input_labels out_val log2 (val_files out)) /\
    test out = fst (copy_split input_images input_labels out_test log3 (test_files out)).
Proof.
  unfold split_yolo_dataset.
  destruct (SFltb tolerance _); [discriminate |].
  destruct (shuffle (image_keys listing) g) as [shuffled g'].
  destruct (train_test_split shuffled _) as [e | [tr temp]] eqn:Hs1; cbn [bind];
    [discriminate |].
  unfold PyFloat.truediv.
  destruct (PyFloat.is_zero _); cbn [bind ret]; [discriminate |].
  destruct (train_test_split temp _) as [e | [va te]] eqn:Hs2; cbn [bind];
    [discriminate |].
  destruct (copy_split _ _ out_train _ tr) as [d1 l1] eqn:H1.
  destruct (copy_split _ _ out_val _ va) as [d2 l2] eqn:H2.
  destruct (copy_split _ _ out_test _ te) as [d3 l3] eqn:H3.
  intros [= <-]. cbn [train_files val_files test_files train val test fst].
  eexists temp, _, _, _. rewrite H1, H2, H3. cbn [fst].
  repeat split; first [exact Hs1 | exact Hs2 | reflexivity].
Qed.

(** A run returns when the ratios pass the sum test and both splits
    accept their sizes. *)
Lemma split_yolo_dataset_defined (n_train n_temp n_val n_test : nat) :
  SFltb tolerance
    (SFabs (PyFloat.sub (PyFloat.add (PyFloat.add train_ratio val_ratio) test_ratio)
                        PyFloat.one)) = false ->
  validate_shuffle_split (length (image_keys listing))
                         (PyFloat.add val_ratio test_ratio) = inr (n_train, n_temp) ->
  (n_temp <= length (image_keys listing))%nat ->
  validate_shuffle_split n_temp
    (PyFloat.div test_ratio (PyFloat.add val_ratio test_ratio)) = inr (n_val, n_test) ->
  exists out,
    split_yolo_dataset listing input_images input_labels out_train out_val out_test g
                       train_ratio val_ratio test_ratio = inr out.
Proof.
  intros Hsum Hv1 Hle Hv2. unfold split_yolo_dataset. rewrite Hsum.
  pose proof (shuffle_Permutation (image_keys listing) g) as Hperm.
  destruct (shuffle (image_keys listing) g) as [shuffled g']. cbn [fst] in Hperm.
  assert (Hlen : length shuffled = length (image_keys listing))
    by (now apply Permutation_length).
  pose proof Hv1 as Hv1'. rewrite <- Hlen in Hv1'.
  destruct (train_test_split_defined shuffled _ _ Hv1') as (tr & temp & Hs1).
  rewrite Hs1. cbn [bind].
  destruct (validate_sizes _ _ _ _ Hv1) as [Hnz _].
  unfold PyFloat.truediv. rewrite Hnz. cbn [bind ret].
  assert (Htemp : length temp = n_temp).
  { unfold train_test_split in Hs1. rewrite Hv1' in Hs1. cbn [bind] in Hs1.
    destruct (safe_indexing shuffled (take n_train _)) as [e | tr'] eqn:Htr;
      cbn [bind] in Hs1; [discriminate |].
    destruct (safe_indexing shuffled (take n_temp _)) as [e | te'] eqn:Hte;
      cbn [bind ret] in Hs1; [discriminate |].
    injection Hs1 as <- <-.
    assert (Hl : forall (idx : list nat) (r : list string),
               safe_indexing shuffled idx = inr r -> length r = length idx).
    { induction idx as [| i idx IH]; intros r; cbn [safe_indexing].
      - now intros [= <-].
      - destruct (shuffled !! i); [| discriminate].
        destruct (safe_indexing shuffled idx) as [e | vs]; cbn [bind ret]; [discriminate |].
        intros [= <-]. cbn [length]. now rewrite (IH vs eq_refl). }
    rewrite (Hl _ _ Hte), length_take.
    rewrite (Permutation_length (permutation42_spec _)), length_seq. lia. }
  pose proof Hv2 as Hv2'. rewrite <- Htemp in Hv2'.
  destruct (train_test_split_defined temp _ _ Hv2') as (va & te & Hs2).
  rewrite Hs2. cbn [bind].
  destruct (copy_split _ _ out_train _ tr) as [d1 l1].
  destruct (copy_split _ _ out_val _ va) as [d2 l2].
  destruct (copy_split _ _ out_test _ te) as [d3 l3].
  eauto.
Qed.

(** A run raises when the first split rejects its sizes. *)
Lemma split_yolo_dataset_rejected (e : exn) :
  SFltb tolerance
    (SFabs (PyFloat.sub (PyFloat.add (PyFloat.add train_ratio val_ratio) test_ratio)
                        PyFloat.one)) = false ->
  validate_shuffle_split (length (image_keys listing))
                         (PyFloat.add val_ratio test_ratio) = inl e ->
  split_yolo_dataset listing input_images input_labels out_train out_val out_test g
                     train_ratio val_ratio test_ratio = inl e.
Proof.
  intros Hsum Hv1. unfold split_yolo_dataset. rewrite Hsum.
  pose proof (shuffle_Permutation (image_keys listing) g) as Hperm.
  destruct (shuffle (image_keys listing) g) as [shuffled g']. cbn [fst] in Hperm.
  unfold train_test_split. rewrite (Permutation_length Hperm), Hv1. reflexivity.
Qed.

Lemma split_yolo_dataset_Permutation (out : outcome) :
  split_yolo_dataset listing input_images input_labels out_train out_val out_test g
                     train_ratio val_ratio test_ratio = inr out ->
  train_files out ++ val_files out ++ test_files out ≡ₚ image_keys listing.
Proof.
  intros Hrun. destruct (split_yolo_dataset_inv out Hrun)
    as (temp & l1 & l2 & l3 & Hs1 & Hs2 & _).
  apply train_test_split_Permutation in Hs1, Hs2.
  rewrite Hs2, Hs1. apply shuffle_Permutation.
Qed.

End SplitAssigner.

Section SplitClaims.
Import Split.

(** C6, as the code has it. When the ratios pass the sum test and each of
    the two [train_test_split] calls accepts its sizes (a test share
    strictly between 0 and 1 and a train side that is not empty), the
    script returns, and its three lists of keys are an exact partition of
    the input keys: together they are a rearrangement of the input, every
    input key is in one of them, and no key is in two.  (On other inputs,
    a single key for instance, the call raises and nothing is assigned.) *)
Theorem C6_split_is_partition (R : PyRuntime) (Sk : SkRuntime)
    (listing : list string) (input_images input_labels : gmap string string)
    (out_train out_val out_test : split_dir) (g : rng)
    (train_ratio val_ratio test_ratio : spec_float)
    (n_train n_temp n_val n_test : nat) :
  NoDup (image_keys listing) ->
  SFltb tolerance
    (SFabs (PyFloat.sub (PyFloat.add (PyFloat.add train_ratio val_ratio) test_ratio)
                        PyFloat.one)) = false ->
  validate_shuffle_split (length (image_keys listing))
                         (PyFloat.add val_ratio test_ratio) = inr (n_train, n_temp) ->
  (n_temp <= length (image_keys listing))%nat ->
  validate_shuffle_split n_temp
    (PyFloat.div test_ratio (PyFloat.add val_ratio test_ratio)) = inr (n_val, n_test) ->
  exists out : outcome,
    split_yolo_dataset listing input_images input_labels out_train out_val out_test g
                       train_ratio val_ratio test_ratio = inr out /\
    train_files out ++ val_files out ++ test_files out ≡ₚ image_keys listing /\
    (forall k, In k (image_keys listing) <->
               In k (train_files out) \/ In k (val_files out) \/ In k (test_files out)) /\
    (forall k, ~ (In k (train_files out) /\ In k (val_files out)) /\
               ~ (In k (train_files out) /\ In k (test_files out)) /\
               ~ (In k (val_files out) /\ In k (test_files out))) /\
    NoDup (train_files out) /\ NoDup (val_files out) /\ NoDup (test_files out).
Proof.
  intros Hnd Hsum Hv1 Hle Hv2.
  destruct (split_yolo_dataset_defined listing input_images input_labels
              out_train out_val out_test g train_ratio val_ratio test_ratio
              n_train n_temp n_val n_test Hsum Hv1 Hle Hv2) as [out Hrun].
  exists out. split; [exact Hrun |].
  pose proof (split_yolo_dataset_Permutation _ _ _ _ _ _ _ _ _ _ out Hrun) as Hperm.
  split; [exact Hperm |].
  assert (Hnd' : NoDup (train_files out ++ val_files out ++ test_files out))
    by (now rewrite Hperm).
  apply NoDup_app in Hnd' as (Hn1 & Hd1 & Hnd').
  apply NoDup_app in Hnd' as (Hn2 & Hd2 & Hn3).
  split; [| split; [| auto]].
  - intros k. rewrite <- !list_elem_of_In, <- Hperm, !elem_of_app. tauto.
  - intros k. rewrite <- !list_elem_of_In. repeat split.
    + intros [H1 H2]. apply (Hd1 k H1). apply elem_of_app. now left.
    + intros [H1 H2]. apply (Hd1 k H1). apply elem_of_app. now right.
    + intros [H1 H2]. exact (Hd2 k H1 H2).
Qed.

(** C10. In a run that returns, for every key of a split whose source
    image exists under one of the six candidate extensions, the image
    directory of that split holds, under the key followed by [.jpg], the
    unchanged content of the first existing candidate, whatever the
    extension of that candidate, and the label is copied beside it under
    the key followed by [.txt]; a key whose only image is a [.png] file
    gets the content of that file under the [.jpg] name.  The split
    receives images under no name other than a key followed by [.jpg]. *)
Theorem C10_copied_image_is_named_jpg (R : PyRuntime) (Sk : SkRuntime)
    (listing : list string) (input_images input_labels : gmap string string)
    (out_train out_val out_test : split_dir) (g : rng)
    (train_ratio val_ratio test_ratio : spec_float)
    (out : outcome) (k : string) (files : list string) (before after : split_dir) :
  split_yolo_dataset listing input_images input_labels out_train out_val out_test g
                     train_ratio val_ratio test_ratio = inr out ->
  (files = train_files out /\ before = out_train /\ after = train out) \/
  (files = val_files out /\ before = out_val /\ after = val out) \/
  (files = test_files out /\ before = out_test /\ after = test out) ->
  In k files ->
  (exists ext, In ext candidate_exts /\ is_Some (input_images !! (k +:+ ext))) ->
  (exists ext content,
      In ext candidate_exts /\
      input_images !! (k +:+ ext) = Some content /\
      find_source input_images k candidate_exts = Some content /\
      images after !! (k +:+ ".jpg") = Some content) /\
  (forall content,
      input_images !! (k +:+ ".jpg") = None ->
      input_images !! (k +:+ ".jpeg") = None ->
      input_images !! (k +:+ ".png") = Some content ->
      images after !! (k +:+ ".jpg") = Some content) /\
  (forall label,
      input_labels !! (k +:+ ".txt") = Some label ->
      labels after !! (k +:+ ".txt") = Some label) /\
  (forall name,
      (forall k', In k' files -> name <> k' +:+ ".jpg") ->
      images after !! name = images before !! name).
Proof.
  intros Hrun Hsplit Hk Hex.
  destruct (split_yolo_dataset_inv listing input_images input_labels out_train out_val
              out_test g train_ratio val_ratio test_ratio out Hrun)
    as (temp & l1 & l2 & l3 & _ & _ & Ht & Hv & Hte).
  assert (Hafter : exists log,
             after = fst (copy_split input_images input_labels before log files)).
  { destruct Hsplit as [(-> & -> & ->) | [(-> & -> & ->) | (-> & -> & ->)]]; eauto. }
  destruct Hafter as [log ->].
  assert (Himg : forall content,
             find_source input_images k candidate_exts = Some content ->
             images (fst (copy_split input_images input_labels before log files))
               !! (k +:+ ".jpg") = Some content)
    by (intros content Hsrc; apply copy_split_image; auto).
  split; [| split; [| split]].
  - destruct (find_source_exists input_images k candidate_exts Hex) as [content Hsrc].
    destruct (find_source_found input_images k candidate_exts content Hsrc)
      as (ext & Hin & Hc).
    exists ext, content. auto.
  - intros content Hj Hje Hp. apply Himg.
    unfold candidate_exts. cbn [find_source]. now rewrite Hj, Hje, Hp.
  - intros label Hsrc. apply copy_split_label; auto.
  - intros name Hname. now apply copy_split_other_image.
Qed.

End SplitClaims.

Section Reproducibility.
Import Split Spec.

Lemma train_side `{SkRuntime} {A : Type} (arrays : list A) (test_size : spec_float)
    (n_train n_test : nat) (train test : list A) :
  validate_shuffle_split (length arrays) test_size = inr (n_train, n_test) ->
  train_test_split arrays test_size = inr (train, test) ->
  train = omap (fun i => arrays !! i)
               (take n_train (drop n_test (permutation42 (length arrays)))).
Proof.
  intros Hv. unfold train_test_split. rewrite Hv. cbn [bind].
  destruct (safe_indexing arrays (take n_train _)) as [e | tr] eqn:Htr;
    cbn [bind]; [discriminate |].
  destruct (safe_indexing arrays (take n_test _)) as [e | te];
    cbn [bind ret]; [discriminate |].
  intros [= <- <-]. now apply safe_indexing_omap.
Qed.

Lemma has_key_In (k : string) (l : list string) : has_key k l = true <-> In k l.
Proof.
  unfold has_key. rewrite existsb_exists. split.
  - intros (x & Hin & Heq). apply String.eqb_eq in Heq. now subst.
  - intros Hin. exists k. split; [assumption | apply String.eqb_refl].
Qed.

Lemma moved_key (l1 l2 : list string) :
  (has_key "a" l1 && negb (has_key "a" l2)) ||
  (has_key "b" l1 && negb (has_key "b" l2)) ||
  (has_key "c" l1 && negb (has_key "c" l2)) ||
  (has_key "d" l1 && negb (has_key "d" l2)) = true ->
  exists k, In k l1 /\ ~ In k l2.
Proof.
  intros Hm. repeat (apply orb_prop in Hm as [Hm | Hm]);
    apply andb_prop in Hm as [H1 H2]; apply negb_true_iff in H2;
    apply has_key_In in H1;
    (eexists; split; [exact H1 |]; intros Hin; apply has_key_In in Hin; congruence).
Qed.

(** C3 on the code. Whatever indices the seeded generator of
    [train_test_split] draws, two runs of the script over the same four
    images with the same ratios, started from two states of the
    process-wide generator used by [random.shuffle], both return, and
    some key is in the training split of the first run only. *)
Theorem C3_membership_depends_on_unseeded_shuffle (Sk : SkRuntime) :
  exists out1 out2 : outcome,
    Examples.split_four Examples.generator_1 = inr out1 /\
    Examples.split_four Examples.generator_2 = inr out2 /\
    exists k, In k (train_files out1) /\ ~ In k (train_files out2).
Proof.
  assert (Hsum : SFltb tolerance
            (SFabs (PyFloat.sub
                      (PyFloat.add (PyFloat.add Examples.ratio_070 Examples.ratio_015)
                                   Examples.ratio_015) PyFloat.one)) = false)
    by (vm_compute; reflexivity).
  assert (Hv1 : validate_shuffle_split
                  (length (@image_keys AsciiRuntime.runtime Examples.four_images))
                  (PyFloat.add Examples.ratio_015 Examples.ratio_015)
                = inr (2%nat, 2%nat)) by (vm_compute; reflexivity).
  assert (Hv2 : validate_shuffle_split 2
                  (PyFloat.div Examples.ratio_015
                               (PyFloat.add Examples.ratio_015 Examples.ratio_015))
                = inr (1%nat, 1%nat)) by (vm_compute; reflexivity).
  assert (Hle : (2 <= length (@image_keys AsciiRuntime.runtime Examples.four_images))%nat)
    by (vm_compute; lia).
  destruct (@split_yolo_dataset_defined AsciiRuntime.runtime Sk Examples.four_images
              Examples.four_image_files Examples.three_label_files
              Examples.empty_split Examples.empty_split Examples.empty_split
              Examples.generator_1 _ _ _ _ _ _ _ Hsum Hv1 Hle Hv2) as [out1 Hrun1].
  destruct (@split_yolo_dataset_defined AsciiRuntime.runtime Sk Examples.four_images
              Examples.four_image_files Examples.three_label_files
              Examples.empty_split Examples.empty_split Examples.empty_split
              Examples.generator_2 _ _ _ _ _ _ _ Hsum Hv1 Hle Hv2) as [out2 Hrun2].
  exists out1, out2. split; [exact Hrun1 |]. split; [exact Hrun2 |].
  destruct (split_yolo_dataset_inv _ _ _ _ _ _ _ _ _ _ out1 Hrun1)
    as (temp1 & _ & _ & _ & Hs1 & _).
  destruct (split_yolo_dataset_inv _ _ _ _ _ _ _ _ _ _ out2 Hrun2)
    as (temp2 & _ & _ & _ & Hs2 & _).
  change (fst (shuffle (@image_keys AsciiRuntime.runtime Examples.four_images)
                       Examples.generator_1))
    with ["a"; "b"; "c"; "d"] in Hs1.
  change (fst (shuffle (@image_keys AsciiRuntime.runtime Examples.four_images)
                       Examples.generator_2))
    with ["b"; "c"; "d"; "a"] in Hs2.
  apply (train_side _ _ 2 2) in Hs1; [| exact Hv1].
  apply (train_side _ _ 2 2) in Hs2; [| exact Hv1].
  cbn [length] in Hs1, Hs2.
  pose proof (permutation42_spec 4) as Hp. symmetry in Hp.
  apply permutations_Permutation in Hp.
  set (ps := permutations (seq 0 4)) in Hp. vm_compute in ps. subst ps.
  apply moved_key. rewrite Hs1, Hs2.
  repeat (apply elem_of_cons in Hp as [Hp | Hp]; [rewrite Hp; vm_compute; reflexivity |]).
  now apply elem_of_nil in Hp.
Qed.

End Reproducibility.

Section SplitRuns.
Import Split.

Lemma C6_split_is_partition_witness :
  exists out : outcome,
    @Examples.split_four ReversedIndices.runtime Examples.generator_1 = inr out /\
    train_files out ++ val_files out ++ test_files out
      ≡ₚ @image_keys AsciiRuntime.runtime Examples.four_images.
Proof.
  destruct (C6_split_is_partition AsciiRuntime.runtime ReversedIndices.runtime
              Examples.four_images Examples.four_image_files Examples.three_label_files
              Examples.empty_split Examples.empty_split Examples.empty_split
              Examples.generator_1 Examples.ratio_070 Examples.ratio_015
              Examples.ratio_015 2 2 1 1)
    as (out & Hrun & Hperm & _).
  - refine (bool_decide_unpack _ _); vm_compute; exact I.
  - vm_compute. reflexivity.
  - vm_compute. reflexivity.
  - vm_compute. lia.
  - vm_compute. reflexivity.
  - exists out. split; assumption.
Defined.

(** A directory with a single image: the ratios of the command line pass
    the sum test, and the first [train_test_split] refuses to leave the
    train side empty; no key is assigned. *)
Lemma C6_single_key_is_not_assigned :
  @image_keys AsciiRuntime.runtime ["a.jpg"] = ["a"] /\
  SFltb tolerance
    (SFabs (PyFloat.sub
              (PyFloat.add (PyFloat.add Examples.ratio_070 Examples.ratio_015)
                           Examples.ratio_015) PyFloat.one)) = false /\
  @split_yolo_dataset AsciiRuntime.runtime ReversedIndices.runtime ["a.jpg"]
    Examples.four_image_files Examples.three_label_files
    Examples.empty_split Examples.empty_split Examples.empty_split
    Examples.generator_1 Examples.ratio_070 Examples.ratio_015 Examples.ratio_015
    = inl ValueError.
Proof. repeat split; vm_compute; reflexivity. Qed.

Lemma C10_copied_image_is_named_jpg_witness :
  exists out : outcome,
    @Examples.split_four ReversedIndices.runtime Examples.generator_1 = inr out /\
    images (train out) !! ("b" +:+ ".jpg") = Some "PNG b".
Proof.
  destruct (@Examples.split_four ReversedIndices.runtime Examples.generator_1)
    as [e | out] eqn:Hrun; [vm_compute in Hrun; discriminate Hrun |].
  exists out. split; [reflexivity |].
  assert (Hin : In "b" (train_files out)).
  { pose proof Hrun as Hc. vm_compute in Hc. injection Hc as <-. cbn. auto. }
  refine (proj1 (proj2
    (C10_copied_image_is_named_jpg AsciiRuntime.runtime ReversedIndices.runtime
       Examples.four_images Examples.four_image_files Examples.three_label_files
       Examples.empty_split Examples.empty_split Examples.empty_split
       Examples.generator_1 Examples.ratio_070 Examples.ratio_015 Examples.ratio_015
       out "b" (train_files out) Examples.empty_split (train out) Hrun
       (or_introl (conj eq_refl (conj eq_refl eq_refl))) Hin _)) "PNG b" _ _ _).
  - exists ".png". split; [cbn; auto |]. vm_compute. eauto.
  - vm_compute. reflexivity.
  - vm_compute. reflexivity.
  - vm_compute. reflexivity.
Defined.

End SplitRuns.

(** ** The audit of label files *)

Section LineAudit.
Context `{PyRuntime}.
Import Spec CheckDataset.

Lemma in_unit_spec (v : spec_float) : in_unit v = true <-> value_in_unit v.
Proof.
  unfold in_unit, PyFloat.ge_int, PyFloat.le_int, PyFloat.compare_int, value_in_unit.
  destruct v as [s | [] | | [] m e]; try (split; [discriminate | tauto]).
  - split; [tauto | reflexivity].
  - destruct (0 <=? e) eqn:He.
    + apply Z.leb_le in He. assert (0 < 2 ^ e) by (apply Z.pow_pos_nonneg; lia).
      destruct (Z.compare_spec (Zneg m * 2 ^ e) 0) as [Hc | Hc | Hc];
        solve [nia | split; [discriminate | tauto]].
    + rewrite Z.mul_0_l.
      destruct (Z.compare_spec (Zneg m) 0) as [Hc | Hc | Hc];
        solve [lia | split; [discriminate | tauto]].
  - destruct (0 <=? e) eqn:He.
    + apply Z.leb_le in He. assert (0 < 2 ^ e) by (apply Z.pow_pos_nonneg; lia).
      rewrite (Z.max_l e 0), (Z.max_r (- e) 0) by lia. rewrite Z.pow_0_r.
      destruct (Z.compare_spec (Zpos m * 2 ^ e) 0) as [Hc | Hc | Hc];
        [exfalso; nia | exfalso; nia |].
      destruct (Z.compare_spec (Zpos m * 2 ^ e) 1) as [Hd | Hd | Hd];
        (split; [intros Hb; first [lia | discriminate Hb] | intros Hb; first [reflexivity | lia]]).
    + apply Z.leb_gt in He.
      rewrite (Z.max_r e 0), (Z.max_l (- e) 0) by lia. rewrite Z.pow_0_r, Z.mul_1_r.
      rewrite Z.mul_0_l, Z.mul_1_l.
      destruct (Z.compare_spec (Zpos m) 0) as [Hc | Hc | Hc];
        [exfalso; lia | exfalso; lia |].
      destruct (Z.compare_spec (Zpos m) (2 ^ (- e))) as [Hd | Hd | Hd];
        (split; [intros Hb; first [lia | discriminate Hb] | intros Hb; first [reflexivity | lia]]).
Qed.

Lemma known_class_spec (cls_id : Z) : known_class cls_id = true <-> 0 <= cls_id <= 3.
Proof.
  unfold known_class, CLASS_MAPPING. cbn [existsb fst].
  rewrite !orb_true_iff, !Z.eqb_eq. lia.
Qed.

Lemma check_line_spec (line : string) (cls_id : Z) (width height : spec_float) :
  check_line line = Counted cls_id width height <->
  well_formed_line line cls_id width height.
Proof.
  unfold check_line, well_formed_line. split.
  - destruct (str_split line) as [| t0 [| t1 [| t2 [| t3 [| t4 [| t5 rest]]]]]];
      try discriminate.
    destruct (py_int t0) as [c |] eqn:H0; [| discriminate].
    destruct (py_float t1) as [x |] eqn:H1; [| discriminate].
    destruct (py_float t2) as [y |] eqn:H2; [| discriminate].
    destruct (py_float t3) as [w |] eqn:H3; [| discriminate].
    destruct (py_float t4) as [h |] eqn:H4; [| discriminate].
    destruct (known_class c) eqn:Hc; cbn [negb]; [| discriminate].
    destruct (in_unit x && in_unit y && in_unit w && in_unit h) eqn:Hu;
      cbn [negb]; [| discriminate].
    intros [= <- <- <-].
    apply andb_prop in Hu as [Hu Hh]. apply andb_prop in Hu as [Hu Hw].
    apply andb_prop in Hu as [Hx Hy].
    exists t0, t1, t2, t3, t4, x, y.
    repeat split; try reflexivity; try assumption;
      try (now apply known_class_spec); now apply in_unit_spec.
  - intros (t0 & t1 & t2 & t3 & t4 & x & y & Hs & H0 & Hc & H1 & H2 & H3 & H4 &
            Hx & Hy & Hw & Hh).
    rewrite Hs, H0, H1, H2, H3, H4.
    apply known_class_spec in Hc. rewrite Hc. cbn [negb].
    apply in_unit_spec in Hx, Hy, Hw, Hh. rewrite Hx, Hy, Hw, Hh. reflexivity.
Qed.

Lemma not_counted_malformed (line : string) :
  (forall c w h, check_line line <> Counted c w h) <-> malformed_line line.
Proof.
  unfold malformed_line. split; intros Hn c w h Hc; apply (Hn c w h);
    now apply check_line_spec.
Qed.

(** *** The loop over the lines of one file *)

Lemma check_lines_errors (label_file : string) (lines : list string) :
  forall (n : nat) (t : tally) (x : string),
    In x (error_files (check_lines label_file n lines t)) <->
    In x (error_files t) \/
    (x = label_file /\ exists line, In line lines /\ malformed_line line).
Proof.
  induction lines as [| line rest IH]; intros n t x; cbn [check_lines].
  - split; [auto | intros [Hx | (_ & l & [] & _)]; exact Hx].
  - rewrite IH. destruct (check_line line) as [c w h | | c | |] eqn:Hl.
    1: { cbn [error_files count]. split.
         - intros [Hx | (-> & l & Hin & Hbad)]; [auto |].
           right. split; [reflexivity |]. exists l. split; [now right | assumption].
         - intros [Hx | (-> & l & [<- | Hin] & Hbad)]; [auto | |].
           + exfalso. apply (Hbad c w h). now apply check_line_spec.
           + right. split; [reflexivity |]. exists l. split; assumption. }
    all: cbn [error_files flag]; rewrite in_app_iff; cbn [In];
      assert (Hbad : malformed_line line)
        by (apply not_counted_malformed; intros c' w' h'; rewrite Hl; discriminate);
      split;
      [ intros [[Hx | [<- | []]] | (-> & l & Hin & Hb)];
        [ auto
        | right; split; [reflexivity |]; exists line; split; [now left | assumption]
        | right; split; [reflexivity |]; exists l; split; [now right | assumption] ]
      | intros [Hx | (-> & l & [<- | Hin] & Hb)];
        [ auto
        | left; right; now left
        | right; split; [reflexivity |]; exists l; split; assumption ] ].
Qed.

Lemma count_of_insert (cd : gmap Z nat) (c c' : Z) (v : nat) :
  count_of (<[c := v]> cd) c' = if bool_decide (c = c') then v else count_of cd c'.
Proof.
  unfold count_of. rewrite lookup_insert. destruct (decide (c = c')) as [-> | Hne].
  - now rewrite bool_decide_eq_true_2.
  - now rewrite bool_decide_eq_false_2.
Qed.

Lemma check_lines_counts (label_file : string) (lines : list string) (cls_id : Z) :
  forall (n : nat) (t : tally),
    count_of (class_distribution (check_lines label_file n lines t)) cls_id =
      (count_of (class_distribution t) cls_id + length (lines_of_class cls_id lines))%nat.
Proof.
  induction lines as [| line rest IH]; intros n t; cbn [check_lines lines_of_class List.filter].
  - cbn. lia.
  - fold (lines_of_class cls_id rest). rewrite IH.
    destruct (check_line line) as [c w h | | c | |] eqn:Hl;
      try (cbn [class_distribution flag length]; lia).
    cbn [class_distribution count]. rewrite count_of_insert.
    destruct (Z.eqb_spec c cls_id) as [-> | Hne].
    + rewrite bool_decide_eq_true_2 by reflexivity. cbn [length]. lia.
    + rewrite bool_decide_eq_false_2 by assumption. lia.
Qed.

End LineAudit.

Section FileAudit.
Context `{PyRuntime}.
Import Spec CheckDataset.

Variable labels_dir : gmap string (option (list string)).

Lemma check_file_readable (t : tally) (label_file : string) :
  check_file labels_dir t label_file =
    match readable labels_dir label_file with
    | Some lines => check_lines label_file 1 lines t
    | None => flag label_file (ErrorReading label_file) t
    end.
Proof.
  unfold check_file, readable.
  destruct (labels_dir !! (label_file +:+ ".txt")) as [[lines |] |]; reflexivity.
Qed.

Lemma check_file_errors (t : tally) (label_file x : string) :
  In x (error_files (check_file labels_dir t label_file)) <->
  In x (error_files t) \/ (x = label_file /\ faulty labels_dir label_file).
Proof.
  rewrite check_file_readable. unfold faulty.
  destruct (readable labels_dir label_file) as [lines |].
  - apply check_lines_errors.
  - cbn [error_files flag]. rewrite in_app_iff. cbn [In]. intuition congruence.
Qed.

Lemma check_file_counts (t : tally) (label_file : string) (cls_id : Z) :
  count_of (class_distribution (check_file labels_dir t label_file)) cls_id =
    (count_of (class_distribution t) cls_id +
     objects_of_class labels_dir cls_id [label_file])%nat.
Proof.
  rewrite check_file_readable. unfold objects_of_class. cbn [map foldr].
  destruct (readable labels_dir label_file) as [lines |].
  - rewrite check_lines_counts. lia.
  - cbn [class_distribution flag]. lia.
Qed.

Lemma fold_check_file_errors (keys : list string) :
  forall (t : tally) (x : string),
    In x (error_files (fold_left (check_file labels_dir) keys t)) <->
    In x (error_files t) \/ (In x keys /\ faulty labels_dir x).
Proof.
  induction keys as [| k rest IH]; intros t x; cbn [fold_left In].
  - tauto.
  - rewrite IH, check_file_errors. intuition (subst; auto).
Qed.

Lemma fold_check_file_counts (keys : list string) (cls_id : Z) :
  forall t : tally,
    count_of (class_distribution (fold_left (check_file labels_dir) keys t)) cls_id =
      (count_of (class_distribution t) cls_id +
       objects_of_class labels_dir cls_id keys)%nat.
Proof.
  induction keys as [| k rest IH]; intros t; cbn [fold_left].
  - unfold objects_of_class. cbn. lia.
  - rewrite IH, check_file_counts. unfold objects_of_class. cbn [map foldr]. lia.
Qed.

Lemma audit_errors (common_files : gset string) (x : string) :
  In x (error_files (audit labels_dir common_files)) <->
  x ∈ common_files /\ faulty labels_dir x.
Proof.
  unfold audit. rewrite fold_check_file_errors. cbn [error_files empty_tally In].
  rewrite <- list_elem_of_In, elem_of_elements. tauto.
Qed.

Lemma audit_counts (common_files : gset string) (cls_id : Z) :
  count_of (class_distribution (audit labels_dir common_files)) cls_id =
    objects_of_class labels_dir cls_id (elements common_files).
Proof.
  unfold audit. rewrite fold_check_file_counts. reflexivity.
Qed.

Lemma audit_clean (common_files : gset string) :
  error_files (audit labels_dir common_files) = [] <->
  forall k, k ∈ common_files -> ~ faulty labels_dir k.
Proof.
  split.
  - intros Hnil k Hk Hf.
    assert (Hin : In k (error_files (audit labels_dir common_files)))
      by (apply audit_errors; auto).
    rewrite Hnil in Hin. exact Hin.
  - intros Hall. destruct (error_files (audit labels_dir common_files)) as [| x l] eqn:He;
      [reflexivity |].
    assert (Hin : In x (error_files (audit labels_dir common_files)))
      by (rewrite He; now left).
    apply audit_errors in Hin as [Hk Hf]. exfalso. exact (Hall x Hk Hf).
Qed.

(** C5. A line is counted exactly when it has five tokens, a first token
    that is a class id of the table (0 to 3) and four floats in [0, 1];
    an audited file is listed among the error files exactly when one of
    its lines is not of that form; and the well-formed lines of every
    audited file, error file or not, are counted in the class
    distribution. *)
Theorem C5_line_validation (common_files : gset string) :
  (forall (line : string) (cls_id : Z) (width height : spec_float),
      check_line line = Counted cls_id width height <->
      well_formed_line line cls_id width height) /\
  (forall (label_file : string) (lines : list string),
      label_file ∈ common_files ->
      readable labels_dir label_file = Some lines ->
      (In label_file (error_files (audit labels_dir common_files)) <->
       exists line, In line lines /\ malformed_line line)) /\
  (forall cls_id : Z,
      count_of (class_distribution (audit labels_dir common_files)) cls_id =
        objects_of_class labels_dir cls_id (elements common_files)).
Proof.
  split; [apply check_line_spec |]. split.
  - intros label_file lines Hin Hr. rewrite audit_errors. unfold faulty. rewrite Hr.
    tauto.
  - apply audit_counts.
Qed.

End FileAudit.


Section Verdict.
Context `{PyRuntime}.
Import Spec CheckDataset.







(** Without one of the two directories the checker fails at once. *)
Lemma check_without_directory (images_dir : option (gset string))
    (labels_dir : option (gmap string (option (list string)))) :
  images_dir = None \/ labels_dir = None ->
  fst (check_yolo_dataset images_dir labels_dir) = false.
Proof. intros [-> | ->]; [reflexivity |]. destruct images_dir; reflexivity. Qed.

End Verdict.

Section DanglingLabel.
Context `{PyRuntime}.
Import Spec CheckDataset.




End DanglingLabel.

Section CheckerRuns.
Import CheckDataset.

Lemma C5_line_validation_witness :
  In "a" (CheckDataset.error_files
            (@CheckDataset.audit AsciiRuntime.runtime Examples.audited_labels
               (list_to_set ["a"; "b"]))) /\
  CheckDataset.count_of
    (CheckDataset.class_distribution
       (@CheckDataset.audit AsciiRuntime.runtime Examples.audited_labels
          (list_to_set ["a"; "b"]))) 1 = 1%nat.
Proof.
  pose proof (@C5_line_validation AsciiRuntime.runtime Examples.audited_labels
                (list_to_set ["a"; "b"])) as (Hline & Hfile & Hcount).
  split.
  - apply (Hfile "a" ["1 0.3 0.3 0.4 0.4"; "0 0.5 0.5 0.1"]).
    + refine (bool_decide_unpack _ _); vm_compute; exact I.
    + vm_compute. reflexivity.
    + exists "0 0.5 0.5 0.1". split; [right; now left |].
      intros c w h Hwf. apply Hline in Hwf. vm_compute in Hwf. discriminate Hwf.
  - rewrite Hcount. vm_compute. reflexivity.
Defined.




(** The checker on the two sample datasets. *)
Example check_clean_dataset :
  fst (@check_yolo_dataset AsciiRuntime.runtime (Some Examples.clean_images)
         (Some Examples.clean_labels)) = true.
Proof. vm_compute. reflexivity. Qed.

Example check_faulty_dataset :
  @check_yolo_dataset AsciiRuntime.runtime (Some Examples.audited_images)
    (Some Examples.audited_labels)
  = (false,
     [ PrintHeader; PrintCounts 3 3;
       WarnMissingImages 1 ["z"]; WarnMissingLabels 1 ["c"];
       PrintValidPairs 2; PrintAuditHeader;
       ErrorLine "a" 2 BadFormat; ErrorLine "b" 1 (BadClass 7);
       PrintClassHeader; PrintClass 1 1 2; PrintClass 3 1 2;
       PrintBoxesHeader;
       PrintBoxes 1 [(S754_finite false 7205759403792794 (-54),
                      S754_finite false 7205759403792794 (-54))];
       PrintBoxes 3 [(PyFloat.one, PyFloat.one)];
       PrintSummaryHeader; PrintFailed 1 1 2 ]).
Proof. vm_compute. reflexivity. Qed.

End CheckerRuns.

(** ** Inverted boxes *)

Section UpdateFirst.
Import Xml FixLabels.

Lemma find_cons (name : string) (t : string) (x : option string) (c : Element)
    (cs : list Element) :
  find name (Elem t x (c :: cs)) =
    if String.eqb (tag c) name then Some c else find name (Elem t x cs).
Proof. reflexivity. Qed.

Lemma find_tag (name : string) (e c : Element) : find name e = Some c -> tag c = name.
Proof.
  unfold find. intros Hf. apply find_some in Hf as [_ Ht]. now apply String.eqb_eq.
Qed.

(** The element found under a tag after the first one was updated. *)
Lemma find_update_first (name : string) (f : Element -> Element) (t : string)
    (x : option string) (cs : list Element) :
  (forall c, tag c = name -> tag (f c) = name) ->
  find name (Elem t x (update_first name f cs)) = f <$> find name (Elem t x cs).
Proof.
  intros Hf. induction cs as [| c cs IH]; [reflexivity |].
  cbn [update_first]. rewrite (find_cons name t x c cs).
  destruct (String.eqb (tag c) name) eqn:Hc.
  - rewrite find_cons. apply String.eqb_eq in Hc.
    rewrite (Hf c Hc), String.eqb_refl. reflexivity.
  - rewrite find_cons, Hc. exact IH.
Qed.

(** Elements under another tag are found as before. *)
Lemma find_update_first_other (name other : string) (f : Element -> Element)
    (t : string) (x : option string) (cs : list Element) :
  name <> other ->
  (forall c, tag c = name -> tag (f c) = name) ->
  find other (Elem t x (update_first name f cs)) = find other (Elem t x cs).
Proof.
  intros Hne Hf. induction cs as [| c cs IH]; [reflexivity |].
  cbn [update_first]. rewrite (find_cons other t x c cs).
  destruct (String.eqb (tag c) name) eqn:Hc.
  - rewrite find_cons. apply String.eqb_eq in Hc. rewrite (Hf c Hc).
    rewrite Hc. destruct (String.eqb_spec name other) as [Heq | _]; [contradiction |].
    reflexivity.
  - rewrite find_cons. destruct (String.eqb (tag c) other); [reflexivity | exact IH].
Qed.

Lemma set_text_tag (x : option string) (e : Element) : tag (set_text x e) = tag e.
Proof. reflexivity. Qed.

End UpdateFirst.

Section InvertedBoxes.
Import Xml Spec.

Lemma field_value_inv `{PyRuntime} (bbox : Element) (field : string) (v : spec_float) :
  field_value bbox field = Some v ->
  exists e, find field bbox = Some e /\ float_of_text (text e) = inr v.
Proof.
  unfold field_value, float_of_text.
  destruct (find field bbox) as [e |]; [| discriminate].
  destruct (text e) as [t |] eqn:Ht; [| discriminate].
  intros Hv. exists e. rewrite Ht, Hv. auto.
Qed.

Lemma inverted_is_invalid (w h : Z) (xmin ymin xmax ymax : spec_float) :
  PyFloat.geb xmin xmax = true \/ PyFloat.geb ymin ymax = true ->
  FixBBox.bbox_is_invalid w h xmin ymin xmax ymax = true.
Proof.
  unfold FixBBox.bbox_is_invalid. intros [-> | Hy]; [reflexivity |].
  rewrite Hy. now destruct (PyFloat.geb xmin xmax).
Qed.

Lemma inspect_inverted `{PyRuntime} (w h : Z) (obj : Element)
    (xmin ymin xmax ymax : spec_float) :
  box_of obj xmin ymin xmax ymax ->
  PyFloat.geb xmin xmax = true \/ PyFloat.geb ymin ymax = true ->
  FixBBox.inspect_object w h obj = inr true.
Proof.
  intros (bbox & Hb & Hx1 & Hy1 & Hx2 & Hy2) Hinv.
  apply field_value_inv in Hx1 as (e1 & Hf1 & Ht1).
  apply field_value_inv in Hy1 as (e2 & Hf2 & Ht2).
  apply field_value_inv in Hx2 as (e3 & Hf3 & Ht3).
  apply field_value_inv in Hy2 as (e4 & Hf4 & Ht4).
  unfold FixBBox.inspect_object. rewrite Hb, Hf1, Hf2, Hf3, Hf4, Ht1, Ht2, Ht3, Ht4.
  cbn [bind ret]. now rewrite inverted_is_invalid.
Qed.

Lemma swap_x_not_inverted `{PyRuntime} (obj bbox e_xmin e_xmax : Element)
    (a b : spec_float) :
  find "bndbox" obj = Some bbox ->
  find "xmin" bbox = Some e_xmin -> find "xmax" bbox = Some e_xmax ->
  float_of_text (text e_xmin) = inr a -> float_of_text (text e_xmax) = inr b ->
  PyFloat.geb a b = false ->
  FixLabels.swap_x obj = inr obj.
Proof.
  intros Hb H1 H2 Ha Hb' Hge. unfold FixLabels.swap_x.
  rewrite Hb, H1, H2, Ha, Hb'. cbn [bind ret]. now rewrite Hge.
Qed.

Lemma swap_x_inverted `{PyRuntime} (obj bbox e_xmin e_xmax : Element)
    (a b : spec_float) :
  find "bndbox" obj = Some bbox ->
  find "xmin" bbox = Some e_xmin -> find "xmax" bbox = Some e_xmax ->
  float_of_text (text e_xmin) = inr a -> float_of_text (text e_xmax) = inr b ->
  PyFloat.geb a b = true ->
  is_Some (find "ymin" bbox) -> is_Some (find "ymax" bbox) ->
  exists obj' bbox',
    FixLabels.swap_x obj = inr obj' /\ find "bndbox" obj' = Some bbox' /\
    find "xmin" bbox' = Some (FixLabels.set_text (text e_xmax) e_xmin) /\
    find "xmax" bbox' = Some (FixLabels.set_text (text e_xmin) e_xmax) /\
    find "ymin" bbox' = find "ymin" bbox /\ find "ymax" bbox' = find "ymax" bbox.
Proof.
  intros Hb H1 H2 Ha Hb' Hge [e3 H3] [e4 H4]. unfold FixLabels.swap_x.
  rewrite Hb, H1, H2, Ha, Hb'. cbn [bind ret]. rewrite Hge, H3, H4. cbn [deref bind ret].
  set (bbox' := Elem (tag bbox) (text bbox) _).
  exists (Elem (tag obj) (text obj)
            (FixLabels.update_first "bndbox" (fun _ => bbox') (children obj))), bbox'.
  assert (Hkeep : forall x c, tag c = x -> tag (FixLabels.set_text (text e_xmax) c) = x)
    by (intros x c <-; reflexivity).
  assert (Hkeep' : forall x c, tag c = x -> tag (FixLabels.set_text (text e_xmin) c) = x)
    by (intros x c <-; reflexivity).
  assert (Hbb : bbox = Elem (tag bbox) (text bbox) (children bbox))
    by (destruct bbox; reflexivity).
  assert (Hobj : obj = Elem (tag obj) (text obj) (children obj))
    by (destruct obj; reflexivity).
  split; [reflexivity |]. split.
  { rewrite find_update_first.
    - rewrite <- Hobj, Hb. reflexivity.
    - intros c _. unfold bbox'. cbn [tag]. apply (find_tag _ _ _ Hb). }
  unfold bbox'. repeat split.
  - rewrite find_update_first_other by (first [discriminate | apply Hkeep']).
    rewrite find_update_first by apply Hkeep. now rewrite <- Hbb, H1.
  - rewrite find_update_first by apply Hkeep'.
    rewrite find_update_first_other by (first [discriminate | apply Hkeep]).
    now rewrite <- Hbb, H2.
  - rewrite !find_update_first_other
      by (first [discriminate | apply Hkeep | apply Hkeep']).
    now rewrite <- Hbb.
  - rewrite !find_update_first_other
      by (first [discriminate | apply Hkeep | apply Hkeep']).
    now rewrite <- Hbb.
Qed.

End InvertedBoxes.

Section BoxValidator.
Import Xml Spec.

(** C7, as the code has it. [fix_invalid_bbox_advanced] puts every object
    whose box has [xmin >= xmax] or [ymin >= ymax] on the list of objects
    to remove: such a box is invalid whatever the image size and the
    other coordinates, and nothing is exchanged.  The exchange belongs to
    [fix_invalid_bbox] of the label-fixing script: when [xmin >= xmax]
    the texts of [xmin] and [xmax] are exchanged, [ymin] and [ymax] are
    left as they are even when inverted, and a box with [xmin < xmax] is
    left untouched; the result is not validated again. *)
Theorem C7_inverted_box_dropped_or_x_swapped :
  (forall (R : PyRuntime) (img_width img_height : Z) (obj : Element)
          (xmin ymin xmax ymax : spec_float),
      box_of obj xmin ymin xmax ymax ->
      PyFloat.geb xmin xmax = true \/ PyFloat.geb ymin ymax = true ->
      FixBBox.bbox_is_invalid img_width img_height xmin ymin xmax ymax = true /\
      FixBBox.inspect_object img_width img_height obj = inr true) /\
  (forall (R : PyRuntime) (obj bbox e_xmin e_xmax : Element) (a b : spec_float),
      find "bndbox" obj = Some bbox ->
      find "xmin" bbox = Some e_xmin -> find "xmax" bbox = Some e_xmax ->
      float_of_text (text e_xmin) = inr a -> float_of_text (text e_xmax) = inr b ->
      (PyFloat.geb a b = false -> FixLabels.swap_x obj = inr obj) /\
      (PyFloat.geb a b = true ->
       is_Some (find "ymin" bbox) -> is_Some (find "ymax" bbox) ->
       exists obj' bbox',
         FixLabels.swap_x obj = inr obj' /\ find "bndbox" obj' = Some bbox' /\
         find "xmin" bbox' = Some (FixLabels.set_text (text e_xmax) e_xmin) /\
         find "xmax" bbox' = Some (FixLabels.set_text (text e_xmin) e_xmax) /\
         find "ymin" bbox' = find "ymin" bbox /\ find "ymax" bbox' = find "ymax" bbox)).
Proof.
  split.
  - intros R w h obj xmin ymin xmax ymax Hbox Hinv. split.
    + now apply inverted_is_invalid.
    + eapply inspect_inverted; eassumption.
  - intros R obj bbox e_xmin e_xmax a b Hb H1 H2 Ha Hb'. split.
    + intros Hge. eapply swap_x_not_inverted; eassumption.
    + intros Hge Hy1 Hy2. eapply swap_x_inverted; eassumption.
Qed.

Lemma C7_inverted_box_dropped_or_x_swapped_witness :
  @FixBBox.inspect_object AsciiRuntime.runtime 100 100 Examples.inverted_x = inr true.
Proof.
  refine (proj2 (proj1 C7_inverted_box_dropped_or_x_swapped AsciiRuntime.runtime 100 100
                   Examples.inverted_x (PyFloat.of_Z 50) (PyFloat.of_Z 10)
                   (PyFloat.of_Z 10) (PyFloat.of_Z 50) _ _)).
  - eexists. split; [reflexivity |]. repeat split; vm_compute; reflexivity.
  - left. vm_compute. reflexivity.
Defined.

(** The box (50, 10, 10, 50) on a 100x100 image has its abscissas
    inverted.  Exchanged, it would be the box (10, 10, 50, 50), inside the
    image and of area 1600: a validator that repairs before it validates
    again keeps it.  [fix_invalid_bbox_advanced] removes the object; and
    [fix_invalid_bbox] leaves a box with inverted ordinates as it is. *)
Lemma C7_inverted_box_is_dropped_not_repaired :
  PyFloat.geb (PyFloat.of_Z 50) (PyFloat.of_Z 10) = true /\
  dropped_after_repair 100 100 (PyFloat.of_Z 50) (PyFloat.of_Z 10)
                       (PyFloat.of_Z 10) (PyFloat.of_Z 50) = false /\
  FixBBox.bbox_is_invalid 100 100 (PyFloat.of_Z 50) (PyFloat.of_Z 10)
                          (PyFloat.of_Z 10) (PyFloat.of_Z 50) = true /\
  @FixBBox.fix_invalid_bbox_advanced AsciiRuntime.runtime
    (Some (Examples.annotation_of "a.jpg" "100" "100" [Examples.inverted_x]))
    = (true, Some (Examples.annotation_of "a.jpg" "100" "100" [])) /\
  @FixLabels.fix_invalid_bbox AsciiRuntime.runtime
    (Some (Examples.annotation_of "a.jpg" "100" "100" [Examples.inverted_y]))
    = Some (Examples.annotation_of "a.jpg" "100" "100" [Examples.inverted_y]).
Proof. repeat split; vm_compute; reflexivity. Qed.

End BoxValidator.

(** * Further properties *)

(** ** The annotation writer: accounting, frame and failures *)

Section WriterAccounting.
Context `{PyRuntime}.
Import Xml Spec Convert Terms.

Variable voc_annotations : gmap string (option Element).
Variable voc_images : gmap string string.

Lemma convert_object_skipped (file_base : string) (w h : Z) (obj : Element) (ev : event) :
  convert_object file_base w h obj = inr (Skipped ev) -> terminal ev = false.
Proof.
  unfold convert_object.
  destruct (find "name" obj) as [n |]; cbn [deref bind ret raise]; [| discriminate].
  destruct (lookup_class CLASS_MAPPING (text n)) as [c |].
  - destruct (find "bndbox" obj) as [bbox |].
    + destruct (coordinate bbox "xmin"); cbn [bind]; [discriminate |].
      destruct (coordinate bbox "ymin"); cbn [bind]; [discriminate |].
      destruct (coordinate bbox "xmax"); cbn [bind]; [discriminate |].
      destruct (coordinate bbox "ymax"); cbn [bind]; [discriminate |].
      destruct (yolo_line _ _ _ _ _ _ _); cbn [bind ret]; discriminate.
    + intros Heq. injection Heq as <-. reflexivity.
  - intros Heq. injection Heq as <-. reflexivity.
Qed.

Lemma write_objects_not_terminal (file_base : string) (w h : Z) (objs : list Element) :
  List.filter terminal (snd (fst (write_objects file_base w h objs))) = [].
Proof.
  induction objs as [| obj rest IH]; [reflexivity |].
  cbn [write_objects].
  destruct (convert_object file_base w h obj) as [e | [line | ev]] eqn:Hobj;
    [reflexivity | |];
    destruct (write_objects file_base w h rest) as [[lines evs] r]; cbn [fst snd] in *.
  - exact IH.
  - cbn [List.filter]. now rewrite (convert_object_skipped _ _ _ _ _ Hobj).
Qed.

Lemma filter_terminal_app (l1 l2 : list event) :
  List.filter terminal (l1 ++ l2) = List.filter terminal l1 ++ List.filter terminal l2.
Proof. apply List.filter_app. Qed.

(** One key: the image is copied and counted, or exactly one closing
    message is printed. *)
Lemma process_file_accounts (st : state) (file_base : string) :
  exists evs : list event,
    log (process_file voc_annotations voc_images st file_base) = log st ++ evs /\
    ((processed_count (process_file voc_annotations voc_images st file_base)
        = processed_count st + 1 /\ List.filter terminal evs = []) \/
     (processed_count (process_file voc_annotations voc_images st file_base)
        = processed_count st /\ length (List.filter terminal evs) = 1%nat)).
Proof.
  unfold process_file.
  destruct (voc_annotations !! (file_base +:+ ".xml")) as [content |];
    [| eexists; split; [reflexivity | right; split; reflexivity]].
  destruct (root <-- et_parse content ;; hd <-- read_header root ;; ret (root, hd))
    as [e | [root [w h image_name | |]]];
    try (eexists; split; [reflexivity | right; split; reflexivity]).
  pose proof (write_objects_not_terminal file_base w h (iter "object" root)) as Hev.
  destruct (write_objects file_base w h (iter "object" root)) as [[lines evs] r].
  cbn [fst snd] in Hev.
  destruct r as [e |]; [| destruct (voc_images !! image_name) as [content' |]].
  - exists (evs ++ [ErrorProcessing file_base e]).
    cbn [log say say_all write_label processed_count]. rewrite <- app_assoc.
    split; [reflexivity |]. right. split; [reflexivity |].
    rewrite filter_terminal_app, Hev. reflexivity.
  - exists evs. cbn [log copy_image say_all write_label processed_count].
    split; [reflexivity |]. left. split; [reflexivity | exact Hev].
  - exists (evs ++ [WarnImageMissing image_name]).
    cbn [log say say_all write_label processed_count]. rewrite <- app_assoc.
    split; [reflexivity |]. right. split; [reflexivity |].
    rewrite filter_terminal_app, Hev. reflexivity.
Qed.

Lemma process_split_accounts (file_list : list string) :
  forall st : state,
    exists evs : list event,
      log (process_split voc_annotations voc_images st file_list) = log st ++ evs /\
      0 <= processed_count (process_split voc_annotations voc_images st file_list)
           - processed_count st /\
      processed_count (process_split voc_annotations voc_images st file_list)
        - processed_count st + Z.of_nat (length (List.filter terminal evs))
        = Z.of_nat (length file_list).
Proof.
  induction file_list as [| k rest IH]; intros st.
  - exists []. cbn [process_split fold_left length List.filter].
    rewrite app_nil_r. repeat split; lia.
  - cbn [process_split fold_left].
    destruct (process_file_accounts st k) as (evs1 & Hlog1 & Hcount1).
    destruct (IH (process_file voc_annotations voc_images st k))
      as (evs2 & Hlog2 & Hpos2 & Hsum2).
    unfold process_split in Hlog2, Hpos2, Hsum2.
    exists (evs1 ++ evs2). rewrite Hlog2, Hlog1, <- app_assoc.
    split; [reflexivity |].
    rewrite filter_terminal_app, length_app. cbn [length].
    destruct Hcount1 as [[Hc Hf] | [Hc Hf]]; rewrite Hf; cbn [length]; split; lia.
Qed.

(** X1. Every sample key of the list is accounted for exactly once: after
    [process_split], the counter has grown by the number of keys whose
    image was copied, and for each of the other keys exactly one closing
    message (annotation missing, no size, no file name, image missing,
    or error) was printed. *)
Theorem X1_every_key_is_counted_or_reported (st : state) (file_list : list string) :
  exists evs : list event,
    log (process_split voc_annotations voc_images st file_list) = log st ++ evs /\
    0 <= processed_count (process_split voc_annotations voc_images st file_list)
         - processed_count st <= Z.of_nat (length file_list) /\
    processed_count (process_split voc_annotations voc_images st file_list)
      - processed_count st + Z.of_nat (length (List.filter terminal evs))
      = Z.of_nat (length file_list).
Proof.
  destruct (process_split_accounts file_list st) as (evs & Hlog & Hpos & Hsum).
  exists evs. repeat split; try assumption; lia.
Qed.

End WriterAccounting.

Section WriterFrame.
Context `{PyRuntime}.
Import Xml Spec Convert Terms.

Variable voc_annotations : gmap string (option Element).
Variable voc_images : gmap string string.

Lemma process_file_keeps_entries (st : state) (file_base : string) :
  (forall path, is_Some (labels st !! path) ->
                is_Some (labels (process_file voc_annotations voc_images st file_base)
                           !! path)) /\
  (forall name, is_Some (images st !! name) ->
                is_Some (images (process_file voc_annotations voc_images st file_base)
                           !! name)).
Proof.
  unfold process_file.
  destruct (voc_annotations !! (file_base +:+ ".xml")) as [content |]; [| now split].
  destruct (root <-- et_parse content ;; hd <-- read_header root ;; ret (root, hd))
    as [e | [root [w h image_name | |]]]; try now split.
  destruct (write_objects file_base w h (iter "object" root)) as [[lines evs] r].
  assert (Hl : forall path, is_Some (labels st !! path) ->
                 is_Some (<[file_base +:+ ".txt" := lines]> (labels st) !! path)).
  { intros path Hs. destruct (decide (path = file_base +:+ ".txt")) as [-> | Hne].
    - rewrite lookup_insert_eq. eauto.
    - now rewrite lookup_insert_ne. }
  destruct r as [e |]; [now split |].
  destruct (voc_images !! image_name) as [content' |]; [| now split].
  split; [exact Hl |].
  intros name Hs. cbn [images copy_image say_all write_label].
  destruct (decide (name = basename image_name)) as [-> | Hne].
  - rewrite lookup_insert_eq. eauto.
  - now rewrite lookup_insert_ne.
Qed.

(** X2. The writer only adds to its output directories: a label file is
    created or replaced only under the name of a listed key followed by
    [.txt], every other label file is left as it was found, and no label
    or image that was there before the run is ever removed. *)
Theorem X2_writer_only_touches_listed_labels (file_list : list string) :
  forall st : state,
    (forall path,
        (forall k, In k file_list -> path <> k +:+ ".txt") ->
        labels (process_split voc_annotations voc_images st file_list) !! path
          = labels st !! path) /\
    (forall path,
        is_Some (labels st !! path) ->
        is_Some (labels (process_split voc_annotations voc_images st file_list) !! path)) /\
    (forall name,
        is_Some (images st !! name) ->
        is_Some (images (process_split voc_annotations voc_images st file_list) !! name)).
Proof.
  induction file_list as [| k rest IH]; intros st.
  - cbn [process_split fold_left]. repeat split; auto.
  - cbn [process_split fold_left].
    destruct (IH (process_file voc_annotations voc_images st k)) as (IH1 & IH2 & IH3).
    destruct (process_file_keeps_entries st k) as [Hk1 Hk2].
    unfold process_split in IH1, IH2, IH3. repeat split.
    + intros path Hne. rewrite IH1 by (intros k' Hin; apply Hne; now right).
      apply process_file_other_label. apply Hne. now left.
    + intros path Hs. apply IH2, Hk1, Hs.
    + intros name Hs. apply IH3, Hk2, Hs.
Qed.

(** X3. When the conversion of an object raises (a missing [name]
    element, a coordinate that is not a number, ...), the label file is
    left holding only the lines of the objects that came before it, the
    objects after it are not converted, the image is not copied even if
    it exists, the file is not counted, and the error is printed. *)
Theorem X3_exception_leaves_partial_label (st : state) (file_base image_name : string)
    (root : Element) (w h : Z) (pre post : list Element) (bad : Element)
    (lines : list string) (evs : list event) (e : exn) :
  voc_annotations !! (file_base +:+ ".xml") = Some (Some root) ->
  read_header root = inr (Header w h image_name) ->
  iter "object" root = pre ++ bad :: post ->
  write_objects file_base w h pre = (lines, evs, None) ->
  convert_object file_base w h bad = inl e ->
  let st' := process_file voc_annotations voc_images st file_base in
  labels st' !! (file_base +:+ ".txt") = Some lines /\
  images st' = images st /\
  processed_count st' = processed_count st /\
  log st' = log st ++ evs ++ [ErrorProcessing file_base e].
Proof.
  intros Hfile Hhd Hobjs Hpre Hbad st'. unfold st', process_file.
  rewrite Hfile. cbn [et_parse bind ret]. rewrite Hhd. cbn [bind ret].
  rewrite Hobjs, (write_objects_app file_base w h pre (bad :: post) lines evs Hpre).
  cbn [write_objects]. rewrite Hbad, !app_nil_r.
  cbn [labels images log processed_count say say_all write_label].
  rewrite lookup_insert_eq, <- app_assoc. repeat split; reflexivity.
Qed.





(** X5. Objects whose class name is not in the table have no effect on
    the label file: the lines written, and the exception that ends the
    loop if there is one, are those of the same file with these objects
    taken out. *)
Theorem X5_unknown_classes_do_not_change_the_label (file_base : string) (w h : Z)
    (objs : list Element) :
  let known := List.filter (fun obj => negb (unknown_class obj)) objs in
  fst (fst (write_objects file_base w h known)) = fst (fst (write_objects file_base w h objs)) /\
  snd (write_objects file_base w h known) = snd (write_objects file_base w h objs).
Proof.
  induction objs as [| obj rest IH]; [split; reflexivity |].
  cbn zeta in *. cbn [List.filter].
  destruct (unknown_class obj) eqn:Hu; cbn [negb].
  - assert (Hobj : exists ev, convert_object file_base w h obj = inr (Skipped ev)).
    { unfold unknown_class in Hu. unfold convert_object.
      destruct (find "name" obj) as [n |]; [| discriminate]. cbn [deref bind ret].
      destruct (lookup_class CLASS_MAPPING (text n)); [discriminate |]. eauto. }
    destruct Hobj as [ev Hobj]. cbn [write_objects]. rewrite Hobj.
    destruct (write_objects file_base w h rest) as [[lines evs] r].
    exact IH.
  - cbn [write_objects].
    destruct (convert_object file_base w h obj) as [e | [line | ev]];
      [split; reflexivity | |];
      destruct (write_objects file_base w h rest) as [[lines evs] r];
      destruct (write_objects file_base w h (List.filter _ rest)) as [[lines' evs'] r'];
      cbn [fst snd] in *; destruct IH as [-> ->]; split; reflexivity.
Qed.

End WriterFrame.

Section EntryPoint.
Context `{PyRuntime}.
Import Xml Spec Convert.

Variable str_strip : string -> string.
Variable voc_annotations : gmap string (option Element).
Variable voc_images : gmap string string.

Lemma process_split_writes_label (file_list : list string) :
  forall (st : state) (file_base image_name : string) (lines : list string)
         (evs : list event),
    annotation_parses voc_annotations file_base image_name lines evs ->
    In file_base file_list ->
    labels (process_split voc_annotations voc_images st file_list)
      !! (file_base +:+ ".txt") = Some lines.
Proof.
  induction file_list as [| k rest IH]; intros st file_base image_name lines evs Hp Hin.
  - destruct Hin.
  - cbn [process_split fold_left]. destruct Hin as [-> | Hin].
    + eapply process_split_keeps_label; [exact Hp |].
      rewrite (process_file_parsed voc_annotations voc_images st file_base image_name
                 lines evs Hp).
      cbn zeta. destruct (voc_images !! image_name);
        cbn [labels say say_all write_label copy_image]; apply lookup_insert_eq.
    + eapply IH; eassumption.
Qed.

(** X6. [convert_voc_to_yolo_final] raises [FileNotFoundError] when one
    of the two lists is missing.  Otherwise the two lists are converted
    independently of each other from the same source: a key whose
    annotation parses gets its label file in the output of every list
    that names it, in both outputs when both lists name it; each counter
    is at most the length of its list, and the total printed is their
    sum. *)
Theorem X6_both_lists_are_converted_independently
    (imagesets : gmap string (list string))
    (train_dir val_dir : ConvertAll.split_output) :
  (imagesets !! "train.txt" = None \/ imagesets !! "val.txt" = None ->
   exists split_file,
     ConvertAll.convert_voc_to_yolo_final str_strip voc_annotations voc_images imagesets
       train_dir val_dir = inl (ConvertAll.FileNotFoundError split_file)) /\
  (forall (train_lines val_lines : list string),
      imagesets !! "train.txt" = Some train_lines ->
      imagesets !! "val.txt" = Some val_lines ->
      exists out,
        ConvertAll.convert_voc_to_yolo_final str_strip voc_annotations voc_images imagesets
          train_dir val_dir = inr out /\
        (forall file_base image_name lines evs,
            annotation_parses voc_annotations file_base image_name lines evs ->
            (In file_base (map str_strip train_lines) ->
             ConvertAll.labels_dir (ConvertAll.train out) !! (file_base +:+ ".txt")
               = Some lines) /\
            (In file_base (map str_strip val_lines) ->
             ConvertAll.labels_dir (ConvertAll.val out) !! (file_base +:+ ".txt")
               = Some lines)) /\
        0 <= ConvertAll.processed_train out <= Z.of_nat (length train_lines) /\
        0 <= ConvertAll.processed_val out <= Z.of_nat (length val_lines) /\
        ConvertAll.total out
          = ConvertAll.processed_train out + ConvertAll.processed_val out).
Proof.
  split.
  - intros [Ht | Hv]; unfold ConvertAll.convert_voc_to_yolo_final.
    + rewrite Ht. eauto.
    + destruct (imagesets !! "train.txt"); rewrite ?Hv; eauto.
  - intros train_lines val_lines Ht Hv.
    unfold ConvertAll.convert_voc_to_yolo_final. rewrite Ht, Hv.
    eexists. split; [reflexivity |].
    cbn [ConvertAll.train ConvertAll.val ConvertAll.processed_train
         ConvertAll.processed_val ConvertAll.total ConvertAll.finish
         ConvertAll.labels_dir].
    split; [| split; [| split; [| reflexivity]]].
    + intros file_base image_name lines evs Hp. split; intros Hin;
        eapply process_split_writes_label; eassumption.
    + destruct (process_split_accounts voc_annotations voc_images
                  (map str_strip train_lines) (ConvertAll.start train_dir))
        as (evs & _ & Hpos & Hsum).
      rewrite length_map in Hsum. cbn [ConvertAll.start processed_count] in Hpos, Hsum. lia.
    + destruct (process_split_accounts voc_annotations voc_images
                  (map str_strip val_lines) (ConvertAll.start val_dir))
        as (evs & _ & Hpos & Hsum).
      rewrite length_map in Hsum. cbn [ConvertAll.start processed_count] in Hpos, Hsum. lia.
Qed.

End EntryPoint.

(** ** The split assigner: sizes, console and images that are not found *)

Section SplitSizes.
Context `{SkRuntime} {A : Type}.
Import Split.

Lemma safe_indexing_length (a : list A) (indices : list nat) (r : list A) :
  safe_indexing a indices = inr r -> length r = length indices.
Proof.
  revert r. induction indices as [| i rest IH]; intros r; cbn [safe_indexing].
  - now intros [= <-].
  - destruct (a !! i); [| discriminate].
    destruct (safe_indexing a rest) as [e | vs]; cbn [bind ret]; [discriminate |].
    intros [= <-]. cbn [length]. now rewrite (IH vs eq_refl).
Qed.

(** The sizes of the two sides only depend on the number of samples. *)
Lemma train_test_split_lengths (arrays : list A) (test_size : spec_float)
    (train test : list A) :
  train_test_split arrays test_size = inr (train, test) ->
  exists n_train n_test : nat,
    validate_shuffle_split (length arrays) test_size = inr (n_train, n_test) /\
    length train = Nat.min n_train (length arrays - n_test) /\
    length test = Nat.min n_test (length arrays).
Proof.
  unfold train_test_split.
  destruct (validate_shuffle_split (length arrays) test_size) as [e | [n_train n_test]];
    cbn [bind]; [discriminate |].
  destruct (safe_indexing arrays (take n_train _)) as [e | tr] eqn:Htr;
    cbn [bind]; [discriminate |].
  destruct (safe_indexing arrays (take n_test _)) as [e | te] eqn:Hte;
    cbn [bind ret]; [discriminate |].
  intros [= <- <-]. exists n_train, n_test. split; [reflexivity |].
  rewrite (safe_indexing_length _ _ _ Htr), (safe_indexing_length _ _ _ Hte).
  rewrite !length_take, length_drop.
  rewrite (Permutation_length (permutation42_spec _)), length_seq. split; reflexivity.
Qed.

Lemma train_test_split_same_length (a b : list A)
    (test_size : spec_float) (train test : list A) :
  length b = length a ->
  train_test_split a test_size = inr (train, test) ->
  exists (train' test' : list A),
    train_test_split b test_size = inr (train', test') /\
    length train' = length train /\ length test' = length test.
Proof.
  intros Hlen Hs.
  destruct (train_test_split_lengths a test_size train test Hs)
    as (n_train & n_test & Hv & Htr & Hte).
  pose proof Hv as Hv'. rewrite <- Hlen in Hv'.
  destruct (train_test_split_defined b test_size _ Hv') as (train' & test' & Hs').
  exists train', test'. split; [exact Hs' |].
  destruct (train_test_split_lengths b test_size train' test' Hs')
    as (n_train' & n_test' & Hv'' & Htr' & Hte').
  rewrite Hv' in Hv''. injection Hv'' as <- <-.
  rewrite Htr, Hte, Htr', Hte', Hlen. split; reflexivity.
Qed.

End SplitSizes.

Section CopyLoopConsole.
Import Split Terms.

Variable input_images input_labels : gmap string string.

Lemma copy_split_log (files : list string) :
  forall (d : split_dir) (log : list event),
    snd (copy_split input_images input_labels d log files)
      = log ++ missing_label_warnings input_labels files.
Proof.
  unfold copy_split, missing_label_warnings.
  induction files as [| k rest IH]; intros d log; cbn [fold_left List.filter map].
  - now rewrite app_nil_r.
  - destruct (copy_files input_images input_labels (d, log) k) as [d' log'] eqn:Hstep.
    rewrite IH. unfold copy_files in Hstep.
    destruct (input_labels !! (k +:+ ".txt")) as [content |] eqn:Hl;
      injection Hstep as _ <-.
    + rewrite bool_decide_eq_false_2 by discriminate. reflexivity.
    + rewrite bool_decide_eq_true_2 by reflexivity. cbn [map].
      now rewrite <- app_assoc.
Qed.

Lemma missing_label_warnings_app (l1 l2 : list string) :
  missing_label_warnings input_labels (l1 ++ l2)
    = missing_label_warnings input_labels l1 ++ missing_label_warnings input_labels l2.
Proof. unfold missing_label_warnings. now rewrite List.filter_app, map_app. Qed.

Lemma find_source_none (file_base : string) (exts : list string) :
  (forall ext, In ext exts -> input_images !! (file_base +:+ ext) = None) ->
  find_source input_images file_base exts = None.
Proof.
  induction exts as [| ext rest IH]; intros Hnone; cbn [find_source]; [reflexivity |].
  rewrite (Hnone ext) by now left. apply IH. intros ext' Hin. apply Hnone. now right.
Qed.

Lemma copy_split_image_absent (files : list string) (k : string) :
  find_source input_images k candidate_exts = None ->
  forall (d : split_dir) (log : list event),
    images (fst (copy_split input_images input_labels d log files)) !! (k +:+ ".jpg")
      = images d !! (k +:+ ".jpg").
Proof.
  intros Hnone. unfold copy_split.
  induction files as [| k' rest IH]; intros d log; cbn [fold_left]; [reflexivity |].
  destruct (copy_files input_images input_labels (d, log) k') as [d' log'] eqn:Hstep.
  rewrite IH.
  pose proof (copy_files_image input_images input_labels (d, log) k' k) as Hk.
  rewrite Hstep in Hk. cbn [fst] in Hk. rewrite Hk, Hnone.
  now destruct (String.eqb k' k).
Qed.

Lemma copy_split_label_absent (files : list string) (k : string) :
  input_labels !! (k +:+ ".txt") = None ->
  forall (d : split_dir) (log : list event),
    labels (fst (copy_split input_images input_labels d log files)) !! (k +:+ ".txt")
      = labels d !! (k +:+ ".txt").
Proof.
  intros Hnone. unfold copy_split.
  induction files as [| k' rest IH]; intros d log; cbn [fold_left]; [reflexivity |].
  destruct (copy_files input_images input_labels (d, log) k') as [d' log'] eqn:Hstep.
  rewrite IH.
  pose proof (copy_files_label input_images input_labels (d, log) k' k) as Hk.
  rewrite Hstep in Hk. cbn [fst] in Hk. rewrite Hk, Hnone.
  now destruct (String.eqb k' k).
Qed.

End CopyLoopConsole.

Section SplitRunsAlike.
Context `{PyRuntime} `{SkRuntime}.
Import Split Terms.

Variable listing : list string.
Variable input_images input_labels : gmap string string.
Variable out_train out_val out_test : split_dir.
Variable train_ratio val_ratio test_ratio : spec_float.

(** X7. The sizes of the three splits do not depend on the state of the
    process-wide random generator: if a run returns, a run from any
    other state of the generator returns too, with splits of the same
    three sizes holding, all together, the same keys. *)
Theorem X7_split_sizes_do_not_depend_on_the_generator (g1 g2 : rng) (out1 : outcome) :
  split_yolo_dataset listing input_images input_labels out_train out_val out_test g1
                     train_ratio val_ratio test_ratio = inr out1 ->
  exists out2 : outcome,
    split_yolo_dataset listing input_images input_labels out_train out_val out_test g2
                       train_ratio val_ratio test_ratio = inr out2 /\
    length (train_files out2) = length (train_files out1) /\
    length (val_files out2) = length (val_files out1) /\
    length (test_files out2) = length (test_files out1) /\
    train_files out2 ++ val_files out2 ++ test_files out2
      ≡ₚ train_files out1 ++ val_files out1 ++ test_files out1.
Proof.
  intros Hrun1.
  pose proof (split_yolo_dataset_Permutation listing input_images input_labels
                out_train out_val out_test g1 train_ratio val_ratio test_ratio out1 Hrun1)
    as Hperm1.
  destruct (split_yolo_dataset_inv listing input_images input_labels out_train out_val
              out_test g1 train_ratio val_ratio test_ratio out1 Hrun1)
    as (temp1 & _ & _ & _ & Hs1 & Hs2 & _).
  assert (Hsum : SFltb tolerance
            (SFabs (PyFloat.sub (PyFloat.add (PyFloat.add train_ratio val_ratio) test_ratio)
                                PyFloat.one)) = false).
  { unfold split_yolo_dataset in Hrun1. destruct (SFltb tolerance _); [discriminate | reflexivity]. }
  assert (Hnz : PyFloat.is_zero (PyFloat.add val_ratio test_ratio) = false).
  { destruct (train_test_split_lengths _ _ _ _ Hs1) as (n1 & n2 & Hv & _).
    now destruct (validate_sizes _ _ _ _ Hv). }
  assert (Hlen : length (fst (shuffle (image_keys listing) g2))
                 = length (fst (shuffle (image_keys listing) g1))).
  { now rewrite !(Permutation_length (shuffle_Permutation _ _)). }
  destruct (train_test_split_same_length _ _ _ _ _ Hlen Hs1)
    as (train2 & temp2 & Hs1' & Hltrain & Hltemp).
  destruct (train_test_split_same_length _ _ _ _ _ Hltemp Hs2)
    as (val2 & test2 & Hs2' & Hlval & Hltest).
  assert (Hrun2 : exists out2,
             split_yolo_dataset listing input_images input_labels out_train out_val
               out_test g2 train_ratio val_ratio test_ratio = inr out2 /\
             train_files out2 = train2 /\ val_files out2 = val2 /\ test_files out2 = test2).
  { unfold split_yolo_dataset. rewrite Hsum.
    destruct (shuffle (image_keys listing) g2) as [shuffled g'].
    cbn [fst] in Hs1'. rewrite Hs1'. cbn [bind].
    unfold PyFloat.truediv. rewrite Hnz. cbn [bind ret]. rewrite Hs2'. cbn [bind].
    destruct (copy_split _ _ out_train _ train2) as [d1 l1].
    destruct (copy_split _ _ out_val _ val2) as [d2 l2].
    destruct (copy_split _ _ out_test _ test2) as [d3 l3].
    eexists. split; [reflexivity |]. repeat split. }
  destruct Hrun2 as (out2 & Hrun2 & Et & Ev & Ete).
  exists out2. split; [exact Hrun2 |]. subst train2 val2 test2.
  repeat split; try assumption.
  rewrite Hperm1.
  apply (split_yolo_dataset_Permutation listing input_images input_labels
           out_train out_val out_test g2 train_ratio val_ratio test_ratio out2 Hrun2).
Qed.

Variable g : rng.

Lemma split_yolo_dataset_console (out : outcome) :
  split_yolo_dataset listing input_images input_labels out_train out_val out_test g
                     train_ratio val_ratio test_ratio = inr out ->
  log out =
    [ PrintTotal (length (image_keys listing));
      PrintRatios (PyFloat.mul train_ratio (PyFloat.of_Z 100))
                  (PyFloat.mul val_ratio (PyFloat.of_Z 100))
                  (PyFloat.mul test_ratio (PyFloat.of_Z 100));
      PrintSizes (length (train_files out)) (length (val_files out))
                 (length (test_files out)) ] ++
    missing_label_warnings input_labels
      (train_files out ++ val_files out ++ test_files out) ++
    [PrintDone].
Proof.
  unfold split_yolo_dataset.
  destruct (SFltb tolerance _); [discriminate |].
  destruct (shuffle (image_keys listing) g) as [shuffled g'].
  destruct (train_test_split shuffled _) as [e | [tr tmp]]; cbn [bind]; [discriminate |].
  unfold PyFloat.truediv.
  destruct (PyFloat.is_zero _); cbn [bind ret]; [discriminate |].
  destruct (train_test_split tmp _) as [e | [va te]]; cbn [bind]; [discriminate |].
  pose proof (copy_split_log input_images input_labels tr out_train) as H1.
  pose proof (copy_split_log input_images input_labels va out_val) as H2.
  pose proof (copy_split_log input_images input_labels te out_test) as H3.
  destruct (copy_split _ _ out_train _ tr) as [d1 log1] eqn:E1.
  destruct (copy_split _ _ out_val _ va) as [d2 log2] eqn:E2.
  destruct (copy_split _ _ out_test _ te) as [d3 log3] eqn:E3.
  intros [= <-]. cbn [log train_files val_files test_files].
  specialize (H3 log2). rewrite E3 in H3. cbn [snd] in H3. subst log3.
  specialize (H2 log1). rewrite E2 in H2. cbn [snd] in H2. subst log2.
  match type of E1 with copy_split _ _ _ ?l0 _ = _ => specialize (H1 l0) end.
  rewrite E1 in H1. cbn [snd] in H1. subst log1.
  rewrite !missing_label_warnings_app. cbn [app]. rewrite <- !app_assoc. reflexivity.
Qed.

Lemma image_key_is_assigned (f : string) (out : outcome) :
  split_yolo_dataset listing input_images input_labels out_train out_val out_test g
                     train_ratio val_ratio test_ratio = inr out ->
  In f listing -> is_image f = true ->
  In (splitext_root f) (train_files out) \/ In (splitext_root f) (val_files out) \/
  In (splitext_root f) (test_files out).
Proof.
  intros Hrun Hin Himg.
  pose proof (split_yolo_dataset_Permutation listing input_images input_labels
                out_train out_val out_test g train_ratio val_ratio test_ratio out Hrun)
    as Hperm.
  assert (Hk : In (splitext_root f) (image_keys listing)).
  { unfold image_keys. apply in_map. apply List.filter_In. now split. }
  apply (Permutation_in _ (Permutation_sym Hperm)) in Hk.
  rewrite !in_app_iff in Hk. exact Hk.
Qed.

(** X8. A file of the input directory whose name passes the image test
    (its lower-cased name ends in [.jpg], [.jpeg] or [.png]) but whose
    key is not found under any of the six extensions the copy loop
    tries, such as [x.Jpg], is assigned to a split like any other key,
    but no image is copied for it: the entry of the key in the image
    directory of every split is left as it was, and the console carries
    no message about it (only missing labels are ever reported). *)
Theorem X8_image_with_other_extension_is_assigned_but_not_copied
    (f : string) (out : outcome) :
  split_yolo_dataset listing input_images input_labels out_train out_val out_test g
                     train_ratio val_ratio test_ratio = inr out ->
  In f listing -> is_image f = true ->
  (forall ext, In ext candidate_exts ->
               input_images !! (splitext_root f +:+ ext) = None) ->
  (In (splitext_root f) (train_files out) \/ In (splitext_root f) (val_files out) \/
   In (splitext_root f) (test_files out)) /\
  images (train out) !! (splitext_root f +:+ ".jpg")
    = images out_train !! (splitext_root f +:+ ".jpg") /\
  images (val out) !! (splitext_root f +:+ ".jpg")
    = images out_val !! (splitext_root f +:+ ".jpg") /\
  images (test out) !! (splitext_root f +:+ ".jpg")
    = images out_test !! (splitext_root f +:+ ".jpg") /\
  (forall ev, In ev (log out) ->
              match ev with
              | WarnLabelMissing src_label =>
                  exists k, src_label = k +:+ ".txt" /\ input_labels !! src_label = None
              | _ => True
              end).
Proof.
  intros Hrun Hin Himg Hnone.
  split; [now apply image_key_is_assigned |].
  pose proof (find_source_none input_images (splitext_root f) candidate_exts Hnone) as Hsrc.
  destruct (split_yolo_dataset_inv listing input_images input_labels out_train out_val
              out_test g train_ratio val_ratio test_ratio out Hrun)
    as (temp & l1 & l2 & l3 & _ & _ & -> & -> & ->).
  rewrite !(copy_split_image_absent input_images input_labels _ _ Hsrc).
  repeat split.
  intros ev Hev. rewrite (split_yolo_dataset_console out Hrun) in Hev.
  rewrite !in_app_iff in Hev.
  destruct Hev as [Hev | [Hev | Hev]].
  - destruct Hev as [<- | [<- | [<- | []]]]; exact I.
  - unfold missing_label_warnings in Hev.
    apply in_map_iff in Hev. destruct Hev as (k & <- & Hk).
    apply List.filter_In in Hk. destruct Hk as [_ Hk].
    apply bool_decide_eq_true in Hk. eauto.
  - destruct Hev as [<- | []]. exact I.
Qed.

(** X9. The console of a run that returns: the total, the ratios, the
    three sizes, then one warning for each assigned key that has no
    label file (the keys of the training split first, then those of the
    validation split, then those of the test split, each in the order of
    its list), then the closing message.  For such a key no label file
    is created in its split. *)
Theorem X9_console_lists_the_keys_without_label (out : outcome) :
  split_yolo_dataset listing input_images input_labels out_train out_val out_test g
                     train_ratio val_ratio test_ratio = inr out ->
  log out =
    [ PrintTotal (length (image_keys listing));
      PrintRatios (PyFloat.mul train_ratio (PyFloat.of_Z 100))
                  (PyFloat.mul val_ratio (PyFloat.of_Z 100))
                  (PyFloat.mul test_ratio (PyFloat.of_Z 100));
      PrintSizes (length (train_files out)) (length (val_files out))
                 (length (test_files out)) ] ++
    missing_label_warnings input_labels
      (train_files out ++ val_files out ++ test_files out) ++
    [PrintDone] /\
  (forall k, input_labels !! (k +:+ ".txt") = None ->
     labels (train out) !! (k +:+ ".txt") = labels out_train !! (k +:+ ".txt") /\
     labels (val out) !! (k +:+ ".txt") = labels out_val !! (k +:+ ".txt") /\
     labels (test out) !! (k +:+ ".txt") = labels out_test !! (k +:+ ".txt")).
Proof.
  intros Hrun. split.
  - now apply split_yolo_dataset_console.
  - intros k Hnone.
    destruct (split_yolo_dataset_inv listing input_images input_labels out_train out_val
                out_test g train_ratio val_ratio test_ratio out Hrun)
      as (temp & l1 & l2 & l3 & _ & _ & -> & -> & ->).
    rewrite !(copy_split_label_absent input_images input_labels _ _ Hnone).
    repeat split.
Qed.

End SplitRunsAlike.

Section TwoWaySplit.
Context `{PyRuntime} `{SkRuntime}.
Import Split.

Lemma validate_rejects_zero_and_nan (n : nat) (test_size : spec_float) :
  PyFloat.is_zero test_size = true \/ test_size = S754_nan ->
  exists e, validate_shuffle_split n test_size = inl e.
Proof.
  intros [Hz | ->]; unfold validate_shuffle_split.
  - destruct test_size; try discriminate. cbn. eauto.
  - cbn [PyFloat.le_int PyFloat.ge_int PyFloat.compare_int orb].
    destruct (PyFloat.of_int (Z.of_nat n)) as [e | f]; cbn [bind]; [eauto |].
    replace (PyFloat.mul S754_nan f) with S754_nan by reflexivity.
    cbn. eauto.
Qed.

Lemma div_zero_by_nonzero (x y : spec_float) :
  PyFloat.is_zero x = true -> PyFloat.is_zero y = false ->
  PyFloat.is_zero (PyFloat.div x y) = true \/ PyFloat.div x y = S754_nan.
Proof.
  destruct x; try discriminate. destruct y; try discriminate; intros _ _; cbn; auto.
Qed.

(** X10. A split without a test part cannot be made: when [test_ratio]
    is zero the call raises for every input directory and every state of
    the generator, whatever the other two ratios are (the second
    [train_test_split] is given a test size of zero, which it rejects). *)
Theorem X10_zero_test_ratio_always_raises (listing : list string)
    (input_images input_labels : gmap string string)
    (out_train out_val out_test : split_dir) (g : rng)
    (train_ratio val_ratio test_ratio : spec_float) :
  PyFloat.is_zero test_ratio = true ->
  exists e : exn,
    split_yolo_dataset listing input_images input_labels out_train out_val out_test g
                       train_ratio val_ratio test_ratio = inl e.
Proof.
  intros Hz. unfold split_yolo_dataset.
  destruct (SFltb tolerance _); [eexists; reflexivity |].
  destruct (shuffle (image_keys listing) g) as [shuffled g'].
  destruct (train_test_split shuffled _) as [e | [tr tmp]]; cbn [bind]; [eauto |].
  unfold PyFloat.truediv.
  destruct (PyFloat.is_zero (PyFloat.add val_ratio test_ratio)) eqn:Hvt;
    cbn [bind ret raise]; [eauto |].
  destruct (validate_rejects_zero_and_nan (length tmp)
              (PyFloat.div test_ratio (PyFloat.add val_ratio test_ratio))
              (div_zero_by_nonzero _ _ Hz Hvt)) as [e He].
  unfold train_test_split. rewrite He. cbn [bind]. eauto.
Qed.

End TwoWaySplit.

(** ** The consistency checker: empty datasets and the statistics *)

Section NoSample.
Context `{PyRuntime}.
Import CheckDataset.

(** X11. A dataset without a single sample passes the check: when the
    image directory holds no file with an image extension and the label
    directory holds no [.txt] file (both directories may be empty, or
    hold other files), the verdict is [True], the script exits with
    code 0, and the console shows the heading, the two counts, both
    zero, zero valid pairs, the headings of the audit, of the two
    statistics and of the summary, each with nothing below it, and the
    success message: no warning, no error and no statistics line. *)
Theorem X11_dataset_without_samples_passes (images : gset string)
    (labels : gmap string (option (list string))) :
  (forall f, f ∈ images -> is_image f = false) ->
  (forall f, f ∈ dom labels -> endswith f ".txt" = false) ->
  check_yolo_dataset (Some images) (Some labels)
    = (true, [ PrintHeader; PrintCounts 0 0; PrintValidPairs 0; PrintAuditHeader;
               PrintClassHeader; PrintBoxesHeader; PrintSummaryHeader; PrintPassed ]) /\
  fst (main (Some images) (Some labels)) = 0.
Proof.
  intros Hi Hl.
  assert (Ei : image_keys images = ∅).
  { unfold image_keys. apply set_eq. intros k. rewrite elem_of_map. split.
    - intros (f & _ & Hf). apply elem_of_filter in Hf as [Hf Hin].
      rewrite (Hi f Hin) in Hf. discriminate.
    - intros Hk. now apply not_elem_of_empty in Hk. }
  assert (El : label_keys labels = ∅).
  { unfold label_keys. apply set_eq. intros k. rewrite elem_of_map. split.
    - intros (f & _ & Hf). apply elem_of_filter in Hf as [Hf Hin].
      rewrite (Hl f Hin) in Hf. discriminate.
    - intros Hk. now apply not_elem_of_empty in Hk. }
  assert (Hrun : check_yolo_dataset (Some images) (Some labels)
                 = (true, [ PrintHeader; PrintCounts 0 0; PrintValidPairs 0;
                            PrintAuditHeader; PrintClassHeader; PrintBoxesHeader;
                            PrintSummaryHeader; PrintPassed ])).
  { unfold check_yolo_dataset. rewrite Ei, El.
    replace ((∅ : gset string) ∖ ∅) with (∅ : gset string) by set_solver.
    replace ((∅ : gset string) ∩ ∅) with (∅ : gset string) by set_solver.
    unfold warn_missing, audit. rewrite bool_decide_eq_true_2 by reflexivity.
    rewrite elements_empty. cbn [fold_left empty_tally error_files log].
    rewrite size_empty. reflexivity. }
  split; [exact Hrun |]. unfold main. now rewrite Hrun.
Qed.

End NoSample.

Section Statistics.
Context `{PyRuntime}.
Import Spec CheckDataset Terms.

Lemma check_line_known (line : string) (c : Z) (w h : spec_float) :
  check_line line = Counted c w h -> 0 <= c <= 3.
Proof.
  intros Hl. apply check_line_spec in Hl.
  destruct Hl as (t0 & t1 & t2 & t3 & t4 & x & y & _ & _ & Hc & _). exact Hc.
Qed.

Lemma count_agrees (c : Z) (w h : spec_float) (t : tally) :
  0 <= c <= 3 -> tables_agree t -> tables_agree (count c w h t).
Proof.
  intros Hc (I1 & I2 & I3). unfold tables_agree, count.
  cbn [class_distribution bbox_stats]. split; [| split].
  - intros c' v. rewrite lookup_insert. destruct (decide (c = c')) as [<- | Hne].
    + intros [= <-]. split; [lia | exact Hc].
    + apply I1.
  - intros c'. unfold boxes_of at 1. rewrite count_of_insert, lookup_insert.
    destruct (decide (c = c')) as [<- | Hne].
    + rewrite bool_decide_eq_true_2 by reflexivity.
      change (length (boxes_of (bbox_stats t) c ++ [(w, h)])
              = S (count_of (class_distribution t) c)).
      rewrite length_app, I2. cbn [length]. lia.
    + rewrite bool_decide_eq_false_2 by assumption. apply I2.
  - intros c'. rewrite !lookup_insert. destruct (decide (c = c')) as [<- | Hne].
    + split; discriminate.
    + apply I3.
Qed.

Lemma flag_agrees (label_file : string) (ev : event) (t : tally) :
  tables_agree t -> tables_agree (flag label_file ev t).
Proof. intros Ht. exact Ht. Qed.

Lemma check_lines_agree (label_file : string) (lines : list string) :
  forall (n : nat) (t : tally),
    tables_agree t -> tables_agree (check_lines label_file n lines t).
Proof.
  induction lines as [| line rest IH]; intros n t Ht; cbn [check_lines]; [exact Ht |].
  apply IH. destruct (check_line line) as [c w h | | c | |] eqn:Hl;
    try (now apply flag_agrees).
  apply count_agrees; [now apply (check_line_known line c w h) | exact Ht].
Qed.

Lemma check_lines_messages (label_file : string) (lines : list string) :
  forall (n : nat) (t : tally),
    forallb audit_message (log t) = true ->
    forallb audit_message (log (check_lines label_file n lines t)) = true.
Proof.
  induction lines as [| line rest IH]; intros n t Ht; cbn [check_lines]; [exact Ht |].
  apply IH. destruct (check_line line) as [c w h | | c | |]; [exact Ht | | | |];
    cbn [log flag]; rewrite forallb_app, Ht; reflexivity.
Qed.

Lemma audit_sound (labels_dir : gmap string (option (list string)))
    (common_files : gset string) :
  tables_agree (audit labels_dir common_files) /\
  forallb audit_message (log (audit labels_dir common_files)) = true.
Proof.
  unfold audit.
  assert (Hgen : forall keys t,
             tables_agree t /\ forallb audit_message (log t) = true ->
             tables_agree (fold_left (check_file labels_dir) keys t) /\
             forallb audit_message (log (fold_left (check_file labels_dir) keys t)) = true).
  { induction keys as [| k rest IH]; intros t Ht; cbn [fold_left]; [exact Ht |].
    apply IH. destruct Ht as [Ht Hm]. unfold check_file.
    destruct (labels_dir !! (k +:+ ".txt")) as [[lines |] |].
    - split; [now apply check_lines_agree | now apply check_lines_messages].
    - split; [exact Ht |]. cbn [log flag]. rewrite forallb_app, Hm. reflexivity.
    - split; [exact Ht |]. cbn [log flag]. rewrite forallb_app, Hm. reflexivity. }
  apply Hgen. split; [| reflexivity].
  unfold tables_agree, empty_tally. cbn [class_distribution bbox_stats].
  split; [| split].
  - intros c v. rewrite lookup_empty. discriminate.
  - intros c. unfold boxes_of, count_of. now rewrite !lookup_empty.
  - intros c. now rewrite !lookup_empty.
Qed.

Lemma foldr_plus_sum_list (l : list nat) : foldr plus 0%nat l = sum_list l.
Proof. induction l as [| x l IH]; cbn; [reflexivity | now rewrite IH]. Qed.

(** The sum of a counter whose keys are classes of the table. *)
Lemma total_of_table (cd : gmap Z nat) :
  (forall c v, cd !! c = Some v -> 0 <= c <= 3) ->
  foldr plus 0%nat (snd <$> map_to_list cd)
    = (count_of cd 0 + count_of cd 1 + count_of cd 2 + count_of cd 3)%nat.
Proof.
  rewrite foldr_plus_sum_list. unfold count_of.
  induction cd as [| c v cd Hfresh IH] using map_ind; intros Hk.
  - rewrite map_to_list_empty. reflexivity.
  - rewrite map_to_list_insert by assumption. cbn [fmap list_fmap snd sum_list].
    rewrite IH.
    2: { intros c' v' Hc'. apply (Hk c' v'). rewrite lookup_insert_ne; [assumption |].
         intros <-. congruence. }
    assert (Hc : 0 <= c <= 3) by (apply (Hk c v); apply lookup_insert_eq).
    assert (Hcases : c = 0 \/ c = 1 \/ c = 2 \/ c = 3) by lia.
    destruct Hcases as [-> | [-> | [-> | ->]]];
      rewrite lookup_insert_eq, !lookup_insert_ne, Hfresh by discriminate;
      cbn [default]; lia.
Qed.

Lemma sorted_keys_spec {V : Type} (m : gmap Z V) (c : Z) :
  In c (sorted_keys m) <-> is_Some (m !! c).
Proof.
  unfold sorted_keys. rewrite <- list_elem_of_In, merge_sort_Permutation.
  rewrite elem_of_elements. apply elem_of_dom.
Qed.

(** The statistics lines of the console are those printed after the
    audit. *)
Lemma console_statistics (images : gset string)
    (labels : gmap string (option (list string))) (ev : event) :
  In ev (snd (check_yolo_dataset (Some images) (Some labels))) ->
  match ev with
  | PrintClass _ _ _ | PrintBoxes _ _ =>
      In ev (print_statistics (audit labels (image_keys images ∩ label_keys labels)))
  | _ => True
  end.
Proof.
  unfold check_yolo_dataset. cbn [snd].
  set (t := audit labels (image_keys images ∩ label_keys labels)).
  destruct (audit_sound labels (image_keys images ∩ label_keys labels)) as [_ Hm].
  fold t in Hm. rewrite forallb_forall in Hm.
  unfold warn_missing.
  destruct (bool_decide (label_keys labels ∖ image_keys images = ∅));
    destruct (bool_decide (image_keys images ∖ label_keys labels = ∅));
    destruct (bool_decide (error_files t = []));
    cbn [andb]; rewrite !in_app_iff; cbn [In]; intros Hev;
    destruct ev; try exact I;
    repeat match goal with
           | Hd : _ \/ _ |- _ => destruct Hd as [Hd | Hd]
           | Hd : False |- _ => destruct Hd
           | Hd : @eq event _ _ |- _ => discriminate Hd
           | Hd : In _ (log t) |- _ => apply Hm in Hd; discriminate Hd
           end;
    assumption.
Qed.

(** X12. The statistics printed by the checker are those of the
    well-formed lines of the audited files.  Every class line of the
    console names a class of the table (0 to 3) with the number of
    well-formed lines of that class, which is at least one, and with a
    total that is the number of all well-formed lines, so that the
    percentage printed is a quotient by a positive number and never
    exceeds 100.  Every size line carries as many sizes as the class line
    of the same class counts. *)
Theorem X12_statistics_count_the_well_formed_lines (images : gset string)
    (labels : gmap string (option (list string))) :
  let keys := elements (image_keys images ∩ label_keys labels) in
  let run := check_yolo_dataset (Some images) (Some labels) in
  (forall c n total,
      In (PrintClass c n total) (snd run) ->
      0 <= c <= 3 /\
      n = objects_of_class labels c keys /\
      total = (objects_of_class labels 0 keys + objects_of_class labels 1 keys +
               objects_of_class labels 2 keys + objects_of_class labels 3 keys)%nat /\
      (1 <= n <= total)%nat) /\
  (forall c sizes,
      In (PrintBoxes c sizes) (snd run) ->
      0 <= c <= 3 /\ length sizes = objects_of_class labels c keys /\ sizes <> []).
Proof.
  intros keys run. subst run.
  set (common := image_keys images ∩ label_keys labels) in *.
  set (t := audit labels common).
  destruct (audit_sound labels common) as [(I1 & I2 & I3) Hm]. fold t in I1, I2, I3, Hm.
  assert (Hcount : forall c, count_of (class_distribution t) c
                             = objects_of_class labels c keys)
    by (intros c; apply audit_counts).
  pose proof (console_statistics images labels) as Hstats.
  fold common in Hstats. fold t in Hstats.
  assert (Htotal : foldr plus 0%nat (snd <$> map_to_list (class_distribution t))
                   = (objects_of_class labels 0 keys + objects_of_class labels 1 keys +
                      objects_of_class labels 2 keys + objects_of_class labels 3 keys)%nat).
  { rewrite total_of_table by (intros c v Hc; now apply (I1 c v)).
    now rewrite !Hcount. }
  split.
  - intros c n total Hev. apply Hstats in Hev. unfold print_statistics in Hev.
    rewrite !in_app_iff in Hev. cbn [In] in Hev.
    destruct Hev as [[Hev | []] | [Hev | [[Hev | []] | Hev]]]; try discriminate Hev.
    2: { apply in_map_iff in Hev. destruct Hev as (c' & Heq & _). discriminate. }
    apply in_map_iff in Hev. destruct Hev as (c' & Heq & Hin).
    injection Heq as -> <- <-. apply sorted_keys_spec in Hin. destruct Hin as [v Hv].
    destruct (I1 c v Hv) as [Hv1 Hc].
    assert (Hn : count_of (class_distribution t) c = v)
      by (unfold count_of; now rewrite Hv).
    rewrite Htotal, Hcount. rewrite Hcount in Hn.
    split; [exact Hc |]. split; [reflexivity |]. split; [reflexivity |].
    assert (Hcases : c = 0 \/ c = 1 \/ c = 2 \/ c = 3) by lia.
    destruct Hcases as [-> | [-> | [-> | ->]]]; lia.
  - intros c sizes Hev. apply Hstats in Hev. unfold print_statistics in Hev.
    rewrite !in_app_iff in Hev. cbn [In] in Hev.
    destruct Hev as [[Hev | []] | [Hev | [[Hev | []] | Hev]]]; try discriminate Hev.
    1: { apply in_map_iff in Hev. destruct Hev as (c' & Heq & _). discriminate. }
    apply in_map_iff in Hev. destruct Hev as (c' & Heq & Hin).
    injection Heq as -> <-. apply sorted_keys_spec in Hin.
    assert (Hcd : is_Some (class_distribution t !! c)).
    { destruct (class_distribution t !! c) eqn:Hc; [eauto |].
      apply I3 in Hc. destruct Hin as [v Hv]. congruence. }
    destruct Hcd as [v Hv]. destruct (I1 c v Hv) as [Hv1 Hc].
    assert (Hn : count_of (class_distribution t) c = v)
      by (unfold count_of; now rewrite Hv).
    assert (Hlen : length (boxes_of (bbox_stats t) c) = objects_of_class labels c keys)
      by (rewrite I2; apply Hcount).
    assert (Hv' : objects_of_class labels c keys = v)
      by (rewrite <- (Hcount c); exact Hn).
    split; [exact Hc |]. split; [exact Hlen |].
    intros Hnil. rewrite Hnil, Hv' in Hlen. cbn [length] in Hlen. lia.
Qed.

End Statistics.

(** ** The box validator on a whole document *)

Section ElementInduction.
Import Xml.

(** Induction over a tree: the property holds for an element when it
    holds for all its children. *)
Lemma Element_tree_ind (P : Element -> Prop) :
  (forall t x cs, Forall P cs -> P (Elem t x cs)) -> forall e, P e.
Proof.
  intros Hstep. fix IH 1. intros [t x cs]. apply Hstep.
  induction cs as [| c cs IHcs]; constructor; [apply IH | exact IHcs].
Qed.

End ElementInduction.

Section Positions.
Import Xml FixBBox Terms.

Lemma iter_at_unfold (name : string) (path : list nat) (t : string) (x : option string)
    (cs : list Element) :
  iter_at name path (Elem t x cs) =
    (if String.eqb t name then [(path, Elem t x cs)] else []) ++
    iter_children name path 0 cs.
Proof.
  cbn [iter_at]. f_equal. generalize 0%nat.
  induction cs as [| c cs IH]; intros i; [reflexivity |].
  cbn [iter_children]. f_equal. apply IH.
Qed.

(** The elements found are those of [iter], in the same order. *)
Lemma iter_at_elements (name : string) (e : Element) :
  forall path, map snd (iter_at name path e) = iter name e.
Proof.
  induction e as [t x cs IH] using Element_tree_ind. intros path.
  rewrite iter_at_unfold. cbn [iter]. rewrite map_app. f_equal.
  - now destruct (String.eqb t name).
  - generalize 0%nat. induction IH as [| c cs Hc _ IHcs]; intros i; [reflexivity |].
    cbn [iter_children flat_map]. rewrite map_app, Hc, IHcs. reflexivity.
Qed.

(** An element is found at the position given, or further down. *)
Lemma iter_at_positions (name : string) (e : Element) :
  forall path q o,
    In (q, o) (iter_at name path e) ->
    (q = path /\ o = e /\ tag e = name) \/ (length path < length q)%nat.
Proof.
  induction e as [t x cs IH] using Element_tree_ind. intros path q o.
  rewrite iter_at_unfold, in_app_iff. intros [Hin | Hin].
  - destruct (String.eqb_spec t name) as [-> | _]; [| destruct Hin].
    destruct Hin as [[= <- <-] | []]. left. repeat split.
  - right. revert Hin. generalize 0%nat.
    induction IH as [| c cs Hc _ IHcs]; intros i Hin; [destruct Hin |].
    cbn [iter_children] in Hin. rewrite in_app_iff in Hin. destruct Hin as [Hin | Hin].
    + destruct (Hc _ _ _ Hin) as [(-> & _ & _) | Hlt];
        rewrite ?length_app in *; cbn [length] in *; lia.
    + now apply (IHcs (S i)).
Qed.

(** The elements found at depth one below the root are the children
    that carry the tag. *)
Lemma iter_children_top (name : string) (cs : list Element) :
  forall (i j : nat) (o : Element),
    In ([j], o) (iter_children name [] i cs) <->
    exists k, j = (i + k)%nat /\ cs !! k = Some o /\ tag o = name.
Proof.
  induction cs as [| c cs IH]; intros i j o; cbn [iter_children].
  - split; [intros [] | intros (k & _ & Hk & _); discriminate].
  - rewrite in_app_iff, IH. cbn [app]. split.
    + intros [Hin | (k & -> & Hk & Ht)].
      * destruct (iter_at_positions name c [i] [j] o Hin) as [([= ->] & -> & Ht) | Hlt].
        -- exists 0%nat. repeat split; [lia | assumption].
        -- cbn [length] in Hlt. lia.
      * exists (S k). repeat split; [lia | assumption | assumption].
    + intros ([| k] & -> & Hk & Ht).
      * left. cbn in Hk. injection Hk as ->. replace (i + 0)%nat with i by lia.
        destruct o as [t x cs']. rewrite iter_at_unfold. cbn [tag] in Ht. subst t.
        rewrite String.eqb_refl. now left.
      * right. exists k. repeat split; [lia | assumption | assumption].
Qed.

Lemma drop_at_filter (marked : list nat) (keep : Element -> bool) (cs : list Element) :
  forall i : nat,
    (forall k c, cs !! k = Some c -> ((i + k)%nat ∈ marked <-> keep c = false)) ->
    drop_at marked i cs = List.filter keep cs.
Proof.
  induction cs as [| c cs IH]; intros i Hk; cbn [drop_at List.filter]; [reflexivity |].
  assert (Hc : i ∈ marked <-> keep c = false).
  { rewrite <- (Hk 0%nat c eq_refl). now replace (i + 0)%nat with i by lia. }
  assert (Hrest : drop_at marked (S i) cs = List.filter keep cs).
  { apply IH. intros k c' Hc'. rewrite <- (Hk (S k) c' Hc').
    now replace (S i + k)%nat with (i + S k)%nat by lia. }
  rewrite Hrest. destruct (keep c) eqn:Hkeep.
  - rewrite bool_decide_eq_false_2; [reflexivity |].
    intros Hin. apply Hc in Hin. discriminate.
  - rewrite bool_decide_eq_true_2; [reflexivity |]. now apply Hc.
Qed.

Lemma concat_singletons (marked : list (list nat)) (j : nat) :
  forallb (fun p => (length p =? 1)%nat) marked = true ->
  (j ∈ concat marked <-> In [j] marked).
Proof.
  induction marked as [| p marked IH]; cbn [forallb concat In].
  - intros _. split; [intros Hin; now apply not_elem_of_nil in Hin | intros []].
  - intros Hall. apply andb_prop in Hall as [Hp Hall].
    apply Nat.eqb_eq in Hp. destruct p as [| a [| b p]]; try discriminate.
    cbn [app]. rewrite elem_of_cons, (IH Hall). split.
    + intros [-> | Hin]; [now left | now right].
    + intros [[= ->] | Hin]; [now left | now right].
Qed.

End Positions.

Section ValidatorRun.
Context `{PyRuntime}.
Import Xml FixBBox Terms.

Lemma objects_to_remove_spec (w h : Z) (objs : list (list nat * Element)) :
  forall marked,
    objects_to_remove w h objs = inr marked ->
    (forall p, In p marked <->
               exists o, In (p, o) objs /\ inspect_object w h o = inr true) /\
    (forall p o, In (p, o) objs -> exists b, inspect_object w h o = inr b).
Proof.
  induction objs as [| [p0 o0] rest IH]; intros marked; cbn [objects_to_remove].
  - intros [= <-]. split.
    + intros p. split; [intros [] | intros (o & [] & _)].
    + intros p o [].
  - destruct (inspect_object w h o0) as [e | b] eqn:Hb; cbn [bind]; [discriminate |].
    destruct (objects_to_remove w h rest) as [e | others]; cbn [bind ret]; [discriminate |].
    destruct (IH others eq_refl) as [IH1 IH2]. intros [= <-]. split.
    + intros p. destruct b; cbn [In]; rewrite ?IH1; split.
      * intros [<- | (o & Hin & Ho)]; [exists o0; split; [now left | assumption] |].
        exists o. split; [now right | assumption].
      * intros (o & [[= <- <-] | Hin] & Ho); [now left |]. right. eauto.
      * intros (o & Hin & Ho). exists o. split; [now right | assumption].
      * intros (o & [[= <- <-] | Hin] & Ho); [congruence |]. eauto.
    + intros p o [[= <- <-] | Hin]; [eauto |]. eapply IH2; eassumption.
Qed.

Lemma objects_to_remove_none (w h : Z) (objs : list (list nat * Element)) :
  (forall p o, In (p, o) objs -> inspect_object w h o = inr false) ->
  objects_to_remove w h objs = inr [].
Proof.
  induction objs as [| [p0 o0] rest IH]; intros Hall; cbn [objects_to_remove];
    [reflexivity |].
  rewrite (Hall p0 o0) by now left. cbn [bind].
  rewrite IH by (intros p o Hin; apply (Hall p o); now right). reflexivity.
Qed.

Lemma objects_to_remove_fails (w h : Z) (objs : list (list nat * Element))
    (p : list nat) (o : Element) (e : exn) :
  In (p, o) objs -> inspect_object w h o = inl e ->
  exists e', objects_to_remove w h objs = inl e'.
Proof.
  induction objs as [| [p0 o0] rest IH]; intros Hin Ho; [destruct Hin |].
  cbn [objects_to_remove]. destruct Hin as [[= <- <-] | Hin].
  - rewrite Ho. cbn [bind]. eauto.
  - destruct (inspect_object w h o0); cbn [bind]; [eauto |].
    destruct (IH Hin Ho) as [e' ->]. cbn [bind]. eauto.
Qed.

(** The run of the validator on a document that parses, in two steps:
    the size that is read, then the objects marked and removed. *)
Lemma fix_without_size (root : Element) :
  declared_size root = None ->
  fix_invalid_bbox_advanced (Some root) = (false, None).
Proof.
  unfold declared_size, fix_invalid_bbox_advanced. cbn [Convert.et_parse bind ret].
  destruct (find "size" root) as [size |]; [| reflexivity].
  destruct (deref (find "width" size)) as [e | we]; cbn [bind]; [reflexivity |].
  destruct (int_of_text (text we)) as [e | w]; cbn [bind]; [reflexivity |].
  destruct (deref (find "height" size)) as [e | he]; cbn [bind]; [reflexivity |].
  destruct (int_of_text (text he)) as [e | h]; cbn [bind ret]; [reflexivity |].
  discriminate.
Qed.

Lemma fix_with_size (root : Element) (w h : Z) :
  declared_size root = Some (w, h) ->
  fix_invalid_bbox_advanced (Some root) =
    match (marked <-- objects_to_remove w h (iter_at "object" [] root) ;;
           root' <-- remove_all marked root ;;
           ret (true, if (0 <? length marked)%nat then Some root' else None)) with
    | inl _ => (false, None)
    | inr r => r
    end.
Proof.
  unfold declared_size, fix_invalid_bbox_advanced. cbn [Convert.et_parse bind ret].
  destruct (find "size" root) as [size |]; [| discriminate].
  destruct (deref (find "width" size)) as [e | we]; cbn [bind]; [discriminate |].
  destruct (int_of_text (text we)) as [e | w']; cbn [bind]; [discriminate |].
  destruct (deref (find "height" size)) as [e | he]; cbn [bind]; [discriminate |].
  destruct (int_of_text (text he)) as [e | h']; cbn [bind ret]; [discriminate |].
  intros [= -> ->]. reflexivity.
Qed.

Lemma fix_returns_true (root : Element) (r : option Element) :
  fix_invalid_bbox_advanced (Some root) = (true, r) ->
  exists w h marked,
    declared_size root = Some (w, h) /\
    objects_to_remove w h (iter_at "object" [] root) = inr marked /\
    forallb (fun p => (length p =? 1)%nat) marked = true /\
    r = if (0 <? length marked)%nat
        then Some (Elem (tag root) (text root)
                        (drop_at (concat marked) 0 (children root)))
        else None.
Proof.
  intros Hrun. destruct (declared_size root) as [[w h] |] eqn:Hsize.
  2: { rewrite (fix_without_size root Hsize) in Hrun. discriminate. }
  rewrite (fix_with_size root w h Hsize) in Hrun.
  destruct (objects_to_remove w h (iter_at "object" [] root)) as [e | marked] eqn:Hobjs;
    cbn [bind] in Hrun; [discriminate |].
  unfold remove_all in Hrun.
  destruct (forallb _ marked) eqn:Hall; cbn [bind ret raise] in Hrun; [| discriminate].
  injection Hrun as <-. exists w, h, marked.
  split; [reflexivity |]. split; [exact Hobjs |]. split; [exact Hall | reflexivity].
Qed.

(** The children dropped are the invalid objects. *)
Lemma marked_children (root : Element) (w h : Z) (marked : list (list nat)) :
  objects_to_remove w h (iter_at "object" [] root) = inr marked ->
  forallb (fun p => (length p =? 1)%nat) marked = true ->
  drop_at (concat marked) 0 (children root)
    = List.filter (fun c => negb (removable w h c)) (children root).
Proof.
  intros Hobjs Hall. destruct (objects_to_remove_spec w h _ marked Hobjs) as [Hm _].
  apply drop_at_filter. intros k c Hk. cbn [Nat.add].
  rewrite (concat_singletons marked k Hall), Hm.
  destruct root as [t x cs]. cbn [children] in Hk. rewrite iter_at_unfold. split.
  - intros (o & Hin & Ho). rewrite in_app_iff in Hin. destruct Hin as [Hin | Hin].
    + destruct (String.eqb t "object"); [| destruct Hin].
      destruct Hin as [[=] | []].
    + apply iter_children_top in Hin. destruct Hin as (k' & -> & Hk' & Ht).
      cbn [Nat.add] in Hk. rewrite Hk in Hk'. injection Hk' as <-.
      unfold removable. rewrite Ht, Ho. reflexivity.
  - intros Hr. apply negb_false_iff in Hr. unfold removable in Hr.
    apply andb_prop in Hr as [Ht Ho]. apply String.eqb_eq in Ht.
    exists c. split.
    + rewrite in_app_iff. right. apply iter_children_top. exists k. now repeat split.
    + destruct (inspect_object w h c) as [e | []]; try discriminate. reflexivity.
Qed.

(** X13. When the box validator rewrites a file, the tree it writes is
    the tree it read with some children of the root taken out: exactly
    the [object] children whose box is judged invalid (or whose
    coordinates are not numbers).  Every other child stays, in the same
    order, and at least one child was taken out. *)
Theorem X13_validator_removes_exactly_the_invalid_objects (root root' : Element) :
  fix_invalid_bbox_advanced (Some root) = (true, Some root') ->
  exists w h : Z,
    declared_size root = Some (w, h) /\
    root' = Elem (tag root) (text root)
                 (List.filter (fun c => negb (removable w h c)) (children root)) /\
    exists c, In c (children root) /\ removable w h c = true.
Proof.
  intros Hrun.
  destruct (fix_returns_true root _ Hrun) as (w & h & marked & Hsize & Hobjs & Hall & Hr).
  exists w, h. split; [exact Hsize |].
  destruct marked as [| p marked]; [discriminate |]. cbn [length Nat.ltb Nat.leb] in Hr.
  injection Hr as ->.
  change (p ++ concat marked) with (concat (p :: marked)).
  rewrite (marked_children root w h _ Hobjs Hall). split; [reflexivity |].
  destruct (objects_to_remove_spec w h _ _ Hobjs) as [Hm _].
  destruct (proj1 (Hm p) ltac:(now left)) as (o & Hin & Ho).
  cbn [forallb] in Hall. apply andb_prop in Hall as [Hp _]. apply Nat.eqb_eq in Hp.
  destruct p as [| k [| ? ?]]; try discriminate.
  destruct root as [t x cs]. rewrite iter_at_unfold, in_app_iff in Hin.
  destruct Hin as [Hin | Hin].
  - destruct (String.eqb t "object"); [destruct Hin as [[=] | []] | destruct Hin].
  - apply iter_children_top in Hin. destruct Hin as (k' & _ & Hk' & Ht).
    exists o. split.
    + cbn [children]. apply list_elem_of_In. eapply list_elem_of_lookup_2. exact Hk'.
    + unfold removable. rewrite Ht, Ho. reflexivity.
Qed.

End ValidatorRun.

Section ValidatorTwice.
Context `{PyRuntime}.
Import Xml FixBBox Terms.

Lemma find_filter (name : string) (keep : Element -> bool) (t : string)
    (x : option string) (cs : list Element) :
  (forall c, keep c = false -> tag c <> name) ->
  find name (Elem t x (List.filter keep cs)) = find name (Elem t x cs).
Proof.
  intros Hk. induction cs as [| c cs IH]; [reflexivity |].
  cbn [List.filter]. rewrite (find_cons name t x c cs).
  destruct (keep c) eqn:Hc.
  - rewrite find_cons. now destruct (String.eqb (tag c) name).
  - rewrite IH. destruct (String.eqb_spec (tag c) name) as [Heq | _]; [| reflexivity].
    now destruct (Hk c Hc).
Qed.

Lemma inspect_object_bndbox (w h : Z) (o o' : Element) :
  find "bndbox" o' = find "bndbox" o -> inspect_object w h o' = inspect_object w h o.
Proof. intros Hb. unfold inspect_object. now rewrite Hb. Qed.

Lemma iter_children_member (name : string) (path : list nat) (cs : list Element) :
  forall (i k : nat) (c : Element) (x : list nat * Element),
    cs !! k = Some c ->
    In x (iter_at name (path ++ [(i + k)%nat]) c) ->
    In x (iter_children name path i cs).
Proof.
  induction cs as [| c0 cs IH]; intros i k c x Hk Hin; [discriminate |].
  cbn [iter_children]. rewrite in_app_iff. destruct k as [| k].
  - injection Hk as ->. left. now replace (i + 0)%nat with i in Hin by lia.
  - right. apply (IH (S i) k c x Hk).
    now replace (S i + k)%nat with (i + S k)%nat by lia.
Qed.

Lemma in_iter_at (name : string) (path : list nat) (e o : Element) :
  In o (iter name e) -> exists q, In (q, o) (iter_at name path e).
Proof.
  rewrite <- (iter_at_elements name e path), in_map_iff.
  intros ([q o'] & Ho & Hin). cbn [snd] in Ho. subst o'. eauto.
Qed.

(** In a run that returns [True], every object of a child that stays is
    a valid one, and so is the root when it is an object itself. *)
Lemma kept_objects_are_valid (root : Element) (w h : Z) (marked : list (list nat)) :
  objects_to_remove w h (iter_at "object" [] root) = inr marked ->
  forallb (fun p => (length p =? 1)%nat) marked = true ->
  (tag root = "object" -> inspect_object w h root = inr false) /\
  (forall c o, In c (children root) -> removable w h c = false ->
               In o (iter "object" c) -> inspect_object w h o = inr false).
Proof.
  intros Hobjs Hall. destruct (objects_to_remove_spec w h _ marked Hobjs) as [Hm Hb].
  assert (Hlen : forall p, In p marked -> length p = 1%nat).
  { intros p Hp. rewrite forallb_forall in Hall. now apply Nat.eqb_eq, Hall. }
  destruct root as [t x cs]. cbn [tag children]. split.
  - intros ->.
    assert (Hin : In ([], Elem "object" x cs) (iter_at "object" [] (Elem "object" x cs)))
      by (rewrite iter_at_unfold; now left).
    destruct (Hb _ _ Hin) as [[] Ho]; [| exact Ho].
    assert (Hp : In [] marked) by (apply Hm; eauto).
    apply Hlen in Hp. discriminate.
  - intros c o Hc Hkeep Ho.
    apply list_elem_of_In, list_elem_of_lookup_1 in Hc. destruct Hc as [k Hk].
    destruct (in_iter_at "object" [k] c o Ho) as [q Hq].
    assert (Hin : In (q, o) (iter_at "object" [] (Elem t x cs))).
    { rewrite iter_at_unfold, in_app_iff. right.
      apply (iter_children_member "object" [] cs 0 k c (q, o) Hk). exact Hq. }
    destruct (Hb _ _ Hin) as [[] Hio]; [| exact Hio].
    assert (Hp : In q marked) by (apply Hm; eauto).
    apply Hlen in Hp.
    destruct (iter_at_positions "object" c [k] q o Hq) as [(-> & -> & Ht) | Hlt].
    + unfold removable in Hkeep. rewrite Ht, Hio in Hkeep. discriminate.
    + cbn [length] in Hlt. lia.
Qed.

(** X14. The box validator is idempotent: the file it has rewritten
    needs no further repair.  Run on its own output, it returns [True]
    and writes nothing. *)
Theorem X14_validator_is_idempotent (root root' : Element) :
  fix_invalid_bbox_advanced (Some root) = (true, Some root') ->
  fix_invalid_bbox_advanced (Some root') = (true, None).
Proof.
  intros Hrun.
  destruct (fix_returns_true root _ Hrun) as (w & h & marked & Hsize & Hobjs & Hall & Hr).
  destruct (kept_objects_are_valid root w h marked Hobjs Hall) as [Hroot Hkept].
  destruct marked as [| p0 marked0]; [discriminate |].
  cbn [length Nat.ltb Nat.leb] in Hr. injection Hr as ->.
  change (p0 ++ concat marked0) with (concat (p0 :: marked0)).
  rewrite (marked_children root w h _ Hobjs Hall).
  set (keep := fun c => negb (removable w h c)).
  assert (Hkeep : forall c name, keep c = false -> name <> "object" -> tag c <> name).
  { intros c name Hc Hne Ht. unfold keep, removable in Hc.
    apply negb_false_iff, andb_prop in Hc as [Hc _]. apply String.eqb_eq in Hc.
    congruence. }
  set (root' := Elem (tag root) (text root) (List.filter keep (children root))).
  assert (Hfind : forall name, name <> "object" -> find name root' = find name root).
  { intros name Hne. unfold root'. rewrite find_filter.
    - now destruct root.
    - intros c Hc. now apply Hkeep. }
  assert (Hsize' : declared_size root' = Some (w, h)).
  { unfold declared_size in *. now rewrite Hfind by discriminate. }
  rewrite (fix_with_size root' w h Hsize').
  rewrite objects_to_remove_none; [reflexivity |].
  intros p o Hin.
  assert (Ho : In o (iter "object" root')).
  { rewrite <- (iter_at_elements "object" root' []). apply in_map_iff.
    exists (p, o). split; [reflexivity | exact Hin]. }
  unfold root' in Ho. cbn [iter] in Ho. rewrite in_app_iff in Ho.
  destruct Ho as [Ho | Ho].
  - destruct (String.eqb_spec (tag root) "object") as [Ht | _]; [| destruct Ho].
    destruct Ho as [<- | []].
    rewrite (inspect_object_bndbox w h root); [now apply Hroot |].
    apply Hfind. discriminate.
  - apply in_flat_map in Ho. destruct Ho as (c & Hc & Ho).
    apply List.filter_In in Hc. destruct Hc as [Hc Hk].
    apply (Hkept c o Hc); [| exact Ho]. unfold keep in Hk. now apply negb_true_iff in Hk.
Qed.

(** X15. Only children of the root can be removed.  When an invalid
    object lies deeper in the document (in a child of a child of the
    root, at any depth below it), the removal raises, the run returns
    [False] and the file is not rewritten, whatever else the document
    holds. *)
Theorem X15_invalid_object_below_the_top_level_fails (root c d o : Element) (w h : Z) :
  declared_size root = Some (w, h) ->
  In c (children root) -> In d (children c) -> In o (iter "object" d) ->
  inspect_object w h o = inr true ->
  fix_invalid_bbox_advanced (Some root) = (false, None).
Proof.
  intros Hsize Hc Hd Ho Hbad. rewrite (fix_with_size root w h Hsize).
  apply list_elem_of_In, list_elem_of_lookup_1 in Hc. destruct Hc as [k Hk].
  apply list_elem_of_In, list_elem_of_lookup_1 in Hd. destruct Hd as [j Hj].
  destruct (in_iter_at "object" [k; j] d o Ho) as [q Hq].
  assert (Hlen : (2 <= length q)%nat).
  { destruct (iter_at_positions "object" d [k; j] q o Hq) as [(-> & _) | Hlt];
      cbn [length] in *; lia. }
  assert (Hin : In (q, o) (iter_at "object" [] root)).
  { destruct root as [t x cs]. cbn [children] in Hk.
    rewrite iter_at_unfold, in_app_iff. right.
    apply (iter_children_member "object" [] cs 0 k c (q, o) Hk).
    destruct c as [tc xc csc]. cbn [children] in Hj.
    rewrite iter_at_unfold, in_app_iff. right.
    apply (iter_children_member "object" [k] csc 0 j d (q, o) Hj). exact Hq. }
  destruct (objects_to_remove w h (iter_at "object" [] root)) as [e | marked] eqn:Hobjs;
    cbn [bind]; [reflexivity |].
  destruct (objects_to_remove_spec w h _ marked Hobjs) as [Hm _].
  assert (Hp : In q marked) by (apply Hm; eauto).
  unfold remove_all.
  destruct (forallb (fun p => (length p =? 1)%nat) marked) eqn:Hall; [| reflexivity].
  rewrite forallb_forall in Hall. specialize (Hall q Hp).
  apply Nat.eqb_eq in Hall. lia.
Qed.

(** X16. An empty coordinate and a coordinate that is not a number are
    not treated alike.  When the [xmin] element of an object has no text
    at all, the conversion raises [TypeError], which the loop does not
    handle: the run returns [False] and the file is not rewritten.  When
    its text is not a number, the conversion raises [ValueError], and the
    object is put on the list of objects to remove. *)
Theorem X16_empty_coordinate_fails_the_file (root o bbox e1 e2 e3 e4 : Element)
    (w h : Z) :
  declared_size root = Some (w, h) ->
  In o (iter "object" root) ->
  find "bndbox" o = Some bbox ->
  find "xmin" bbox = Some e1 -> find "ymin" bbox = Some e2 ->
  find "xmax" bbox = Some e3 -> find "ymax" bbox = Some e4 ->
  (text e1 = None -> fix_invalid_bbox_advanced (Some root) = (false, None)) /\
  (forall s, text e1 = Some s -> py_float s = None -> inspect_object w h o = inr true).
Proof.
  intros Hsize Ho Hb H1 H2 H3 H4. split.
  - intros Ht. rewrite (fix_with_size root w h Hsize).
    destruct (in_iter_at "object" [] root o Ho) as [q Hq].
    assert (Hio : inspect_object w h o = inl TypeError).
    { unfold inspect_object. rewrite Hb, H1, H2, H3, H4, Ht. reflexivity. }
    destruct (objects_to_remove_fails w h _ q o TypeError Hq Hio) as [e' ->].
    reflexivity.
  - intros s Ht Hs. unfold inspect_object. rewrite Hb, H1, H2, H3, H4, Ht.
    unfold float_of_text. rewrite Hs. reflexivity.
Qed.

End ValidatorTwice.

Section ValidatorDirectory.
Context `{PyRuntime}.
Import Xml FixBBox FixBBoxAll.

(** What the loop makes of one file of the directory [dir]. *)
Lemma fix_file_step (total : nat) (dir : gmap string (option Element)) (k : string) :
  fix_file (total, dir) k =
    (if endswith k ".xml" && fst (fix_invalid_bbox_advanced (default None (dir !! k)))
     then S total else total,
     if endswith k ".xml" then
       match snd (fix_invalid_bbox_advanced (default None (dir !! k))) with
       | Some root' => <[k := Some root']> dir
       | None => dir
       end
     else dir).
Proof.
  unfold fix_file. destruct (endswith k ".xml"); [| reflexivity].
  destruct (fix_invalid_bbox_advanced (default None (dir !! k))) as [[] written];
    reflexivity.
Qed.

Lemma fold_fix_file (listing : list string) :
  NoDup listing ->
  forall (total : nat) (dir : gmap string (option Element)),
    fst (fold_left fix_file listing (total, dir)) =
      (total + length (List.filter
                         (fun f => endswith f ".xml" &&
                                   fst (fix_invalid_bbox_advanced (default None (dir !! f))))
                         listing))%nat /\
    (forall f, f ∈ listing -> endswith f ".xml" = true ->
       snd (fold_left fix_file listing (total, dir)) !! f =
         match snd (fix_invalid_bbox_advanced (default None (dir !! f))) with
         | Some root' => Some (Some root')
         | None => dir !! f
         end) /\
    (forall f, f ∉ listing \/ endswith f ".xml" = false ->
       snd (fold_left fix_file listing (total, dir)) !! f = dir !! f).
Proof.
  induction listing as [| k rest IH]; intros Hnd total dir.
  - cbn [fold_left List.filter length fst snd]. split; [lia |]. split; [| auto].
    intros f Hin. now apply not_elem_of_nil in Hin.
  - apply NoDup_cons in Hnd as [Hk Hnd]. cbn [fold_left]. rewrite fix_file_step.
    set (total1 := if _ && _ then S total else total).
    set (dir1 := if endswith k ".xml" then _ else dir).
    assert (Hother : forall f, f <> k -> dir1 !! f = dir !! f).
    { intros f Hne. unfold dir1. destruct (endswith k ".xml"); [| reflexivity].
      destruct (snd (fix_invalid_bbox_advanced (default None (dir !! k))));
        [| reflexivity].
      now rewrite lookup_insert_ne. }
    destruct (IH Hnd total1 dir1) as (IH1 & IH2 & IH3).
    assert (Hrest : forall f, f ∈ rest -> dir1 !! f = dir !! f).
    { intros f Hf. apply Hother. intros ->. contradiction. }
    split; [| split].
    + rewrite IH1. cbn [List.filter].
      erewrite (List.filter_ext_in _
                  (fun f => endswith f ".xml" &&
                            fst (fix_invalid_bbox_advanced (default None (dir !! f))))).
      2: { intros f Hf. apply list_elem_of_In in Hf. now rewrite (Hrest f Hf). }
      unfold total1.
      destruct (endswith k ".xml" &&
                fst (fix_invalid_bbox_advanced (default None (dir !! k))));
        cbn [length]; lia.
    + intros f Hf Hx. apply elem_of_cons in Hf. destruct (decide (f = k)) as [-> | Hne].
      * rewrite IH3 by now left. unfold dir1. rewrite Hx.
        destruct (snd (fix_invalid_bbox_advanced (default None (dir !! k))));
          [apply lookup_insert_eq | reflexivity].
      * destruct Hf as [-> | Hf]; [contradiction |].
        rewrite (IH2 f Hf Hx), (Hrest f Hf). reflexivity.
    + intros f Hf. destruct (decide (f = k)) as [-> | Hne].
      * destruct Hf as [Hf | Hx]; [exfalso; apply Hf; now left |].
        rewrite IH3 by now left. unfold dir1. now rewrite Hx.
      * rewrite <- (Hother f Hne). apply IH3.
        destruct Hf as [Hf | Hx]; [| now right]. left. intros Hin. apply Hf. now right.
Qed.

(** X17. The number that [check_and_fix_all_voc_files] prints as the
    number of files repaired is the number of [.xml] files of the
    directory on which the validator returned [True], whether or not it
    changed them: a file with nothing to repair is counted too.  The
    files rewritten are those for which the validator produced a tree;
    every other entry of the directory is left as it was. *)
Theorem X17_total_counts_the_files_examined (listing : list string)
    (dir : gmap string (option Element)) :
  NoDup listing ->
  fst (check_and_fix_all_voc_files listing dir) =
    length (List.filter
              (fun f => endswith f ".xml" &&
                        fst (fix_invalid_bbox_advanced (default None (dir !! f))))
              listing) /\
  (forall f, f ∈ listing -> endswith f ".xml" = true ->
     snd (check_and_fix_all_voc_files listing dir) !! f =
       match snd (fix_invalid_bbox_advanced (default None (dir !! f))) with
       | Some root' => Some (Some root')
       | None => dir !! f
       end) /\
  (forall f, f ∉ listing \/ endswith f ".xml" = false ->
     snd (check_and_fix_all_voc_files listing dir) !! f = dir !! f) /\
  ((forall f, f ∈ listing -> endswith f ".xml" = true ->
      fix_invalid_bbox_advanced (default None (dir !! f)) = (true, None)) ->
   fst (check_and_fix_all_voc_files listing dir)
     = length (List.filter (fun f => endswith f ".xml") listing) /\
   snd (check_and_fix_all_voc_files listing dir) = dir).
Proof.
  intros Hnd. unfold check_and_fix_all_voc_files.
  destruct (fold_fix_file listing Hnd 0%nat dir) as (H1 & H2 & H3).
  split; [exact H1 |]. split; [exact H2 |]. split; [exact H3 |].
  intros Hvalid. split.
  - rewrite H1. cbn [Nat.add]. f_equal. apply List.filter_ext_in.
    intros f Hf. apply list_elem_of_In in Hf.
    destruct (endswith f ".xml") eqn:Hx; [| reflexivity].
    now rewrite (Hvalid f Hf Hx).
  - apply map_eq. intros f.
    destruct (decide (f ∈ listing)) as [Hf | Hf]; [| now apply H3; left].
    destruct (endswith f ".xml") eqn:Hx; [| now apply H3; right].
    rewrite (H2 f Hf Hx), (Hvalid f Hf Hx). reflexivity.
Qed.

End ValidatorDirectory.

(** ** The label fixer: an exchange that undoes itself *)

Section Relabel.
Import Xml FixLabels Terms.


Lemma swap_label_rename (obj : Element) : swap_label obj = inr (rename obj).
Proof.
  unfold swap_label, rename. destruct (find "name" obj) as [n |]; [| reflexivity].
  destruct (text n) as [s |]; [| reflexivity]. unfold swap_name.
  destruct (String.eqb s "无螺丝") eqn:H1; [reflexivity |].
  destruct (String.eqb s "电路板") eqn:H2; reflexivity.
Qed.
















End Relabel.

Section RelabelAndConvert.
Context `{PyRuntime}.
Import Xml Spec FixLabels Terms.

Lemma rename_find_other (obj : Element) (other : string) :
  other <> "name" -> find other (rename obj) = find other obj.
Proof.
  intros Hne. unfold rename. destruct (find "name" obj) as [n |]; [| reflexivity].
  destruct (text n) as [s |]; [| reflexivity].
  destruct (String.eqb s "无螺丝" || String.eqb s "电路板"); [| reflexivity].
  destruct obj as [t x cs]. cbn [tag text children].
  apply find_update_first_other; [congruence | intros c <-; reflexivity].
Qed.

Lemma rename_find_name (obj n : Element) (s : string) :
  find "name" obj = Some n -> text n = Some s ->
  exists n', find "name" (rename obj) = Some n' /\ text n' = Some (swap_name s).
Proof.
  intros Hn Hs. unfold rename. rewrite Hn, Hs.
  destruct (String.eqb s "无螺丝" || String.eqb s "电路板") eqn:Hsw.
  - destruct obj as [t x cs]. cbn [tag text children].
    rewrite find_update_first by (intros c <-; reflexivity). rewrite Hn.
    eexists. split; reflexivity.
  - exists n. split; [exact Hn |]. rewrite Hs. f_equal. unfold swap_name.
    apply orb_false_elim in Hsw as [-> ->]. reflexivity.
Qed.

Lemma lookup_class_swap (cls_name : string) (c : Z) :
  Convert.lookup_class Convert.CLASS_MAPPING (Some cls_name) = Some c ->
  Convert.lookup_class Convert.CLASS_MAPPING (Some (swap_name cls_name))
    = Some (swap_id c).
Proof.
  unfold Convert.CLASS_MAPPING, swap_name. cbn [Convert.lookup_class].
  destruct (String.eqb_spec "控制适应标识" cls_name) as [<- | H0];
    [intros [= <-]; reflexivity |].
  destruct (String.eqb_spec "无螺丝" cls_name) as [<- | H1];
    [intros [= <-]; reflexivity |].
  destruct (String.eqb_spec "有螺丝" cls_name) as [<- | H2];
    [intros [= <-]; reflexivity |].
  destruct (String.eqb_spec "电路板" cls_name) as [<- | H3];
    [intros [= <-]; reflexivity | discriminate].
Qed.

(** X19. The label fix changes the class of an object and nothing else.
    An object that carries a class name of the table and a numeric box
    carries, after the fix, the exchanged name and the same box; the
    converter then writes for it the line it wrote before with the class
    ids 1 and 3 exchanged (0 and 2 stay as they are). *)
Theorem X19_label_fix_exchanges_class_ids_and_keeps_boxes (obj : Element)
    (cls_name : string) (c : Z) (xmin ymin xmax ymax : spec_float)
    (file_base : string) (w h : Z) :
  source_record obj cls_name xmin ymin xmax ymax ->
  Convert.lookup_class Convert.CLASS_MAPPING (Some cls_name) = Some c ->
  exists obj' : Element,
    swap_label obj = inr obj' /\
    source_record obj' (swap_name cls_name) xmin ymin xmax ymax /\
    Convert.lookup_class Convert.CLASS_MAPPING (Some (swap_name cls_name))
      = Some (swap_id c) /\
    Convert.convert_object file_base w h obj =
      (line <-- Convert.yolo_line c xmin ymin xmax ymax w h ;;
       ret (Convert.Written line)) /\
    Convert.convert_object file_base w h obj' =
      (line <-- Convert.yolo_line (swap_id c) xmin ymin xmax ymax w h ;;
       ret (Convert.Written line)).
Proof.
  intros Hrec Hcls. exists (rename obj).
  assert (Hrec' : source_record (rename obj) (swap_name cls_name) xmin ymin xmax ymax).
  { destruct Hrec as [(n & Hn & Ht) (bbox & Hb & Hbox)]. split.
    - apply (rename_find_name obj n cls_name Hn Ht).
    - exists bbox. split; [| exact Hbox].
      rewrite rename_find_other by discriminate. exact Hb. }
  pose proof (lookup_class_swap cls_name c Hcls) as Hcls'.
  split; [apply swap_label_rename |]. split; [exact Hrec' |]. split; [exact Hcls' |].
  split.
  - exact (convert_object_record file_base obj cls_name c xmin ymin xmax ymax w h
             Hrec Hcls).
  - exact (convert_object_record file_base (rename obj) (swap_name cls_name) (swap_id c)
             xmin ymin xmax ymax w h Hrec' Hcls').
Qed.

End RelabelAndConvert.

Section RelabelDirectory.
Context `{PyRuntime}.
Import Xml FixLabels FixLabelsAll Terms.




End RelabelDirectory.

Section RelabelCounters.
Context `{PyRuntime}.
Import Xml FixLabels FixLabelsAll Terms.

Variable voc_annotations : gmap string (option Element).

Lemma fold_fix_to_output (listing : list string) :
  forall (s : summary) (output : gmap string (option Element)),
    let run := fold_left (fix_file voc_annotations false) listing (s, output) in
    let xml := List.filter (fun f => endswith f ".xml") listing in
    processed_count (fst run)
      = (processed_count s + length (List.filter (parses voc_annotations) xml))%nat /\
    error_count (fst run)
      = (error_count s + length (List.filter (fun f => negb (parses voc_annotations f)) xml))%nat /\
    fixed_count (fst run) = (fixed_count s + sum_list (map (swaps voc_annotations) xml))%nat /\
    (forall f root,
        f ∈ listing -> endswith f ".xml" = true ->
        voc_annotations !! f = Some (Some root) ->
        snd run !! f = Some (fix_voc_file f (Some root))) /\
    (forall f,
        f ∉ listing \/ endswith f ".xml" = false \/ parses voc_annotations f = false ->
        snd run !! f = output !! f).
Proof.
  induction listing as [| k rest IH]; intros s output.
  - cbn [fold_left List.filter length map sum_list fst snd].
    repeat split; try lia; auto.
    intros f root Hin. now apply not_elem_of_nil in Hin.
  - cbn [fold_left List.filter].
    destruct (endswith k ".xml") eqn:Hx.
    + unfold fix_file at 2 4 6 8 10. rewrite Hx.
      destruct (default None (voc_annotations !! k)) as [root |] eqn:Hk.
      * match goal with
        | |- context [fold_left _ rest (?s1, ?o1)] =>
            destruct (IH s1 o1) as (I1 & I2 & I3 & I4 & I5)
        end.
        cbn [processed_count error_count fixed_count] in I1, I2, I3.
        assert (Hpk : parses voc_annotations k = true) by (unfold parses; now rewrite Hk).
        assert (Hsk : swaps voc_annotations k = length (List.filter relabelled (iter "object" root)))
          by (unfold swaps; now rewrite Hk).
        cbn zeta. cbn [List.filter map sum_list]. rewrite Hpk, Hsk. cbn [negb length].
        split; [rewrite I1; first [reflexivity | rewrite Nat.add_succ_r; reflexivity | rewrite Nat.add_assoc; reflexivity] |].
        split; [rewrite I2; first [reflexivity | rewrite Nat.add_succ_r; reflexivity | rewrite Nat.add_assoc; reflexivity] |].
        split; [rewrite I3; first [reflexivity | rewrite Nat.add_succ_r; reflexivity | rewrite Nat.add_assoc; reflexivity] |]. split.
        -- intros f root' Hin Hfx Hf.
           destruct (decide (f ∈ rest)) as [Hr | Hr]; [now apply I4 |].
           apply elem_of_cons in Hin as [-> | Hin]; [| contradiction].
           rewrite I5 by now left. rewrite lookup_insert_eq.
           rewrite Hf in Hk. cbn [default] in Hk. now injection Hk as <-.
        -- intros f Hf.
           assert (Hne : f <> k).
           { intros ->. destruct Hf as [Hf | [Hf | Hf]].
             - apply Hf. now left.
             - congruence.
             - unfold parses in Hf. rewrite Hk in Hf. discriminate. }
           rewrite I5.
           ++ now rewrite lookup_insert_ne.
           ++ destruct Hf as [Hf | Hf]; [| now right].
              left. intros Hin. apply Hf. now right.
      * match goal with
        | |- context [fold_left _ rest (?s1, ?o1)] =>
            destruct (IH s1 o1) as (I1 & I2 & I3 & I4 & I5)
        end.
        cbn [processed_count error_count fixed_count] in I1, I2, I3.
        assert (Hpk : parses voc_annotations k = false) by (unfold parses; now rewrite Hk).
        assert (Hsk : swaps voc_annotations k = 0%nat) by (unfold swaps; now rewrite Hk).
        cbn zeta. cbn [List.filter map sum_list]. rewrite Hpk, Hsk. cbn [negb length].
        split; [rewrite I1; first [reflexivity | rewrite Nat.add_succ_r; reflexivity | rewrite Nat.add_assoc; reflexivity] |].
        split; [rewrite I2; first [reflexivity | rewrite Nat.add_succ_r; reflexivity | rewrite Nat.add_assoc; reflexivity] |].
        split; [rewrite I3; first [reflexivity | rewrite Nat.add_succ_r; reflexivity | rewrite Nat.add_assoc; reflexivity] |]. split.
        -- intros f root' Hin Hfx Hf.
           destruct (decide (f ∈ rest)) as [Hr | Hr]; [now apply I4 |].
           apply elem_of_cons in Hin as [-> | Hin]; [| contradiction].
           rewrite Hf in Hk. discriminate.
        -- intros f Hf. apply I5.
           destruct (decide (f = k)) as [-> | Hne].
           ++ right. right. unfold parses. now rewrite Hk.
           ++ destruct Hf as [Hf | Hf]; [| now right].
              left. intros Hin. apply Hf. now right.
    + unfold fix_file at 2 4 6 8 10. rewrite Hx.
      destruct (IH s output) as (I1 & I2 & I3 & I4 & I5).
      cbn zeta. split; [exact I1 |]. split; [exact I2 |]. split; [exact I3 |]. split.
      * intros f root Hin Hfx Hf. apply I4; try assumption.
        apply elem_of_cons in Hin as [-> | Hin]; [congruence | assumption].
      * intros f Hf. apply I5.
        destruct (decide (f = k)) as [-> | Hne]; [now right; left |].
        destruct Hf as [Hf | Hf]; [| now right].
        left. intros Hin. apply Hf. now right.
Qed.

(** X20. The label fixer writing to a separate output directory.  Every
    [.xml] file of the source directory is either processed or counted
    as an error, and the two counters add up to the number of [.xml]
    files; the counter of corrected labels is the number of objects named
    by one of the two exchanged classes in the files that parse.  A file
    that parses is written to the output directory; a file that does not
    parse is not copied there: the output directory keeps whatever it
    held under that name, and the same goes for every name that is not
    an [.xml] file of the source directory. *)
Theorem X20_label_fix_counts_and_copies_what_parses (listing : list string)
    (output : gmap string (option Element)) :
  let run := fix_voc_labels listing voc_annotations (Some output) in
  let xml := List.filter (fun f => endswith f ".xml") listing in
  (processed_count (fst run) + error_count (fst run))%nat = length xml /\
  processed_count (fst run) = length (List.filter (parses voc_annotations) xml) /\
  fixed_count (fst run) = sum_list (map (swaps voc_annotations) xml) /\
  (forall f root,
      f ∈ listing -> endswith f ".xml" = true ->
      voc_annotations !! f = Some (Some root) ->
      snd run !! f = Some (fix_voc_file f (Some root))) /\
  (forall f,
      f ∉ listing \/ endswith f ".xml" = false \/ parses voc_annotations f = false ->
      snd run !! f = output !! f).
Proof.
  intros run xml. subst run xml. unfold fix_voc_labels.
  destruct (fold_fix_to_output listing no_summary output) as (I1 & I2 & I3 & I4 & I5).
  cbn [no_summary processed_count error_count fixed_count Nat.add] in I1, I2, I3.
  split; [| split; [exact I1 | split; [exact I3 | split; [exact I4 | exact I5]]]].
  rewrite I1, I2.
  generalize (List.filter (fun f => endswith f ".xml") listing). intros l.
  induction l as [| f l IHl]; [reflexivity |].
  cbn [List.filter]. destruct (parses voc_annotations f); cbn [negb length]; lia.
Qed.

End RelabelCounters.

(** ** Prediction on a directory *)

Section Batch.
Context `{PyRuntime}.
Import Infer InferBatch Terms.

Variable Image : Type.
Variable file_exists : string -> bool.
Variable predict : string -> option Result.
Variable visualize : string -> Result -> status -> option Image.

Lemma predict_single_events (image_path : string) (output_dir : option string)
    (save_result : bool) :
  List.filter batch_failure
    (snd (predict_single Image file_exists predict visualize image_path output_dir
            save_result)) = [].
Proof.
  unfold predict_single. destruct (negb (file_exists image_path)); [reflexivity |].
  destruct (predict image_path) as [result |]; [| reflexivity].
  destruct (visualize image_path result _); [| reflexivity].
  cbn [snd]. destruct output_dir as [d |]; [| reflexivity].
  now destruct (saves save_result (Some d)).
Qed.

(** One image: it is counted under its status, or one message about it
    is printed. *)
Lemma predict_one_accounts (output_dir : string) (n a : nat) (log : list event)
    (img_file : string) :
  exists evs,
    predict_one Image file_exists predict visualize output_dir (n, a, log) img_file =
      ((if has_status file_exists predict visualize output_dir normal img_file
        then S n else n),
       (if has_status file_exists predict visualize output_dir abnormal img_file
        then S a else a),
       log ++ evs) /\
    length (List.filter batch_failure evs) =
      (if has_status file_exists predict visualize output_dir normal img_file ||
          has_status file_exists predict visualize output_dir abnormal img_file
       then 0 else 1)%nat /\
    (has_status file_exists predict visualize output_dir unknown img_file = true ->
     In (PrintFailure img_file (KeyError unknown)) evs).
Proof.
  unfold predict_one, has_status, status_of.
  pose proof (predict_single_events img_file (Some output_dir) true) as Hev.
  destruct (predict_single Image file_exists predict visualize img_file
              (Some output_dir) true) as [[e | [[result img] st]] evs];
    cbn [fst snd] in *.
  - exists (evs ++ [PrintFailure img_file e]). split; [reflexivity |].
    rewrite List.filter_app, Hev. split; [reflexivity | discriminate].
  - destruct st.
    + exists (evs ++ [PrintProcessed img_file normal]). split; [reflexivity |].
      rewrite List.filter_app, Hev. split; [reflexivity | discriminate].
    + exists (evs ++ [PrintProcessed img_file abnormal]). split; [reflexivity |].
      rewrite List.filter_app, Hev. split; [reflexivity | discriminate].
    + exists (evs ++ [PrintFailure img_file (KeyError unknown)]). split; [reflexivity |].
      rewrite List.filter_app, Hev. split; [reflexivity |].
      intros _. apply in_app_iff. right. now left.
Qed.

Lemma predict_all_accounts (output_dir : string) (image_files : list string) :
  forall (n a : nat) (log : list event),
    exists evs,
      fold_left (predict_one Image file_exists predict visualize output_dir)
                image_files (n, a, log) =
        ((n + length (List.filter
                        (has_status file_exists predict visualize output_dir normal)
                        image_files))%nat,
         (a + length (List.filter
                        (has_status file_exists predict visualize output_dir abnormal)
                        image_files))%nat,
         log ++ evs) /\
      (length (List.filter (has_status file_exists predict visualize output_dir normal)
                           image_files) +
       length (List.filter (has_status file_exists predict visualize output_dir abnormal)
                           image_files) +
       length (List.filter batch_failure evs))%nat = length image_files /\
      (forall img_file,
          In img_file image_files ->
          has_status file_exists predict visualize output_dir unknown img_file = true ->
          In (PrintFailure img_file (KeyError unknown)) evs).
Proof.
  induction image_files as [| f rest IH]; intros n a log.
  - exists []. cbn [fold_left List.filter length]. rewrite app_nil_r, !Nat.add_0_r.
    repeat split. intros img_file [].
  - cbn [fold_left].
    destruct (predict_one_accounts output_dir n a log f) as (evs1 & -> & Hf1 & Hu1).
    match goal with
    | |- context [fold_left _ rest (?n1, ?a1, ?l1)] =>
        destruct (IH n1 a1 l1) as (evs2 & -> & Hsum & Hu2)
    end.
    exists (evs1 ++ evs2). rewrite <- app_assoc. cbn [List.filter].
    assert (Hexcl : has_status file_exists predict visualize output_dir normal f = true ->
                    has_status file_exists predict visualize output_dir abnormal f = false).
    { unfold has_status. now destruct (status_of _ _ _ _ f) as [[] |]. }
    split; [| split].
    + destruct (has_status _ _ _ _ normal f), (has_status _ _ _ _ abnormal f);
        cbn [length]; rewrite ?Nat.add_succ_r; reflexivity.
    + rewrite List.filter_app, length_app.
      destruct (has_status _ _ _ _ normal f) eqn:Hn.
      * rewrite (Hexcl eq_refl) in *. cbn [orb length] in *. lia.
      * destruct (has_status _ _ _ _ abnormal f); cbn [orb length] in *; lia.
    + intros img_file [<- | Hin] Hu; apply in_app_iff; [left; now apply Hu1 |].
      right. now apply Hu2.
Qed.

Lemma glob_suffix_spec (listing : list string) (suffix f : string) :
  In f (glob_suffix listing suffix) <->
  In f listing /\ endswith f suffix = true /\ String.prefix "." f = false.
Proof.
  unfold glob_suffix. rewrite List.filter_In, andb_true_iff, negb_true_iff. tauto.
Qed.

(** X21. [predict_batch] on a directory.  The images it processes are
    the entries whose name ends, as written, in [.jpg], [.png] or
    [.jpeg], hidden files left out: an entry such as [A.JPG] is not
    processed at all.  When there is none, the function returns [None]
    and not a table of counts.  Otherwise every image is accounted for
    exactly once: it is counted as normal, or counted as abnormal, or one
    failure message about it is printed.  An image whose result has no
    [boxes] is analysed as ['unknown'], a key the table of counts does
    not hold: it is counted under neither status and reported as a
    failure. *)
Theorem X21_batch_counts_every_image_once (listing : list string) (output_dir : string) :
  output_dir <> "" ->
  (forall f, In f (glob_images listing) <->
             In f listing /\ String.prefix "." f = false /\
             (endswith f ".jpg" = true \/ endswith f ".png" = true \/
              endswith f ".jpeg" = true)) /\
  (glob_images listing = [] ->
   predict_batch Image file_exists predict visualize listing output_dir
     = inr {| status_count := None; console := [PrintNoImages] |}) /\
  (glob_images listing <> [] ->
   exists (normal_count abnormal_count : nat) (log : list event),
     predict_batch Image file_exists predict visualize listing output_dir
       = inr {| status_count := Some (normal_count, abnormal_count);
                console := log ++ [PrintBatchDone normal_count abnormal_count] |} /\
     normal_count =
       length (List.filter (has_status file_exists predict visualize output_dir normal)
                           (glob_images listing)) /\
     abnormal_count =
       length (List.filter (has_status file_exists predict visualize output_dir abnormal)
                           (glob_images listing)) /\
     (normal_count + abnormal_count + length (List.filter batch_failure log))%nat
       = length (glob_images listing) /\
     (forall img_file,
         In img_file (glob_images listing) ->
         has_status file_exists predict visualize output_dir unknown img_file = true ->
         In (PrintFailure img_file (KeyError unknown)) log)).
Proof.
  intros Hout. split; [| split].
  - intros f. unfold glob_images. rewrite !in_app_iff, !glob_suffix_spec. tauto.
  - intros Hnone. unfold predict_batch. now rewrite Hnone.
  - intros Hsome. unfold predict_batch.
    destruct (glob_images listing) as [| f0 rest] eqn:Hfiles; [contradiction |].
    destruct (String.eqb_spec output_dir ""); [contradiction |].
    destruct (predict_all_accounts output_dir (f0 :: rest) 0%nat 0%nat [])
      as (evs & -> & Hsum & Hu).
    cbn [Nat.add app]. eexists _, _, evs. split; [reflexivity |].
    split; [reflexivity |]. split; [reflexivity |]. split; [exact Hsum | exact Hu].
Qed.

End Batch.

(** ** The numbers of a label line, as text *)

Section UnitDecimals.
Import Spec Convert Terms.

Lemma digits2_pos_upper (p : positive) : Zpos p < 2 ^ Zpos (digits2_pos p).
Proof.
  induction p as [p IH | p IH |]; cbn [digits2_pos].
  - rewrite Pos2Z.inj_succ, Z.pow_succ_r by lia. lia.
  - rewrite Pos2Z.inj_succ, Z.pow_succ_r by lia. lia.
  - reflexivity.
Qed.

(** A double below one: its magnitude [m * 2^e] has [e < 0] and
    [m < 2^(-e)]. *)
Lemma valid_below_one (m : positive) (e : Z) :
  bounded PyFloat.prec PyFloat.emax m e = true ->
  SFltb (S754_finite false m e) PyFloat.one = true ->
  e < 0 /\ Zpos m < 2 ^ (- e).
Proof.
  unfold bounded, canonical_mantissa, fexp, emin, PyFloat.prec, PyFloat.emax.
  intros Hb Hlt. apply andb_prop in Hb as [Hc _]. apply Z.eqb_eq in Hc.
  pose proof (digits2_pos_upper m) as Hd.
  assert (Hd53 : Zpos (digits2_pos m) <= 53) by lia.
  assert (Hm : Zpos m < 2 ^ 53).
  { eapply Z.lt_le_trans; [exact Hd |]. apply Z.pow_le_mono_r; lia. }
  unfold SFltb, PyFloat.one in Hlt. cbn [SFcompare] in Hlt.
  destruct (Z.compare_spec e (-52)) as [He | He | He]; [| | discriminate].
  - subst e. split; [lia |].
    destruct (Pos.compare_cont Eq m 4503599627370496) eqn:Hcmp; try discriminate.
    assert (Hpow : 2 ^ (- -52) = 4503599627370496) by reflexivity.
    rewrite Hpow. exact Hcmp.
  - split; [lia |]. eapply Z.lt_le_trans; [exact Hm |].
    apply Z.pow_le_mono_r; lia.
Qed.

Lemma scaled_micro_below_one (m : positive) (e : Z) :
  e < 0 -> Zpos m < 2 ^ (- e) -> 0 <= PyFloat.scaled_micro m e <= 1000000.
Proof.
  intros He Hm. split; [apply scaled_micro_nonneg |].
  unfold PyFloat.scaled_micro. destruct (0 <=? e) eqn:Hle; [apply Z.leb_le in Hle; lia |].
  unfold PyFloat.round_half_even.
  set (D := 2 ^ (- e)) in *. assert (HD : 0 < D) by (apply Z.pow_pos_nonneg; lia).
  assert (Hq : Zpos m * 1000000 / D < 1000000).
  { apply Z.div_lt_upper_bound; [exact HD |]. nia. }
  destruct (2 * (Zpos m * 1000000 mod D) ?= D); [destruct (Z.even _) | |]; lia.
Qed.

Lemma fixed6_unit (micro : Z) :
  0 <= micro <= 1000000 -> unit_decimal (PyFloat.fixed6 false micro).
Proof.
  intros Hm. destruct (Z.eq_dec micro 1000000) as [-> | Hne].
  - left. vm_compute. reflexivity.
  - right. exists (PyFloat.six_digits micro).
    destruct (six_digits_spec micro) as [Hd Hl]. split; [| split; assumption].
    unfold PyFloat.fixed6. rewrite Z.div_small by lia. reflexivity.
Qed.

(** Every number of a label line is written as a decimal between 0
    and 1: the text printed for a clamped double is [1.000000], or [0.]
    followed by exactly six digits, whatever the quotient that was
    clamped (a finite double, an infinity or a NaN). *)
Lemma clamp01_unit_decimal (v : spec_float) :
  valid_binary PyFloat.prec PyFloat.emax v = true ->
  unit_decimal (PyFloat.format_6f (clamp01 v)).
Proof.
  intros Hv.
  destruct (clamp01_cases v) as [-> | [-> | (-> & H0 & H1)]].
  - apply (fixed6_unit 0). lia.
  - left. vm_compute. reflexivity.
  - destruct v as [s | [] | | [] m e];
      try (unfold SFltb, PyFloat.zero, PyFloat.one in H0, H1;
           cbn [SFcompare] in H0, H1; discriminate).
    cbn [PyFloat.format_6f]. apply fixed6_unit.
    cbn [valid_binary] in Hv.
    destruct (valid_below_one m e Hv H1) as [He Hm].
    now apply scaled_micro_below_one.
Qed.

End UnitDecimals.

(** ** The further statements on concrete data *)

Section WriterFailures.
Import Convert.

Lemma X3_exception_leaves_partial_label_witness :
  labels (@process_file AsciiRuntime.runtime Samples.broken_source Samples.s2_image
            Examples.fresh_output "s2") !! ("s2" +:+ ".txt")
    = Some ["1 0.300000 0.300000 0.400000 0.400000" +:+ newline] /\
  images (@process_file AsciiRuntime.runtime Samples.broken_source Samples.s2_image
            Examples.fresh_output "s2") = images Examples.fresh_output /\
  processed_count (@process_file AsciiRuntime.runtime Samples.broken_source
                     Samples.s2_image Examples.fresh_output "s2")
    = processed_count Examples.fresh_output /\
  log (@process_file AsciiRuntime.runtime Samples.broken_source Samples.s2_image
         Examples.fresh_output "s2")
    = log Examples.fresh_output ++ [] ++ [ErrorProcessing "s2" AttributeError].
Proof.
  refine (@X3_exception_leaves_partial_label AsciiRuntime.runtime Samples.broken_source
            Samples.s2_image Examples.fresh_output "s2" "s2.jpg"
            Samples.broken_annotation 100 100 [Examples.missing_fastener]
            [Samples.fastener] Samples.nameless
            ["1 0.300000 0.300000 0.400000 0.400000" +:+ newline] [] AttributeError
            _ _ _ _ _); vm_compute; reflexivity.
Defined.


End WriterFailures.

Section SplitOnSamples.
Import Split.

Lemma X7_split_sizes_do_not_depend_on_the_generator_witness :
  exists out1 out2 : outcome,
    @Examples.split_four ReversedIndices.runtime Examples.generator_1 = inr out1 /\
    @Examples.split_four ReversedIndices.runtime Examples.generator_2 = inr out2 /\
    length (train_files out2) = length (train_files out1) /\
    length (val_files out2) = length (val_files out1) /\
    length (test_files out2) = length (test_files out1).
Proof.
  destruct (@Examples.split_four ReversedIndices.runtime Examples.generator_1)
    as [e | out1] eqn:Hrun; [vm_compute in Hrun; discriminate Hrun |].
  destruct (@X7_split_sizes_do_not_depend_on_the_generator AsciiRuntime.runtime
              ReversedIndices.runtime Examples.four_images Examples.four_image_files
              Examples.three_label_files Examples.empty_split Examples.empty_split
              Examples.empty_split Examples.ratio_070 Examples.ratio_015
              Examples.ratio_015 Examples.generator_1 Examples.generator_2 out1 Hrun)
    as (out2 & Hrun2 & Ht & Hv & Hte & _).
  exists out1, out2. repeat split; assumption.
Defined.

Lemma X8_image_with_other_extension_is_assigned_but_not_copied_witness :
  exists out : outcome,
    @Samples.split_mixed ReversedIndices.runtime Examples.generator_1 = inr out /\
    (In "x" (train_files out) \/ In "x" (val_files out) \/ In "x" (test_files out)) /\
    images (train out) !! "x.jpg" = None /\
    images (val out) !! "x.jpg" = None /\
    images (test out) !! "x.jpg" = None.
Proof.
  destruct (@Samples.split_mixed ReversedIndices.runtime Examples.generator_1)
    as [e | out] eqn:Hrun; [vm_compute in Hrun; discriminate Hrun |].
  exists out. split; [reflexivity |].
  destruct (@X8_image_with_other_extension_is_assigned_but_not_copied
              AsciiRuntime.runtime ReversedIndices.runtime Samples.mixed_images
              Samples.mixed_image_files Examples.three_label_files
              Examples.empty_split Examples.empty_split Examples.empty_split
              Examples.ratio_070 Examples.ratio_015 Examples.ratio_015
              Examples.generator_1 "x.Jpg" out Hrun)
    as (Hin & H1 & H2 & H3 & _).
  - right. right. right. now left.
  - vm_compute. reflexivity.
  - intros ext Hext. repeat (destruct Hext as [<- | Hext]; [vm_compute; reflexivity |]).
    destruct Hext.
  - repeat split; assumption.
Defined.

Lemma X9_console_lists_the_keys_without_label_witness :
  exists out : outcome,
    @Examples.split_four ReversedIndices.runtime Examples.generator_1 = inr out /\
    log out =
      [ PrintTotal 4;
        PrintRatios (PyFloat.mul Examples.ratio_070 (PyFloat.of_Z 100))
                    (PyFloat.mul Examples.ratio_015 (PyFloat.of_Z 100))
                    (PyFloat.mul Examples.ratio_015 (PyFloat.of_Z 100));
        PrintSizes (length (train_files out)) (length (val_files out))
                   (length (test_files out)) ] ++
      Terms.missing_label_warnings Examples.three_label_files
        (train_files out ++ val_files out ++ test_files out) ++
      [PrintDone].
Proof.
  destruct (@Examples.split_four ReversedIndices.runtime Examples.generator_1)
    as [e | out] eqn:Hrun; [vm_compute in Hrun; discriminate Hrun |].
  exists out. split; [reflexivity |].
  exact (proj1 (@X9_console_lists_the_keys_without_label AsciiRuntime.runtime
                  ReversedIndices.runtime Examples.four_images
                  Examples.four_image_files Examples.three_label_files
                  Examples.empty_split Examples.empty_split Examples.empty_split
                  Examples.ratio_070 Examples.ratio_015 Examples.ratio_015
                  Examples.generator_1 out Hrun)).
Defined.

Lemma X10_zero_test_ratio_always_raises_witness :
  exists e : exn,
    @split_yolo_dataset AsciiRuntime.runtime ReversedIndices.runtime
      Examples.four_images Examples.four_image_files Examples.three_label_files
      Examples.empty_split Examples.empty_split Examples.empty_split
      Examples.generator_1 Samples.ratio_080 Samples.ratio_020 PyFloat.zero = inl e.
Proof.
  apply (@X10_zero_test_ratio_always_raises AsciiRuntime.runtime ReversedIndices.runtime).
  reflexivity.
Defined.

End SplitOnSamples.

Section CheckerOnSamples.
Import CheckDataset.

Lemma X11_dataset_without_samples_passes_witness :
  @check_yolo_dataset AsciiRuntime.runtime (Some Samples.notes) (Some Samples.no_labels)
    = (true, [ PrintHeader; PrintCounts 0 0; PrintValidPairs 0; PrintAuditHeader;
               PrintClassHeader; PrintBoxesHeader; PrintSummaryHeader; PrintPassed ]) /\
  fst (@main AsciiRuntime.runtime (Some Samples.notes) (Some Samples.no_labels)) = 0.
Proof.
  apply (@X11_dataset_without_samples_passes AsciiRuntime.runtime).
  - intros f Hf. unfold Samples.notes in Hf.
    apply elem_of_list_to_set, list_elem_of_In in Hf.
    destruct Hf as [<- | [<- | []]]; vm_compute; reflexivity.
  - intros f Hf. apply elem_of_dom in Hf. unfold Samples.no_labels in Hf.
    destruct (decide (f = "classes.names")) as [-> | Hne]; [vm_compute; reflexivity |].
    cbn [list_to_map foldr] in Hf.
    rewrite lookup_insert_ne, lookup_empty in Hf by (intros Heq; now apply Hne).
    destruct Hf as [? Hf]. discriminate.
Defined.

End CheckerOnSamples.

Section ValidatorOnSamples.
Import Xml FixBBox.

Lemma X13_validator_removes_exactly_the_invalid_objects_witness :
  exists w h : Z,
    @Terms.declared_size AsciiRuntime.runtime Samples.one_invalid = Some (w, h) /\
    Samples.repaired =
      Elem (tag Samples.one_invalid) (text Samples.one_invalid)
           (List.filter (fun c => negb (@Terms.removable AsciiRuntime.runtime w h c))
                        (children Samples.one_invalid)) /\
    exists c, In c (children Samples.one_invalid) /\
              @Terms.removable AsciiRuntime.runtime w h c = true.
Proof.
  apply (@X13_validator_removes_exactly_the_invalid_objects AsciiRuntime.runtime).
  vm_compute. reflexivity.
Defined.

Lemma X14_validator_is_idempotent_witness :
  @fix_invalid_bbox_advanced AsciiRuntime.runtime (Some Samples.repaired) = (true, None).
Proof.
  apply (@X14_validator_is_idempotent AsciiRuntime.runtime Samples.one_invalid).
  vm_compute. reflexivity.
Defined.

Lemma X15_invalid_object_below_the_top_level_fails_witness :
  @fix_invalid_bbox_advanced AsciiRuntime.runtime (Some Samples.nested_invalid)
    = (false, None).
Proof.
  apply (@X15_invalid_object_below_the_top_level_fails AsciiRuntime.runtime
           Samples.nested_invalid (Elem "group" None [Examples.inverted_x])
           Examples.inverted_x Examples.inverted_x 100 100).
  - vm_compute. reflexivity.
  - right. right. now left.
  - now left.
  - now left.
  - vm_compute. reflexivity.
Defined.

Lemma X16_empty_coordinate_fails_the_file_witness :
  @fix_invalid_bbox_advanced AsciiRuntime.runtime (Some Samples.empty_coordinate)
    = (false, None).
Proof.
  refine (proj1 (@X16_empty_coordinate_fails_the_file AsciiRuntime.runtime
                   Samples.empty_coordinate Samples.no_xmin
                   (Elem "bndbox" None
                      [ Elem "xmin" None []; Examples.leaf "ymin" "20";
                        Examples.leaf "xmax" "60"; Examples.leaf "ymax" "60" ])
                   (Elem "xmin" None []) (Examples.leaf "ymin" "20")
                   (Examples.leaf "xmax" "60") (Examples.leaf "ymax" "60")
                   100 100 _ _ _ _ _ _ _) _).
  - vm_compute. reflexivity.
  - now left.
  - reflexivity.
  - reflexivity.
  - reflexivity.
  - reflexivity.
  - reflexivity.
  - reflexivity.
Defined.

Lemma X17_total_counts_the_files_examined_witness :
  @FixBBoxAll.check_and_fix_all_voc_files AsciiRuntime.runtime Samples.annotations
    Samples.annotation_files
  = (2%nat, <["bad.xml" := Some Samples.repaired]> Samples.annotation_files) /\
  fst (@FixBBoxAll.check_and_fix_all_voc_files AsciiRuntime.runtime Samples.annotations
         Samples.annotation_files) =
    length (List.filter
              (fun f => endswith f ".xml" &&
                        fst (@fix_invalid_bbox_advanced AsciiRuntime.runtime
                               (default None (Samples.annotation_files !! f))))
              Samples.annotations).
Proof.
  split; [vm_compute; reflexivity |].
  refine (proj1 (@X17_total_counts_the_files_examined AsciiRuntime.runtime
                   Samples.annotations Samples.annotation_files _)).
  refine (bool_decide_unpack _ _); vm_compute; exact I.
Defined.

End ValidatorOnSamples.

Section LabelFixOnSamples.
Import Xml FixLabels.

Lemma X19_label_fix_exchanges_class_ids_and_keeps_boxes_witness :
  exists obj' : Element,
    @swap_label Examples.missing_fastener = inr obj' /\
    @Convert.convert_object AsciiRuntime.runtime "sample" 100 100 obj'
      = inr (Convert.Written ("3 0.300000 0.300000 0.400000 0.400000" +:+ Convert.newline)).
Proof.
  destruct (@X19_label_fix_exchanges_class_ids_and_keeps_boxes AsciiRuntime.runtime
              Examples.missing_fastener "无螺丝" 1
              (PyFloat.of_Z 10) (PyFloat.of_Z 10) (PyFloat.of_Z 50) (PyFloat.of_Z 50)
              "sample" 100 100)
    as (obj' & Hswap & _ & _ & _ & Hconv).
  - split.
    + eexists. split; reflexivity.
    + eexists. split; [reflexivity |]. repeat split; vm_compute; reflexivity.
  - reflexivity.
  - exists obj'. split; [exact Hswap |]. rewrite Hconv. vm_compute. reflexivity.
Defined.

End LabelFixOnSamples.

Section BatchOnSamples.
Import Infer InferBatch.

Lemma X21_batch_counts_every_image_once_witness :
  exists (normal_count abnormal_count : nat) (log : list event),
    @predict_batch AsciiRuntime.runtime unit (fun _ => true) Samples.detector
      (fun _ _ _ => Some tt) Samples.batch_listing "out"
      = inr {| status_count := Some (normal_count, abnormal_count);
               console := log ++ [PrintBatchDone normal_count abnormal_count] |} /\
    (normal_count + abnormal_count + length (List.filter Terms.batch_failure log))%nat
      = length (glob_images Samples.batch_listing) /\
    In (PrintFailure "b.png" (KeyError unknown)) log.
Proof.
  destruct (@X21_batch_counts_every_image_once AsciiRuntime.runtime unit (fun _ => true)
              Samples.detector (fun _ _ _ => Some tt) Samples.batch_listing "out")
    as (_ & _ & Hrun); [discriminate |].
  destruct Hrun as (n & a & log & Hrun & _ & _ & Hsum & Hunknown);
    [vm_compute; discriminate |].
  exists n, a, log. split; [exact Hrun |]. split; [exact Hsum |].
  apply Hunknown; [vm_compute; auto | vm_compute; reflexivity].
Defined.

End BatchOnSamples.

(** ** The split assigner: a key with more than one image file *)

Section TwinImages.
Context `{PyRuntime} `{SkRuntime}.
Import Split.

Lemma count_occ_map_twice {A : Type} (key : A -> string) (l : list A) (a b : A) :
  In a l -> In b l -> a <> b -> key a = key b ->
  (2 <= count_occ string_dec (map key l) (key a))%nat.
Proof.
  intros Ha Hb Hne Hk.
  assert (Hone : forall (l' : list A) (c : A),
             In c l' -> key c = key a ->
             (1 <= count_occ string_dec (map key l') (key a))%nat).
  { intros l' c Hc Hkc. apply (count_occ_In string_dec).
    rewrite <- Hkc. now apply in_map. }
  induction l as [| x rest IH]; [destruct Ha |].
  cbn [map count_occ].
  destruct Ha as [-> | Ha], Hb as [-> | Hb]; try congruence.
  - destruct (string_dec (key a) (key a)) as [_ | Hn]; [| congruence].
    pose proof (Hone rest b Hb (eq_sym Hk)). lia.
  - rewrite Hk. destruct (string_dec (key b) (key b)) as [_ | Hn]; [| congruence].
    rewrite <- Hk. pose proof (Hone rest a Ha eq_refl). lia.
  - specialize (IH Ha Hb). destruct (string_dec (key x) (key a)); lia.
Qed.

Variable listing : list string.
Variable input_images input_labels : gmap string string.
Variable out_train out_val out_test : split_dir.
Variable g : rng.
Variable train_ratio val_ratio test_ratio : spec_float.

(** X22. The keys are collected in a list, not in a set: when the input
    directory holds two image files of the same key ([a.jpg] and
    [a.png], say), that key is assigned twice in every run that returns,
    to two splits or twice to the same one, so the three lists are not a
    partition of the keys. *)
Theorem X22_key_with_two_images_is_assigned_twice (f1 f2 : string) (out : outcome) :
  split_yolo_dataset listing input_images input_labels out_train out_val out_test g
                     train_ratio val_ratio test_ratio = inr out ->
  In f1 listing -> In f2 listing -> f1 <> f2 ->
  is_image f1 = true -> is_image f2 = true ->
  splitext_root f1 = splitext_root f2 ->
  (2 <= count_occ string_dec (train_files out ++ val_files out ++ test_files out)
                  (splitext_root f1))%nat /\
  ~ NoDup (train_files out ++ val_files out ++ test_files out).
Proof.
  intros Hrun H1 H2 Hne Hi1 Hi2 Hk.
  pose proof (split_yolo_dataset_Permutation listing input_images input_labels
                out_train out_val out_test g train_ratio val_ratio test_ratio out Hrun)
    as Hperm.
  assert (Hcount : (2 <= count_occ string_dec
                          (train_files out ++ val_files out ++ test_files out)
                          (splitext_root f1))%nat).
  { rewrite (Permutation_count_occ string_dec) in Hperm. rewrite Hperm.
    unfold image_keys. apply count_occ_map_twice with (b := f2); auto.
    - apply List.filter_In. now split.
    - apply List.filter_In. now split. }
  split; [exact Hcount |].
  intros Hnd. apply NoDup_ListNoDup in Hnd.
  rewrite (NoDup_count_occ string_dec) in Hnd.
  specialize (Hnd (splitext_root f1)). lia.
Qed.

End TwinImages.

Section TwinsRun.
Import Split.

Lemma X22_key_with_two_images_is_assigned_twice_witness :
  exists out : outcome,
    @Twins.split_twins ReversedIndices.runtime Examples.generator_1 = inr out /\
    (2 <= count_occ string_dec (train_files out ++ val_files out ++ test_files out) "a")%nat.
Proof.
  destruct (@Twins.split_twins ReversedIndices.runtime Examples.generator_1)
    as [e | out] eqn:Hrun; [vm_compute in Hrun; discriminate Hrun |].
  exists out. split; [reflexivity |].
  refine (proj1 (@X22_key_with_two_images_is_assigned_twice AsciiRuntime.runtime
                   ReversedIndices.runtime Twins.twin_images Twins.twin_image_files
                   Examples.three_label_files Examples.empty_split Examples.empty_split
                   Examples.empty_split Examples.generator_1 Examples.ratio_070
                   Examples.ratio_015 Examples.ratio_015 "a.jpg" "a.png" out Hrun
                   _ _ _ _ _ _)).
  - now left.
  - right. now left.
  - discriminate.
  - vm_compute. reflexivity.
  - vm_compute. reflexivity.
  - vm_compute. reflexivity.
Defined.

End TwinsRun.

(** ** The results of the float operations are doubles

    Rounding leaves a mantissa of at most 53 bits at the exponent that
    goes with its length, so that the sums, differences and quotients
    the scripts compute are valid binary64 numbers. *)

Section FloatValidity.

Lemma fexp_double (z : Z) : fexp PyFloat.prec PyFloat.emax z = Z.max (z - 53) (-1074).
Proof. reflexivity. Qed.

Lemma Zdigits2_nonneg (m : Z) : 0 <= Zdigits2 m.
Proof. destruct m; cbn [Zdigits2]; lia. Qed.

Lemma Zdigits2_bounds (m : Z) :
  0 < m -> 2 ^ (Zdigits2 m - 1) <= m < 2 ^ Zdigits2 m.
Proof.
  intros Hm. destruct m as [| p |]; try lia. cbn [Zdigits2].
  split; [apply digits2_pos_lower | apply digits2_pos_upper].
Qed.

Lemma Zdigits2_unique (m n : Z) :
  0 < m -> 2 ^ (n - 1) <= m < 2 ^ n -> Zdigits2 m = n.
Proof.
  intros Hm [Hlo Hhi]. pose proof (Zdigits2_bounds m Hm) as [Hl Hu].
  pose proof (Zdigits2_nonneg m) as Hd.
  assert (Hn : 0 <= n).
  { destruct (Z.le_gt_cases 0 n) as [| Hneg]; [assumption |].
    rewrite (Z.pow_neg_r 2 n) in Hhi by lia. lia. }
  assert (H1 : 2 ^ (Zdigits2 m - 1) < 2 ^ n) by lia.
  assert (H2 : 2 ^ (n - 1) < 2 ^ Zdigits2 m) by lia.
  apply Z.pow_lt_mono_r_iff in H1; [| lia | lia].
  apply Z.pow_lt_mono_r_iff in H2; [| lia | lia].
  lia.
Qed.

Lemma Zdigits2_le (m n : Z) : 0 <= n -> 0 <= m < 2 ^ n -> Zdigits2 m <= n.
Proof.
  intros Hn [Hm Hlt]. destruct (Z.eq_dec m 0) as [-> | Hne]; [cbn; lia |].
  pose proof (Zdigits2_bounds m ltac:(lia)) as [Hl _].
  assert (H1 : 2 ^ (Zdigits2 m - 1) < 2 ^ n) by lia.
  apply Z.pow_lt_mono_r_iff in H1; lia.
Qed.

Lemma Zdigits2_ge (m n : Z) : 2 ^ (n - 1) <= m -> 0 < m -> n <= Zdigits2 m.
Proof.
  intros Hlo Hm. pose proof (Zdigits2_bounds m Hm) as [_ Hu].
  pose proof (Zdigits2_nonneg m) as Hd.
  assert (H2 : 2 ^ (n - 1) < 2 ^ Zdigits2 m) by lia.
  apply Z.pow_lt_mono_r_iff in H2; lia.
Qed.

(** The first step of a rounding: the mantissa is shifted to the
    exponent that goes with its length. *)
Lemma shr_fexp_eq (m e : Z) (l : location) :
  0 <= m -> e <= fexp PyFloat.prec PyFloat.emax (Zdigits2 m + e) ->
  shr_m (fst (shr_fexp PyFloat.prec PyFloat.emax m e l))
    = m / 2 ^ (fexp PyFloat.prec PyFloat.emax (Zdigits2 m + e) - e) /\
  snd (shr_fexp PyFloat.prec PyFloat.emax m e l)
    = fexp PyFloat.prec PyFloat.emax (Zdigits2 m + e).
Proof.
  intros Hm He. unfold shr_fexp, shr.
  destruct (fexp PyFloat.prec PyFloat.emax (Zdigits2 m + e) - e) as [| n | n] eqn:Hn;
    cbn [fst snd].
  - rewrite shr_record_of_loc_m, Z.pow_0_r, Z.div_1_r. split; [reflexivity | lia].
  - rewrite iter_shr_1_m by (rewrite shr_record_of_loc_m; lia).
    rewrite shr_record_of_loc_m. split; [reflexivity | lia].
  - lia.
Qed.

(** After it the mantissa has at most 53 bits, and exactly 53 unless
    the exponent is the smallest one. *)
Lemma shr_fexp_fits (m e : Z) (l : location) :
  0 <= m -> e <= fexp PyFloat.prec PyFloat.emax (Zdigits2 m + e) ->
  let r := shr_fexp PyFloat.prec PyFloat.emax m e l in
  0 <= shr_m (fst r) < 2 ^ 53 /\ -1074 <= snd r /\
  (2 ^ 52 <= shr_m (fst r) \/ snd r = -1074).
Proof.
  intros Hm He r. destruct (shr_fexp_eq m e l Hm He) as [Hr1 Hr2].
  fold r in Hr1, Hr2. rewrite Hr1, Hr2. clear Hr1 Hr2 r.
  rewrite fexp_double in *.
  set (d := Zdigits2 m) in *. pose proof (Zdigits2_nonneg m) as Hd. fold d in Hd.
  set (t := Z.max (d + e - 53) (-1074)) in *.
  assert (Hk : 0 <= t - e) by lia.
  assert (Hp : 0 < 2 ^ (t - e)) by (apply Z.pow_pos_nonneg; lia).
  destruct (Z.eq_dec m 0) as [Hz | Hnz].
  - subst m. cbn in d. subst d. rewrite Z.div_0_l by lia.
    repeat split; try lia.
  - pose proof (Zdigits2_bounds m ltac:(lia)) as [Hl Hu]. fold d in Hl, Hu.
    split; [split |]; [apply Z.div_pos; lia | | split; [lia |]].
    + apply Z.div_lt_upper_bound; [exact Hp |].
      rewrite <- Z.pow_add_r by lia.
      eapply Z.lt_le_trans; [exact Hu |]. apply Z.pow_le_mono_r; lia.
    + destruct (Z.le_gt_cases (-1074) (d + e - 53)) as [Hbig | Hsmall]; [left | right; lia].
      apply Z.div_le_lower_bound; [exact Hp |].
      rewrite <- Z.pow_add_r by lia.
      etransitivity; [| exact Hl]. apply Z.pow_le_mono_r; lia.
Qed.

(** The second step of a rounding: the mantissa rounded to the nearest
    is shifted once more if it has grown to 54 bits. *)
Lemma round_shift_canonical (m1 e1 : Z) (loc : location) :
  0 <= m1 < 2 ^ 53 -> -1074 <= e1 -> (2 ^ 52 <= m1 \/ e1 = -1074) ->
  let r := shr_fexp PyFloat.prec PyFloat.emax (round_nearest_even m1 loc) e1 loc_Exact in
  0 <= shr_m (fst r) /\
  (0 < shr_m (fst r) ->
   fexp PyFloat.prec PyFloat.emax (Zdigits2 (shr_m (fst r)) + snd r) = snd r).
Proof.
  intros Hm He Hn r.
  pose proof (round_nearest_even_ge m1 loc) as Hge.
  pose proof (round_nearest_even_le m1 loc) as Hle.
  set (m2 := round_nearest_even m1 loc) in *.
  assert (Hpre : e1 <= fexp PyFloat.prec PyFloat.emax (Zdigits2 m2 + e1)).
  { rewrite fexp_double. destruct Hn as [Hn | Hn]; [| lia].
    pose proof (Zdigits2_ge m2 53 ltac:(simpl (53 - 1); lia) ltac:(lia)). lia. }
  destruct (shr_fexp_eq m2 e1 loc_Exact ltac:(lia) Hpre) as [Hr1 Hr2].
  fold r in Hr1, Hr2. rewrite Hr1, Hr2. clear Hr1 Hr2 r Hpre.
  rewrite !fexp_double.
  destruct (Z.eq_dec m2 (2 ^ 53)) as [Htop | Hlow].
  - rewrite Htop.
    assert (Hd : Zdigits2 (2 ^ 53) = 54) by reflexivity. rewrite Hd.
    replace (Z.max (54 + e1 - 53) (-1074) - e1) with 1 by lia.
    assert (Hq : 2 ^ 53 / 2 ^ 1 = 2 ^ 52) by reflexivity. rewrite Hq.
    assert (Hd' : Zdigits2 (2 ^ 52) = 53) by reflexivity. rewrite Hd'.
    split; [lia |]. intros _. lia.
  - assert (Hm2 : 0 <= m2 < 2 ^ 53) by lia.
    pose proof (Zdigits2_le m2 53 ltac:(lia) Hm2) as Hd53.
    pose proof (Zdigits2_nonneg m2) as Hd0.
    assert (Hsame : Z.max (Zdigits2 m2 + e1 - 53) (-1074) = e1).
    { destruct Hn as [Hn | Hn]; [| lia].
      pose proof (Zdigits2_ge m2 53 ltac:(simpl (53 - 1); lia) ltac:(lia)). lia. }
    rewrite Hsame, Z.sub_diag, Z.pow_0_r, Z.div_1_r.
    split; [lia |]. intros _. exact Hsame.
Qed.

Lemma binary_round_aux_valid (s : bool) (m e : Z) (l : location) :
  0 <= m -> e <= fexp PyFloat.prec PyFloat.emax (Zdigits2 m + e) ->
  valid_binary PyFloat.prec PyFloat.emax
    (binary_round_aux PyFloat.prec PyFloat.emax s m e l) = true.
Proof.
  intros Hm He. unfold binary_round_aux.
  pose proof (shr_fexp_fits m e l Hm He) as H1. cbn zeta in H1.
  destruct (shr_fexp PyFloat.prec PyFloat.emax m e l) as [mrs' e'].
  cbn [fst snd] in H1. destruct H1 as (Hm1 & He1 & Hn1).
  pose proof (round_shift_canonical (shr_m mrs') e' (loc_of_shr_record mrs') Hm1 He1 Hn1)
    as H2. cbn zeta in H2.
  destruct (shr_fexp PyFloat.prec PyFloat.emax _ e' loc_Exact) as [mrs'' e''].
  cbn [fst snd] in H2. destruct H2 as [Hm3 Hc].
  destruct (shr_m mrs'') as [| p | p]; [reflexivity | | lia].
  destruct (e'' <=? PyFloat.emax - PyFloat.prec) eqn:Hfit; [| reflexivity].
  cbn [valid_binary]. unfold bounded, canonical_mantissa. rewrite Hfit, andb_true_r.
  apply Z.eqb_eq. apply Hc. lia.
Qed.

Lemma Zdigits2_shift (p k : positive) :
  Zdigits2 (Zpos (Pos.iter xO p k)) = Zdigits2 (Zpos p) + Zpos k.
Proof.
  apply Zdigits2_unique; [lia |].
  pose proof (Zdigits2_bounds (Zpos p) ltac:(lia)) as [Hl Hu].
  pose proof (Zdigits2_nonneg (Zpos p)) as Hd.
  assert (Hd1 : 1 <= Zdigits2 (Zpos p)) by (cbn [Zdigits2]; lia).
  rewrite iter_xO_mul.
  replace (Zdigits2 (Zpos p) + Zpos k - 1) with (Zdigits2 (Zpos p) - 1 + Zpos k) by lia.
  rewrite !Z.pow_add_r by lia.
  assert (Hk : 0 < 2 ^ Zpos k) by (apply Z.pow_pos_nonneg; lia).
  split; nia.
Qed.

Lemma binary_round_valid (s : bool) (p : positive) (e : Z) :
  valid_binary PyFloat.prec PyFloat.emax
    (binary_round PyFloat.prec PyFloat.emax s p e) = true.
Proof.
  unfold binary_round.
  destruct (shl_align p e _) as [mz ez] eqn:Hs.
  apply binary_round_aux_valid; [lia |].
  unfold shl_align in Hs.
  destruct (fexp PyFloat.prec PyFloat.emax (Zpos (digits2_pos p) + e) - e)
    as [| k | k] eqn:Hk; inversion Hs; subst mz ez; clear Hs.
  - change (Zdigits2 (Zpos p)) with (Zpos (digits2_pos p)). lia.
  - change (Zdigits2 (Zpos p)) with (Zpos (digits2_pos p)). lia.
  - rewrite Zdigits2_shift. change (Zdigits2 (Zpos p)) with (Zpos (digits2_pos p)).
    rewrite !fexp_double in *. lia.
Qed.

Lemma binary_normalize_valid (m e : Z) (szero : bool) :
  valid_binary PyFloat.prec PyFloat.emax
    (binary_normalize PyFloat.prec PyFloat.emax m e szero) = true.
Proof.
  destruct m; cbn [binary_normalize]; [reflexivity | |]; apply binary_round_valid.
Qed.

Lemma of_Z_valid (z : Z) : valid_binary PyFloat.prec PyFloat.emax (PyFloat.of_Z z) = true.
Proof. apply binary_normalize_valid. Qed.

Lemma add_valid (x y : spec_float) :
  valid_binary PyFloat.prec PyFloat.emax x = true ->
  valid_binary PyFloat.prec PyFloat.emax y = true ->
  valid_binary PyFloat.prec PyFloat.emax (PyFloat.add x y) = true.
Proof.
  intros Hx Hy. unfold PyFloat.add.
  destruct x as [sx | sx | | sx mx ex], y as [sy | sy | | sy my ey];
    cbn [SFadd]; try assumption; try reflexivity;
    try (destruct sx, sy; reflexivity).
  apply binary_normalize_valid.
Qed.

Lemma sub_valid (x y : spec_float) :
  valid_binary PyFloat.prec PyFloat.emax x = true ->
  valid_binary PyFloat.prec PyFloat.emax y = true ->
  valid_binary PyFloat.prec PyFloat.emax (PyFloat.sub x y) = true.
Proof.
  intros Hx Hy. unfold PyFloat.sub.
  destruct x as [sx | sx | | sx mx ex], y as [sy | sy | | sy my ey];
    cbn [SFsub]; try assumption; try reflexivity;
    try (destruct sx, sy; reflexivity).
  apply binary_normalize_valid.
Qed.

(** The quotient of two mantissas is long enough for the rounding. *)
Lemma quotient_digits (m1 m2 s : Z) :
  0 < m1 -> 0 < m2 -> 0 <= s ->
  Zdigits2 m1 + s - Zdigits2 m2 <= Zdigits2 (m1 * 2 ^ s / m2).
Proof.
  intros H1 H2 Hs.
  pose proof (Zdigits2_bounds m1 H1) as [Hl1 _].
  pose proof (Zdigits2_bounds m2 H2) as [_ Hu2].
  pose proof (Zdigits2_nonneg (m1 * 2 ^ s / m2)) as Hq0.
  assert (Hd1 : 1 <= Zdigits2 m1) by (destruct m1; cbn [Zdigits2]; lia).
  assert (Hd2 : 1 <= Zdigits2 m2) by (destruct m2; cbn [Zdigits2]; lia).
  set (j := Zdigits2 m1 + s - Zdigits2 m2).
  destruct (Z.le_gt_cases j 0) as [| Hj]; [lia |].
  assert (Hq : 2 ^ (j - 1) <= m1 * 2 ^ s / m2).
  { apply Z.div_le_lower_bound; [exact H2 |].
    assert (Hpow : 2 ^ (Zdigits2 m1 - 1) * 2 ^ s = 2 ^ Zdigits2 m2 * 2 ^ (j - 1)).
    { rewrite <- !Z.pow_add_r by lia. f_equal. unfold j. lia. }
    assert (Hs0 : 0 < 2 ^ s) by (apply Z.pow_pos_nonneg; lia).
    assert (Hj0 : 0 < 2 ^ (j - 1)) by (apply Z.pow_pos_nonneg; lia).
    nia. }
  assert (Hpos : 0 < m1 * 2 ^ s / m2).
  { assert (0 < 2 ^ (j - 1)) by (apply Z.pow_pos_nonneg; lia). lia. }
  now apply Zdigits2_ge.
Qed.

Lemma div_valid (x y : spec_float) :
  valid_binary PyFloat.prec PyFloat.emax (PyFloat.div x y) = true.
Proof.
  unfold PyFloat.div.
  destruct x as [sx | sx | | sx mx ex], y as [sy | sy | | sy my ey];
    cbn [SFdiv]; try reflexivity.
  unfold SFdiv_core_binary.
  set (d1 := Zdigits2 (Zpos mx)). set (d2 := Zdigits2 (Zpos my)).
  set (e' := Z.min (fexp PyFloat.prec PyFloat.emax (d1 + ex - (d2 + ey))) (ex - ey)).
  set (s := ex - ey - e').
  assert (Hs : 0 <= s) by (unfold s, e'; lia).
  set (m' := match s with Z0 => Zpos mx | Zpos _ => Z.shiftl (Zpos mx) s | Zneg _ => 0 end).
  assert (Hm' : m' = Zpos mx * 2 ^ s).
  { unfold m'. destruct s as [| k | k] eqn:Hk; [rewrite Z.pow_0_r; lia | | lia].
    apply Z.shiftl_mul_pow2. lia. }
  pose proof (Z_div_mod m' (Zpos my) ltac:(lia)) as Hdm.
  unfold Z.div. destruct (Z.div_eucl m' (Zpos my)) as [q r] eqn:Hqr.
  assert (Hq : q = m' / Zpos my) by (unfold Z.div; now rewrite Hqr).
  assert (Hq0 : 0 <= q).
  { rewrite Hq. apply Z.div_pos; [| lia]. rewrite Hm'.
    assert (0 < 2 ^ s) by (apply Z.pow_pos_nonneg; lia). lia. }
  apply binary_round_aux_valid; [exact Hq0 |].
  pose proof (quotient_digits (Zpos mx) (Zpos my) s ltac:(lia) ltac:(lia) Hs) as Hdig.
  rewrite <- Hm', <- Hq in Hdig. fold d1 d2 in Hdig.
  assert (Hsdef : s = ex - ey - e') by reflexivity.
  assert (Hedef : e' = Z.min (Z.max (d1 + ex - (d2 + ey) - 53) (-1074)) (ex - ey))
    by reflexivity.
  clearbody m' s e'. rewrite fexp_double. lia.
Qed.

Lemma truediv_valid (x y z : spec_float) :
  PyFloat.truediv x y = inr z -> valid_binary PyFloat.prec PyFloat.emax z = true.
Proof.
  unfold PyFloat.truediv. destruct (PyFloat.is_zero y); [discriminate |].
  intros [= <-]. apply div_valid.
Qed.

Lemma truediv_int_valid (x z : spec_float) (n : Z) :
  PyFloat.truediv_int x n = inr z -> valid_binary PyFloat.prec PyFloat.emax z = true.
Proof.
  unfold PyFloat.truediv_int, PyFloat.of_int.
  destruct (PyFloat.of_Z n); cbn [bind ret raise]; try discriminate; apply truediv_valid.
Qed.

End FloatValidity.

(** ** Reading back a number between 0 and 1 *)

Section UnitQuotients.
Import CheckDataset.

Lemma shr_fexp_idle (m e : Z) (l : location) :
  fexp PyFloat.prec PyFloat.emax (Zdigits2 m + e) - e <= 0 ->
  shr_fexp PyFloat.prec PyFloat.emax m e l = (shr_record_of_loc m l, e).
Proof.
  intros Hle. unfold shr_fexp, shr.
  destruct (fexp PyFloat.prec PyFloat.emax (Zdigits2 m + e) - e); [reflexivity | lia | reflexivity].
Qed.

(** A mantissa of 53 bits is not changed by the rounding. *)
Lemma binary_round_aux_exact (s : bool) (p : positive) (e : Z) :
  Zdigits2 (Zpos p) = 53 -> -1074 <= e <= 971 ->
  binary_round_aux PyFloat.prec PyFloat.emax s (Zpos p) e loc_Exact = S754_finite s p e.
Proof.
  intros Hd He. unfold binary_round_aux.
  rewrite shr_fexp_idle by (rewrite Hd, fexp_double; lia).
  cbn [shr_record_of_loc loc_of_shr_record shr_m round_nearest_even].
  rewrite shr_fexp_idle by (rewrite Hd, fexp_double; lia).
  cbn [shr_record_of_loc shr_m].
  assert (Hfit : (e <=? PyFloat.emax - PyFloat.prec) = true).
  { apply Z.leb_le. unfold PyFloat.emax, PyFloat.prec. lia. }
  now rewrite Hfit.
Qed.

(** An integer below [2^53] is a double. *)
Lemma of_Z_exact (v : Z) :
  0 < v < 2 ^ 53 ->
  exists mx : positive,
    PyFloat.of_Z v = S754_finite false mx (Zdigits2 v - 53) /\
    Zdigits2 (Zpos mx) = 53 /\ Zpos mx = v * 2 ^ (53 - Zdigits2 v).
Proof.
  intros Hv. destruct v as [| p |]; try lia.
  pose proof (Zdigits2_le (Zpos p) 53 ltac:(lia) ltac:(lia)) as Hd.
  assert (Hd1 : 1 <= Zdigits2 (Zpos p)) by (cbn [Zdigits2]; lia).
  unfold PyFloat.of_Z, binary_normalize, binary_round, shl_align.
  change (Zpos (digits2_pos p)) with (Zdigits2 (Zpos p)).
  rewrite fexp_double.
  replace (Z.max (Zdigits2 (Zpos p) + 0 - 53) (-1074)) with (Zdigits2 (Zpos p) - 53) by lia.
  destruct (Zdigits2 (Zpos p) - 53 - 0) as [| k | k] eqn:Hk; [| lia |].
  - exists p. replace (Zdigits2 (Zpos p) - 53) with 0 by lia.
    rewrite binary_round_aux_exact by lia.
    split; [reflexivity |]. split; [lia |].
    replace (53 - Zdigits2 (Zpos p)) with 0 by lia. lia.
  - exists (Pos.iter xO p k).
    rewrite binary_round_aux_exact by (rewrite ?Zdigits2_shift; lia).
    split; [reflexivity |]. split; [rewrite Zdigits2_shift; lia |].
    rewrite iter_xO_mul. f_equal. f_equal. lia.
Qed.

(** Shifting keeps the magnitude [m * 2^e] at most [2^K]. *)
Lemma shr_fexp_le (K m e : Z) (l : location) :
  0 < m <= 2 ^ (K - e) -> -1074 <= e ->
  let r := shr_fexp PyFloat.prec PyFloat.emax m e l in
  (0 < shr_m (fst r) <= 2 ^ (K - snd r)) /\ (e <= snd r <= Z.max e (K - 52)).
Proof.
  intros Hm He. unfold shr_fexp, shr.
  pose proof (Zdigits2_bounds m ltac:(lia)) as [Hl Hu].
  pose proof (Zdigits2_nonneg m) as Hd0.
  set (d := Zdigits2 m) in *.
  assert (HK0 : 0 <= K - e).
  { destruct (Z.le_gt_cases 0 (K - e)) as [| Hneg]; [assumption |].
    rewrite (Z.pow_neg_r 2 (K - e)) in Hm by lia. lia. }
  assert (HK : d + e <= K + 1).
  { assert (Hle : 2 ^ (d - 1) <= 2 ^ (K - e)) by lia.
    destruct (Z.le_gt_cases d 0) as [| Hd]; [lia |].
    apply Z.pow_le_mono_r_iff in Hle; lia. }
  rewrite fexp_double.
  destruct (Z.max (d + e - 53) (-1074) - e) as [| n | n] eqn:Hn;
    cbn [fst snd]; rewrite ?shr_record_of_loc_m; try (split; lia).
  rewrite iter_shr_1_m by (rewrite shr_record_of_loc_m; lia).
  rewrite shr_record_of_loc_m.
  assert (Hnd : Zpos n = d - 53) by lia.
  split; [| lia]. split.
  - apply Z.div_str_pos. split; [apply Z.pow_pos_nonneg; lia |].
    etransitivity; [| exact Hl]. apply Z.pow_le_mono_r; lia.
  - apply Z.div_le_upper_bound; [apply Z.pow_pos_nonneg; lia |].
    rewrite <- Z.pow_add_r by lia.
    replace (Zpos n + (K - (e + Zpos n))) with (K - e) by lia. lia.
Qed.

(** The quotient of a double by a larger one is at most one. *)
Lemma div_below_one (mx my : positive) (ex ey : Z) :
  Zdigits2 (Zpos mx) = 53 -> Zdigits2 (Zpos my) = 53 ->
  ex <= ey -> -1021 <= ex - ey ->
  Zpos mx < Zpos my * 2 ^ (ey - ex) ->
  in_unit (PyFloat.div (S754_finite false mx ex) (S754_finite false my ey)) = true.
Proof.
  intros Hdx Hdy Hle Hlow Hlt.
  unfold PyFloat.div. cbn [SFdiv xorb]. unfold SFdiv_core_binary.
  rewrite Hdx, Hdy, fexp_double.
  replace (Z.min (Z.max (53 + ex - (53 + ey) - 53) (-1074)) (ex - ey))
    with (ex - ey - 53) by lia.
  replace (ex - ey - (ex - ey - 53)) with 53 by lia.
  rewrite Z.shiftl_mul_pow2 by lia.
  set (e' := ex - ey - 53).
  pose proof (Zdigits2_bounds (Zpos mx) ltac:(lia)) as [Hlx Hux].
  pose proof (Zdigits2_bounds (Zpos my) ltac:(lia)) as [Hly Huy].
  rewrite Hdx in Hlx, Hux. rewrite Hdy in Hly, Huy.
  assert (H53 : 0 < 2 ^ 53) by lia.
  assert (Hq : Z.div_eucl (Zpos mx * 2 ^ 53) (Zpos my)
               = ((Zpos mx * 2 ^ 53) / Zpos my, (Zpos mx * 2 ^ 53) mod Zpos my))
    by (unfold Z.div, Z.modulo; now destruct (Z.div_eucl _ _)).
  rewrite Hq. clear Hq.
  set (q := Zpos mx * 2 ^ 53 / Zpos my).
  set (loc := new_location (Zpos my) _).
  assert (Hq1 : 0 < q).
  { apply Z.div_str_pos. split; [lia |]. simpl (53 - 1) in Hlx. nia. }
  assert (Hq2 : q < 2 ^ (0 - e')).
  { apply Z.div_lt_upper_bound; [lia |].
    assert (Hpow : 2 ^ (0 - e') = 2 ^ (ey - ex) * 2 ^ 53).
    { rewrite <- Z.pow_add_r by lia. f_equal. unfold e'. lia. }
    rewrite Hpow. nia. }
  unfold binary_round_aux.
  pose proof (shr_fexp_bounded 0 q e' loc (conj Hq1 Hq2)
                ltac:(unfold emin, PyFloat.prec, PyFloat.emax, e'; lia)) as H1.
  cbn zeta in H1.
  destruct (shr_fexp PyFloat.prec PyFloat.emax q e' loc) as [mrs1 e1].
  cbn [fst snd] in H1. destruct H1 as [Hm1 He1].
  pose proof (round_nearest_even_ge (shr_m mrs1) (loc_of_shr_record mrs1)) as Hr1.
  pose proof (round_nearest_even_le (shr_m mrs1) (loc_of_shr_record mrs1)) as Hr2.
  set (m2 := round_nearest_even (shr_m mrs1) (loc_of_shr_record mrs1)) in *.
  assert (He1' : -1074 <= e1 <= -53) by (unfold e' in He1; lia).
  pose proof (shr_fexp_le 0 m2 e1 loc_Exact ltac:(lia) ltac:(lia)) as H2.
  cbn zeta in H2.
  destruct (shr_fexp PyFloat.prec PyFloat.emax m2 e1 loc_Exact) as [mrs2 e2].
  cbn [fst snd] in H2. destruct H2 as [Hm3 He3].
  destruct (shr_m mrs2) as [| m3 |]; try lia.
  assert (Hfit : (e2 <=? PyFloat.emax - PyFloat.prec) = true).
  { apply Z.leb_le. unfold PyFloat.emax, PyFloat.prec. lia. }
  rewrite Hfit. apply in_unit_spec. cbn [Spec.value_in_unit].
  rewrite (Z.max_r e2 0), (Z.max_l (- e2) 0) by lia.
  rewrite Z.pow_0_r, Z.mul_1_r. replace (- e2) with (0 - e2) by lia. lia.
Qed.

(** A number of at most six digits divided by [10^6]. *)
Lemma micro_in_unit (v : Z) :
  0 <= v <= 1000000 ->
  in_unit (PyFloat.div (PyFloat.of_Z v) (PyFloat.of_Z 1000000)) = true.
Proof.
  intros Hv.
  destruct (Z.eq_dec v 0) as [-> | Hnz]; [vm_compute; reflexivity |].
  destruct (Z.eq_dec v 1000000) as [-> | Hne]; [vm_compute; reflexivity |].
  destruct (of_Z_exact v ltac:(lia)) as (mx & Hx & Hdx & Hmx).
  assert (Hy : PyFloat.of_Z 1000000 = S754_finite false 8589934592000000 (-33))
    by (vm_compute; reflexivity).
  rewrite Hx, Hy.
  pose proof (Zdigits2_le v 20 ltac:(lia) ltac:(lia)) as Hd20.
  assert (Hd1 : 1 <= Zdigits2 v) by (destruct v; cbn [Zdigits2]; lia).
  apply div_below_one; [exact Hdx | reflexivity | lia | lia |].
  rewrite Hmx.
  replace (-33 - (Zdigits2 v - 53)) with (20 - Zdigits2 v) by lia.
  assert (Hpow : 2 ^ (53 - Zdigits2 v) = 2 ^ 33 * 2 ^ (20 - Zdigits2 v)).
  { rewrite <- Z.pow_add_r by lia. f_equal. lia. }
  rewrite Hpow.
  assert (Hp : 0 < 2 ^ (20 - Zdigits2 v)) by (apply Z.pow_pos_nonneg; lia).
  change (Zpos 8589934592000000) with (1000000 * 2 ^ 33).
  assert (H33 : 0 < 2 ^ 33) by lia.
  nia.
Qed.

End UnitQuotients.

(** ** The sample runtime reads a label back *)

Section AsciiReading.
Import AsciiRuntime Spec Terms CheckDataset ReadBack.

Lemma list_ascii_app (a b : string) :
  list_ascii_of_string (a +:+ b) = list_ascii_of_string a ++ list_ascii_of_string b.
Proof.
  induction a as [| c a IH]; simpl; [reflexivity | now rewrite IH].
Qed.

Lemma list_ascii_length (s : string) :
  length (list_ascii_of_string s) = String.length s.
Proof. induction s as [| c s IH]; cbn; [reflexivity | now rewrite IH]. Qed.

Lemma is_digit_digit_of (c : ascii) :
  is_digit c = true -> exists d : Z, digit_of c = Some d /\ 0 <= d <= 9.
Proof.
  unfold is_digit, digit_of. intros Hd. rewrite Hd.
  apply andb_prop in Hd as [H1 H2].
  apply Nat.leb_le in H1. apply Nat.leb_le in H2.
  eexists. split; [reflexivity | lia].
Qed.

Lemma is_digit_not_blank (c : ascii) : is_digit c = true -> is_blank c = false.
Proof.
  unfold is_digit, is_blank. intros Hd.
  apply andb_prop in Hd as [H1 H2].
  apply Nat.leb_le in H1. apply Nat.leb_le in H2.
  apply orb_false_intro; [apply Nat.eqb_neq; lia |].
  apply andb_false_intro2. apply Nat.leb_gt. lia.
Qed.

Lemma digits_value_bound (cs : list ascii) :
  forall acc : Z,
    forallb is_digit cs = true -> 0 <= acc ->
    exists v : Z,
      digits_value cs acc = Some v /\
      acc * 10 ^ Z.of_nat (length cs) <= v < (acc + 1) * 10 ^ Z.of_nat (length cs).
Proof.
  induction cs as [| c rest IH]; intros acc Hd Hacc.
  - exists acc. split; [reflexivity |]. cbn [length]. rewrite Z.pow_0_r. lia.
  - cbn [forallb] in Hd. apply andb_prop in Hd as [Hc Hrest].
    destruct (is_digit_digit_of c Hc) as (d & Hdig & Hrange).
    cbn [digits_value]. rewrite Hdig.
    destruct (IH (10 * acc + d) Hrest ltac:(lia)) as (v & Hv & Hb).
    exists v. split; [exact Hv |].
    cbn [length]. rewrite Nat2Z.inj_succ, Z.pow_succ_r by lia.
    assert (Hp : 0 < 10 ^ Z.of_nat (length rest)) by (apply Z.pow_pos_nonneg; lia).
    nia.
Qed.

Lemma parse_float_zero_point (fp : string) :
  parse_float ("0." +:+ fp) =
    match digits_value (list_ascii_of_string fp) 0 with
    | None => None
    | Some v =>
        Some (PyFloat.div (PyFloat.of_Z v)
                (PyFloat.of_Z (10 ^ Z.of_nat (length (list_ascii_of_string fp)))))
    end.
Proof. reflexivity. Qed.

Lemma parse_unit_decimal (s : string) :
  unit_decimal s ->
  exists x : spec_float, parse_float s = Some x /\ in_unit x = true.
Proof.
  intros [-> | (fp & -> & Hd & Hl)].
  - exists (PyFloat.div (PyFloat.of_Z 1000000) (PyFloat.of_Z 1000000)).
    split; vm_compute; reflexivity.
  - rewrite parse_float_zero_point.
    destruct (digits_value_bound (list_ascii_of_string fp) 0 Hd ltac:(lia))
      as (v & Hv & Hb).
    rewrite Hv, list_ascii_length, Hl. rewrite list_ascii_length, Hl in Hb.
    eexists. split; [reflexivity |].
    change (10 ^ Z.of_nat 6) with 1000000 in *.
    apply micro_in_unit. lia.
Qed.

Lemma parse_class_id (c : Z) : 0 <= c <= 3 -> parse_int (PyFloat.str_int c) = Some c.
Proof.
  intros Hc. assert (Hcases : c = 0 \/ c = 1 \/ c = 2 \/ c = 3) by lia.
  destruct Hcases as [-> | [-> | [-> | ->]]]; vm_compute; reflexivity.
Qed.

Lemma tokens_word (w : list ascii) :
  forall rest cur : list ascii,
    forallb (fun c => negb (is_blank c)) w = true ->
    tokens (w ++ rest) cur = tokens rest (rev w ++ cur).
Proof.
  induction w as [| c w IH]; intros rest cur Hw; [reflexivity |].
  cbn [forallb] in Hw. apply andb_prop in Hw as [Hc Hw].
  apply negb_true_iff in Hc.
  cbn [app tokens rev]. rewrite Hc, (IH rest (c :: cur) Hw), <- app_assoc. reflexivity.
Qed.

Lemma tokens_field (s : string) (b : ascii) (rest : list ascii) :
  field s -> is_blank b = true ->
  tokens (list_ascii_of_string s ++ b :: rest) [] = s :: tokens rest [].
Proof.
  intros [Hne Hw] Hb. rewrite (tokens_word _ _ _ Hw), app_nil_r.
  cbn [tokens]. rewrite Hb.
  destruct (rev (list_ascii_of_string s)) as [| c cur] eqn:Hrev.
  - exfalso. apply Hne.
    apply (f_equal (@rev ascii)) in Hrev. rewrite rev_involutive in Hrev.
    cbn [rev] in Hrev. rewrite <- (string_of_list_ascii_of_string s), Hrev. reflexivity.
  - rewrite <- Hrev, rev_involutive, string_of_list_ascii_of_string. reflexivity.
Qed.

Lemma unit_decimal_field (s : string) : unit_decimal s -> field s.
Proof.
  intros [-> | (fp & -> & Hd & _)].
  - split; [discriminate | vm_compute; reflexivity].
  - split; [discriminate |].
    change (list_ascii_of_string ("0." +:+ fp))
      with ("0"%char :: "."%char :: list_ascii_of_string fp).
    cbn [forallb]. apply andb_true_intro. split; [reflexivity |].
    apply andb_true_intro. split; [reflexivity |].
    apply forallb_forall. intros c Hc.
    unfold all_digits in Hd. rewrite forallb_forall in Hd.
    now rewrite (is_digit_not_blank c (Hd c Hc)).
Qed.

Lemma class_id_field (c : Z) : 0 <= c <= 3 -> field (PyFloat.str_int c).
Proof.
  intros Hc. assert (Hcases : c = 0 \/ c = 1 \/ c = 2 \/ c = 3) by lia.
  destruct Hcases as [-> | [-> | [-> | ->]]];
    (split; [discriminate | vm_compute; reflexivity]).
Qed.

Lemma split_fields (t0 t1 t2 t3 t4 : string) :
  field t0 -> field t1 -> field t2 -> field t3 -> field t4 ->
  split (t0 +:+ " " +:+ t1 +:+ " " +:+ t2 +:+ " " +:+ t3 +:+ " " +:+ t4 +:+
         Convert.newline)
    = [ t0; t1; t2; t3; t4 ].
Proof.
  intros H0 H1 H2 H3 H4. unfold split.
  assert (Hstep : forall (t rest : string),
             list_ascii_of_string (t +:+ " " +:+ rest)
               = list_ascii_of_string t ++ " "%char :: list_ascii_of_string rest).
  { intros t rest. now rewrite list_ascii_app. }
  rewrite !Hstep, list_ascii_app.
  rewrite !tokens_field by (assumption || reflexivity).
  change (list_ascii_of_string Convert.newline) with [ascii_of_nat 10].
  rewrite tokens_field by (assumption || reflexivity).
  reflexivity.
Qed.

Lemma ascii_reads_back : @reads_back AsciiRuntime.runtime.
Proof.
  split; [| split].
  - intros c f1 f2 f3 f4 Hc H1 H2 H3 H4.
    apply split_fields; auto using unit_decimal_field, class_id_field.
  - exact parse_class_id.
  - exact parse_unit_decimal.
Qed.

End AsciiReading.

(** ** From the converter to the checker *)

Section LabelsReadBack.
Context `{PyRuntime}.
Import Xml Convert Terms ReadBack.

Lemma lookup_class_range (cls_name : option string) (c : Z) :
  lookup_class CLASS_MAPPING cls_name = Some c -> 0 <= c <= 3.
Proof.
  unfold CLASS_MAPPING. cbn [lookup_class].
  destruct cls_name as [s |]; [| discriminate].
  repeat (destruct (String.eqb _ s); [intros [= <-]; lia |]). discriminate.
Qed.

(** The numbers of a line are quotients, hence doubles, and they are
    clamped before they are printed. *)
Lemma yolo_line_fields (c : Z) (xmin ymin xmax ymax : spec_float) (w h : Z)
    (line : string) :
  0 <= c <= 3 ->
  yolo_line c xmin ymin xmax ymax w h = inr line -> label_fields line.
Proof.
  intros Hc. unfold yolo_line.
  destruct (PyFloat.truediv (PyFloat.add xmin xmax) PyFloat.two) as [e | xs];
    cbn [bind]; [discriminate |].
  destruct (PyFloat.truediv_int xs w) as [e | x_center] eqn:Hx;
    cbn [bind]; [discriminate |].
  destruct (PyFloat.truediv (PyFloat.add ymin ymax) PyFloat.two) as [e | ys];
    cbn [bind]; [discriminate |].
  destruct (PyFloat.truediv_int ys h) as [e | y_center] eqn:Hy;
    cbn [bind]; [discriminate |].
  destruct (PyFloat.truediv_int (PyFloat.sub xmax xmin) w) as [e | width] eqn:Hw;
    cbn [bind]; [discriminate |].
  destruct (PyFloat.truediv_int (PyFloat.sub ymax ymin) h) as [e | height] eqn:Hh;
    cbn [bind ret]; [discriminate |].
  intros [= <-].
  exists c, (PyFloat.format_6f (clamp01 x_center)), (PyFloat.format_6f (clamp01 y_center)),
    (PyFloat.format_6f (clamp01 width)), (PyFloat.format_6f (clamp01 height)).
  split; [exact Hc |].
  repeat (split; [apply clamp01_unit_decimal; eapply truediv_int_valid; eassumption |]).
  reflexivity.
Qed.

Lemma convert_object_fields (file_base : string) (w h : Z) (obj : Element)
    (line : string) :
  convert_object file_base w h obj = inr (Written line) -> label_fields line.
Proof.
  unfold convert_object.
  destruct (deref (find "name" obj)) as [e | name]; cbn [bind]; [discriminate |].
  destruct (lookup_class CLASS_MAPPING (text name)) as [c |] eqn:Hc; [| discriminate].
  destruct (find "bndbox" obj) as [bbox |]; [| discriminate].
  destruct (coordinate bbox "xmin") as [e | xmin]; cbn [bind]; [discriminate |].
  destruct (coordinate bbox "ymin") as [e | ymin]; cbn [bind]; [discriminate |].
  destruct (coordinate bbox "xmax") as [e | xmax]; cbn [bind]; [discriminate |].
  destruct (coordinate bbox "ymax") as [e | ymax]; cbn [bind]; [discriminate |].
  destruct (yolo_line c xmin ymin xmax ymax w h) as [e | l] eqn:Hl;
    cbn [bind ret]; [discriminate |].
  intros [= <-]. eapply yolo_line_fields; [| exact Hl].
  eapply lookup_class_range; exact Hc.
Qed.

Lemma write_objects_fields (file_base : string) (w h : Z) (objs : list Element) :
  Forall label_fields (fst (fst (write_objects file_base w h objs))).
Proof.
  induction objs as [| obj rest IH]; cbn [write_objects]; [constructor |].
  destruct (convert_object file_base w h obj) as [e | [line | ev]] eqn:Hobj;
    [constructor | |];
    destruct (write_objects file_base w h rest) as [[lines evs] r]; cbn [fst] in *.
  - constructor; [| exact IH]. eapply convert_object_fields; exact Hobj.
  - exact IH.
Qed.

Variable voc_annotations : gmap string (option Element).
Variable voc_images : gmap string string.

Lemma process_file_well_written (st : state) (file_base : string) :
  well_written (labels st) ->
  well_written (labels (process_file voc_annotations voc_images st file_base)).
Proof.
  intros Hst. unfold process_file.
  destruct (voc_annotations !! (file_base +:+ ".xml")) as [content |]; [| exact Hst].
  destruct (root <-- et_parse content ;; hd <-- read_header root ;; ret (root, hd))
    as [e | [root [w h image_name | |]]]; try exact Hst.
  pose proof (write_objects_fields file_base w h (iter "object" root)) as Hlines.
  destruct (write_objects file_base w h (iter "object" root)) as [[lines evs] r].
  cbn [fst] in Hlines.
  assert (Hnew : well_written (<[file_base +:+ ".txt" := lines]> (labels st))).
  { intros path ls. rewrite lookup_insert. destruct (decide _) as [_ | _].
    - now intros [= <-].
    - apply Hst. }
  destruct r as [e |]; [exact Hnew |].
  destruct (voc_images !! image_name); exact Hnew.
Qed.

Lemma process_split_well_written (file_list : list string) :
  forall st : state,
    well_written (labels st) ->
    well_written (labels (process_split voc_annotations voc_images st file_list)).
Proof.
  induction file_list as [| k rest IH]; intros st Hst; [exact Hst |].
  cbn [process_split fold_left]. apply IH. now apply process_file_well_written.
Qed.

Lemma fields_counted (line : string) :
  reads_back -> label_fields line -> counted line.
Proof.
  intros (Hsplit & Hint & Hfloat) (c & f1 & f2 & f3 & f4 & Hc & H1 & H2 & H3 & H4 & ->).
  unfold counted, CheckDataset.check_line.
  rewrite (Hsplit c f1 f2 f3 f4 Hc H1 H2 H3 H4), (Hint c Hc).
  destruct (Hfloat f1 H1) as (x1 & -> & Hu1). destruct (Hfloat f2 H2) as (x2 & -> & Hu2).
  destruct (Hfloat f3 H3) as (x3 & -> & Hu3). destruct (Hfloat f4 H4) as (x4 & -> & Hu4).
  rewrite (proj2 (known_class_spec c) Hc), Hu1, Hu2, Hu3, Hu4. cbn [negb andb].
  exists c, x3, x4. reflexivity.
Qed.

Lemma counted_not_malformed (line : string) :
  counted line -> ~ Spec.malformed_line line.
Proof.
  intros (c & w & h & Hl) Hbad.
  exact (proj2 (not_counted_malformed line) Hbad c w h Hl).
Qed.

(** X23. What the converter writes, the checker accepts.  Every line of
    a label file written by [process_split] is a class id from 0 to 3
    followed by four numbers printed as [1.000000] or as [0.] and six
    digits, with single blanks between them; when the label directory
    held only such lines before the run, it holds only such lines after
    it.  When [split], [int] and [float] read such a text back, the
    checker counts every line of every label file, and its content
    audit lists no error file, over whatever keys of that directory it
    is run. *)
Theorem X23_written_labels_pass_the_content_audit (st : state)
    (file_list : list string) :
  well_written (labels st) ->
  let st' := process_split voc_annotations voc_images st file_list in
  well_written (labels st') /\
  (reads_back ->
   (forall (path : string) (lines : list string),
       labels st' !! path = Some lines -> Forall counted lines) /\
   (forall common_files : gset string,
       (forall k, k ∈ common_files -> is_Some (labels st' !! (k +:+ ".txt"))) ->
       CheckDataset.error_files
         (CheckDataset.audit (as_read (labels st')) common_files) = [])).
Proof.
  intros Hst st'.
  pose proof (process_split_well_written file_list st Hst) as Hw. fold st' in Hw.
  split; [exact Hw |]. intros Hrt.
  assert (Hall : forall path lines, labels st' !! path = Some lines ->
                                    Forall counted lines).
  { intros path lines Hl. eapply Forall_impl; [exact (Hw path lines Hl) |].
    intros line. now apply fields_counted. }
  split; [exact Hall |].
  intros common_files Hkeys. apply audit_clean. intros k Hk.
  destruct (Hkeys k Hk) as [lines Hl].
  unfold Spec.faulty, Spec.readable, as_read. rewrite lookup_fmap, Hl. cbn [fmap option_fmap option_map].
  intros (line & Hin & Hbad).
  pose proof (Hall _ _ Hl) as Hc. rewrite Forall_forall in Hc.
  exact (counted_not_malformed line (Hc line ltac:(now apply list_elem_of_In)) Hbad).
Qed.

End LabelsReadBack.

Section ReadBackOnSamples.
Import Convert ReadBack.

Lemma X23_written_labels_pass_the_content_audit_witness :
  well_written (labels Examples.fresh_output) /\
  CheckDataset.error_files
    (@CheckDataset.audit AsciiRuntime.runtime
       (as_read (labels (@process_split AsciiRuntime.runtime Examples.one_annotation ∅
                           Examples.fresh_output [ "s1" ])))
       {[ "s1" ]}) = [].
Proof.
  assert (Hfresh : well_written (labels Examples.fresh_output)).
  { intros path lines Hl. cbn [labels Examples.fresh_output] in Hl.
    rewrite lookup_empty in Hl. discriminate Hl. }
  split; [exact Hfresh |].
  refine (proj2 (proj2 (@X23_written_labels_pass_the_content_audit AsciiRuntime.runtime
                          Examples.one_annotation ∅ Examples.fresh_output [ "s1" ] Hfresh)
                   ascii_reads_back) {[ "s1" ]} _).
  intros k Hk. apply elem_of_singleton in Hk. subst k.
  eexists. vm_compute. reflexivity.
Defined.

End ReadBackOnSamples.
